(** * Secure link access control, issuance and idempotent generation

    A shallow embedding of the edge functions
    [validate_case_access], [regenerate_link] and
    [generate_case_from_pipedrive], of the authenticated route
    [/api/generate], of the shared crypto helpers and of the
    calculation engine, together with the properties of the
    specification that concern them.

    Conventions of the embedding:
    - JavaScript numbers that hold counters, W-2 counts and amounts are
      exact integers ([Z]); instants are milliseconds since the epoch
      ([Z]), the value [Date.getTime()] returns;
    - strings are byte strings (their UTF-8 encoding), so that
      [TextEncoder.encode] is the list of their bytes;
    - a handler is a computation over the [World] (the two tables and
      the log of outbound calls) that may throw; the [try]/[catch] of
      each handler turns a throw into its error response and keeps the
      writes made before it;
    - what a handler reads from outside (clock, random bytes, fresh
      row identifiers, whether the datastore answers a call with an
      error) is given by a record of that handler. *)

From Stdlib Require Import ZArith NArith List String Ascii Bool Lia.
From Stdlib Require Import Strings.Byte DecimalString DecimalPos DecimalFacts.
Import ListNotations.

Local Open Scope string_scope.
Local Open Scope Z_scope.

(** ** JavaScript values and string helpers *)

Module Js.

(** [!s] for a string: only the empty string is falsy. *)
Definition falsy (s : string) : bool :=
  match s with
  | EmptyString => true
  | String _ _ => false
  end.

(** [!v] for a nullable string (missing environment variable,
    missing JSON field). *)
Definition falsy_opt (v : option string) : bool :=
  match v with
  | None => true
  | Some s => falsy s
  end.

(** [n || 0] on a number. *)
Definition or_zero (n : Z) : Z := if n =? 0 then 0 else n.

Fixpoint repeat_char (c : ascii) (n : nat) : string :=
  match n with
  | O => EmptyString
  | S k => String c (repeat_char c k)
  end.

(** [s.padStart(n, c)] for a one-character filler. *)
Definition padStart (s : string) (n : nat) (c : ascii) : string :=
  repeat_char c (n - String.length s) ++ s.

(** [String(n)] for an integer. *)
Definition string_of_Z (n : Z) : string :=
  match n with
  | Z0 => "0"
  | Zpos p => NilZero.string_of_uint (Pos.to_uint p)
  | Zneg p => "-" ++ NilZero.string_of_uint (Pos.to_uint p)
  end.

(** [xs.join("")]. *)
Fixpoint join (xs : list string) : string :=
  match xs with
  | [] => EmptyString
  | x :: rest => x ++ join rest
  end.

(** The number of bytes of the white-space character the UTF-8 text
    [s] starts with, 0 when it starts with none.  The white space of
    [String.prototype.trim] is WhiteSpace and LineTerminator of
    ECMA-262: TAB, LF, VT, FF, CR and SPACE (one byte), U+00A0 (two
    bytes), and U+1680, U+2000 to U+200A, U+2028, U+2029, U+202F,
    U+205F, U+3000 and U+FEFF (three bytes). *)
Definition space_length (s : string) : nat :=
  match s with
  | EmptyString => 0
  | String a rest =>
      let x := N_of_ascii a in
      if (((9 <=? x) && (x <=? 13)) || (x =? 32))%N then 1
      else
        match rest with
        | EmptyString => 0
        | String b rest2 =>
            let y := N_of_ascii b in
            if ((x =? 194) && (y =? 160))%N then 2
            else
              match rest2 with
              | EmptyString => 0
              | String c _ =>
                  let z := N_of_ascii c in
                  if (((x =? 225) && (y =? 154) && (z =? 128))
                      || ((x =? 226) && (y =? 128)
                          && (((128 <=? z) && (z <=? 138))
                              || (z =? 168) || (z =? 169) || (z =? 175)))
                      || ((x =? 226) && (y =? 129) && (z =? 159))
                      || ((x =? 227) && (y =? 128) && (z =? 128))
                      || ((x =? 239) && (y =? 187) && (z =? 191)))%N
                  then 3 else 0
              end
        end
  end.

(** [s.trimStart()] *)
Fixpoint trimStart (s : string) : string :=
  match s with
  | EmptyString => EmptyString
  | String _ rest =>
      match space_length s, rest with
      | 1%nat, _ => trimStart rest
      | 2%nat, String _ rest2 => trimStart rest2
      | 3%nat, String _ (String _ rest3) => trimStart rest3
      | _, _ => s
      end
  end.

(** The text holds white space only. *)
Definition all_space (s : string) : bool := falsy (trimStart s).

(** [s.trimEnd()]: the text is cut where what follows is white space
    only. *)
Fixpoint trimEnd (s : string) : string :=
  match s with
  | EmptyString => EmptyString
  | String c rest => if all_space s then EmptyString else String c (trimEnd rest)
  end.

(** [s.trim()] *)
Definition trim (s : string) : string := trimEnd (trimStart s).

(** A number: an IEEE 754 double.  A finite double is an integer
    ([Int z]) or the fraction [m / 2^k] with [m] odd
    ([NonInteger m k]), of at most 53 significant bits and below
    [2^1024] in magnitude; the two zeros are [Int 0], no test of the
    code tells them apart. *)
Inductive Num : Type :=
| Int (z : Z)
| NonInteger (m : Z) (k : positive)
| NaN
| Infinity (negative : bool).

(** The integer [x] rounded to 53 significant bits, to nearest and
    ties to even. *)
Definition round53 (x : Z) : Z :=
  let a := Z.abs x in
  let drop := Z.log2 a - 52 in
  if drop <=? 0 then x
  else
    let q := Z.shiftr a drop in
    let rest := Z.land a (Z.ones drop) in
    let half := Z.shiftl 1 (drop - 1) in
    let up := (half <? rest) || ((rest =? half) && Z.odd q) in
    Z.sgn x * Z.shiftl (if up then q + 1 else q) drop.

(** [m / 2^k] in lowest terms; [fuel] is [k]. *)
Fixpoint reduce (fuel : nat) (m k : Z) : Num :=
  match fuel with
  | O => Int m
  | S rest => if Z.even m then reduce rest (m / 2) (k - 1) else NonInteger m (Z.to_pos k)
  end.

(** The double an operation returns whose exact result is
    [m / 2^k], for [0 <= k <= 1074]: the result is rounded to 53
    significant bits, and is an infinity from [2^1024] on. *)
Definition of_dyadic (m k : Z) : Num :=
  let r := round53 m in
  if 2 ^ (1024 + k) <=? Z.abs r then Infinity (m <? 0)
  else reduce (Z.to_nat k) r k.

(** [a * c] for an integer [c] that is a double. *)
Definition times (a : Num) (c : Z) : Num :=
  match a with
  | Int z => of_dyadic (z * c) 0
  | NonInteger m k => of_dyadic (m * c) (Zpos k)
  | NaN => NaN
  | Infinity negative => if c =? 0 then NaN else Infinity (xorb negative (c <? 0))
  end.

(** [a + b] *)
Definition plus (a b : Num) : Num :=
  let parts (n : Num) : Z * Z :=
    match n with
    | Int z => (z, 0)
    | NonInteger m k => (m, Zpos k)
    | _ => (0, 0)
    end in
  match a, b with
  | NaN, _ | _, NaN => NaN
  | Infinity x, Infinity y => if Bool.eqb x y then a else NaN
  | Infinity _, _ => a
  | _, Infinity _ => b
  | _, _ =>
      let '(ma, ka) := parts a in
      let '(mb, kb) := parts b in
      let k := Z.max ka kb in
      of_dyadic (ma * 2 ^ (k - ka) + mb * 2 ^ (k - kb)) k
  end.

(** What [JSON.stringify] sends for a number, and a [numeric] or
    [jsonb] column gives back: [null] for [NaN] and the infinities. *)
Definition json (n : Num) : option Num :=
  match n with
  | Int _ | NonInteger _ _ => Some n
  | NaN | Infinity _ => None
  end.

(** The number formatting of the platform:
    [Intl.NumberFormat("en-US", { style: "currency", currency: "USD" })
    .format], and the digits of Number::toString for the numbers that
    are not integers below [10^21]. *)
Record Formatting : Type := {
  currency : Num -> string;
  digits : Num -> string
}.

(** [String(n)], [`${n}`] *)
Definition toString (f : Formatting) (n : Num) : string :=
  match n with
  | Int z => if Z.abs z <? 10 ^ 21 then string_of_Z z else digits f n
  | NonInteger _ _ => digits f n
  | NaN => "NaN"
  | Infinity false => "Infinity"
  | Infinity true => "-Infinity"
  end.

Inductive Value : Type :=
| Undefined
| Null
| Boolean (b : bool)
| Number (n : Num)
| Str (s : string)
| Object.

(** [!v]. *)
Definition not (v : Value) : bool :=
  match v with
  | Undefined | Null => true
  | Boolean b => negb b
  | Number (Int z) => z =? 0
  | Number NaN => true
  | Number _ => false
  | Str s => falsy s
  | Object => false
  end.

Inductive Type_ : Type :=
| t_undefined | t_object | t_boolean | t_number | t_string.

(** [typeof v] *)
Definition typeof (v : Value) : Type_ :=
  match v with
  | Undefined => t_undefined
  | Null | Object => t_object
  | Boolean _ => t_boolean
  | Number _ => t_number
  | Str _ => t_string
  end.

Definition is_string (v : Value) : bool :=
  match typeof v with t_string => true | _ => false end.

(** [Number.isFinite(n)] *)
Definition isFinite (n : Num) : bool :=
  match n with
  | Int _ | NonInteger _ _ => true
  | NaN | Infinity _ => false
  end.

(** [Number.isInteger(n)] *)
Definition isInteger (n : Num) : bool :=
  match n with
  | Int _ => true
  | _ => false
  end.

(** [n <= 0] *)
Definition le_zero (n : Num) : bool :=
  match n with
  | Int z => z <=? 0
  | NonInteger m _ => m <? 0
  | NaN => false
  | Infinity negative => negative
  end.

(** The line feed of a template literal. *)
Definition LF : string := String (ascii_of_nat 10) EmptyString.

(** [xs.join(sep)] *)
Fixpoint join_with (sep : string) (xs : list string) : string :=
  match xs with
  | [] => EmptyString
  | [x] => x
  | x :: rest => x ++ sep ++ join_with sep rest
  end.

End Js.

(** ** The computation type of the handlers *)

(** What an [await]ed call or a statement ends with. *)
Inductive Outcome (A : Type) : Type :=
| Returned (a : A)
| Thrown (message : string).
Arguments Returned {A} a.
Arguments Thrown {A} message.

Section Computation.

Variable World : Type.

Definition M (A : Type) : Type := World -> Outcome A * World.

Definition ret {A} (a : A) : M A := fun w => (Returned a, w).

Definition throw {A} (message : string) : M A := fun w => (Thrown message, w).

Definition bind {A B} (m : M A) (k : A -> M B) : M B :=
  fun w =>
    match m w with
    | (Returned a, w') => k a w'
    | (Thrown message, w') => (Thrown message, w')
    end.

Definition get : M World := fun w => (Returned w, w).

Definition put (w : World) : M unit := fun _ => (Returned tt, w).

(** [try { body } catch (err) { handler }] around a whole handler. *)
Definition try_catch {A} (body : M A) (handler : string -> A) (w : World) : A * World :=
  match body w with
  | (Returned a, w') => (a, w')
  | (Thrown message, w') => (handler message, w')
  end.

(** [try { call } catch (e) { console.error(...) }]: the failure of
    a call that the handler declares non-fatal is swallowed. *)
Definition non_fatal (call : M unit) : M unit :=
  fun w =>
    match call w with
    | (_, w') => (Returned tt, w')
    end.

End Computation.

Arguments ret {World A} a.
Arguments throw {World A} message.
Arguments bind {World A B} m k.
Arguments get {World}.
Arguments put {World} w.
Arguments try_catch {World A} body handler w.
Arguments non_fatal {World} call.

Declare Scope handler_scope.
Delimit Scope handler_scope with handler.
Notation "x <- m ;; k" := (bind m (fun x => k))
  (at level 61, m at next level, right associativity) : handler_scope.
Notation "m ;;; k" := (bind m (fun _ => k))
  (at level 61, right associativity) : handler_scope.

Local Open Scope handler_scope.

(** ** Configuration constants *)

(** [supabase/functions/_shared/constants.ts], the constants of the
    edge functions. *)
Module EdgeConstants.
(** Per-W2 multiplier for Total Tax Reduction *)
Definition RATE_TOTAL : Z := 3357.
(** Per-W2 multiplier for Employer Net Savings *)
Definition RATE_ER : Z := 1187.
(** Per-W2 multiplier for Employee Reduction *)
Definition RATE_EE : Z := 2170.
(** Link expiry in days *)
Definition LINK_EXPIRY_DAYS : Z := 30.
(** Lock duration in minutes after too many failed attempts *)
Definition LOCK_DURATION_MINUTES : Z := 30.
(** Max passcode attempts before locking *)
Definition MAX_ATTEMPTS : Z := 10.
(** Idempotency window in seconds *)
Definition IDEMPOTENCY_WINDOW_SECONDS : Z := 60.
End EdgeConstants.

(** [src/lib/constants.ts], the constants of the Next.js application. *)
Module LibConstants.
(** Per-W2 multiplier for Total Tax Reduction *)
Definition RATE_TOTAL : Z := 3356.
(** Per-W2 multiplier for Employer Net Savings *)
Definition RATE_ER : Z := 1186.
(** Per-W2 multiplier for Employee Reduction *)
Definition RATE_EE : Z := 2170.
(** Link expiry in days *)
Definition LINK_EXPIRY_DAYS : Z := 30.
End LibConstants.

(** ** Shared crypto helpers ([_shared/crypto.ts], [src/lib/crypto.ts]) *)

Module Crypto.

(** One hexadecimal digit of [Number.prototype.toString(16)]. *)
Definition hex_digit (n : N) : ascii :=
  match n with
  | 0%N => "0" | 1%N => "1" | 2%N => "2" | 3%N => "3"
  | 4%N => "4" | 5%N => "5" | 6%N => "6" | 7%N => "7"
  | 8%N => "8" | 9%N => "9" | 10%N => "a" | 11%N => "b"
  | 12%N => "c" | 13%N => "d" | 14%N => "e" | _ => "f"
  end%char.

(** [b.toString(16)] for an element of a [Uint8Array]: one digit
    below 16, two digits from 16 on. *)
Definition toString16 (b : byte) : string :=
  let n := Byte.to_N b in
  if (n <? 16)%N then String (hex_digit n) EmptyString
  else String (hex_digit (n / 16)) (String (hex_digit (n mod 16)) EmptyString).

(** [Array.from(bytes).map((b) => b.toString(16).padStart(2, "0")).join("")] *)
Definition hex (bytes : list byte) : string :=
  Js.join (map (fun b => Js.padStart (toString16 b) 2 "0"%char) bytes).

(** The characters of a lower-case hexadecimal string. *)
Definition is_hex_char (c : ascii) : bool :=
  existsb (Ascii.eqb c) (list_ascii_of_string "0123456789abcdef").

(** [new TextEncoder().encode(s)] *)
Definition encode (s : string) : list byte := list_byte_of_string s.

Section Digest.

(** [crypto.subtle.digest("SHA-256", data)] of the platform, which
    [createHash("sha256")] of Node computes as well. *)
Variable sha256 : list byte -> list byte.

(** SHA-256 hash a string with a pepper prefix.  Returns the
    hex-encoded digest. *)
Definition hashWithPepper (value pepper : string) : string :=
  let data := encode (pepper ++ value) in
  let digest := sha256 data in
  hex digest.

End Digest.

(** Generate a cryptographically random token (32 bytes) as hex
    string; [bytes] is the array [crypto.getRandomValues] filled. *)
Definition generateToken (bytes : list byte) : string := hex bytes.

(** [x >>> 0] after [|] and [<<] on 32-bit integers: the unsigned
    value of the low 32 bits. *)
Definition to_uint32 (x : Z) : Z := x mod 2 ^ 32.

(** Generate a 6-digit numeric passcode as a string (zero-padded);
    [b0 .. b3] are the four random bytes. *)
Definition generatePasscode (b0 b1 b2 b3 : byte) : string :=
  let v (b : byte) := Z.of_N (Byte.to_N b) in
  let num :=
    to_uint32
      (Z.lor (Z.lor (Z.lor (Z.shiftl (v b0) 24) (Z.shiftl (v b1) 16))
                    (Z.shiftl (v b2) 8))
             (v b3)) in
  Js.padStart (Js.string_of_Z (num mod 1000000)) 6 "0"%char.

End Crypto.

(** ** The Link Record Store: the tables [cases] and [case_links] *)

Module Store.

(** [calc_inputs]: the raw inputs and rates of a calculation, as
    the [jsonb] column holds them. *)
Record CalcInputs : Type := {
  w2_count : option Js.Num;
  tax_year : Z;
  rate_total : Z;
  rate_er : Z;
  rate_ee : Z
}.

(** A row of [cases]. *)
Record Case : Type := {
  case_pk : string;                       (* id *)
  pipedrive_deal_id : option Z;           (* the number of the deal, held as text *)
  user_id : option string;
  company_name : string;
  industry : string;
  status : string;
  calc_total : option Js.Num;             (* numeric, [None] is NULL *)
  calc_er : option Js.Num;
  calc_ee : option Js.Num;
  calc_inputs : CalcInputs;
  calc_explanation : string;
  last_generated_at : option Z
}.

(** A row of [case_links]. *)
Record CaseLink : Type := {
  id : string;
  case_id : string;
  token_hash : string;
  passcode_hash : string;
  expires_at : Z;
  revoked_at : option Z;
  attempt_count : Z;
  locked_until : option Z;
  view_count : Z;
  last_viewed_at : option Z;
  shareable_url : option string
}.

(** Calls to the external collaborators (CRM and chat), kept as a
    log: their failure is non-fatal in every handler. *)
Inductive FieldValue : Type :=
| TextValue (s : string)
| InstantValue (t : Z).

Inductive Outbound : Type :=
| PipedrivePut (dealId : Z) (fields : list (string * FieldValue))
| SlackPostMessage (channel : string) (url passcode : string).

Record World : Type := {
  case_links : list CaseLink;
  cases : list Case;
  outbound : list Outbound
}.

(** The [{ data, error }] a query resolves to. *)
Record PgResult (A : Type) : Type := {
  data : option A;
  error : bool
}.
Arguments data {A} _.
Arguments error {A} _.

Definition pg_error {A} : PgResult A := {| data := None; error := true |}.
Definition pg_data {A} (a : option A) : PgResult A := {| data := a; error := false |}.

(** [.maybeSingle()]: no row is [null] without error, one row is the
    row, several rows are an error. *)
Definition maybeSingle {A} (fails : bool) (rows : list A) : PgResult A :=
  if fails then pg_error
  else match rows with
       | [] => pg_data None
       | [row] => pg_data (Some row)
       | _ => pg_error
       end.

(** [.single()]: exactly one row, anything else is an error. *)
Definition single {A} (fails : bool) (rows : list A) : PgResult A :=
  if fails then pg_error
  else match rows with
       | [row] => pg_data (Some row)
       | _ => pg_error
       end.

(** The columns an [update] of [case_links] sets; [None] leaves the
    column as it is. *)
Record LinkUpdate : Type := {
  set_attempt_count : option Z;
  set_locked_until : option Z;
  set_view_count : option Z;
  set_last_viewed_at : option Z;
  set_revoked_at : option Z
}.

Definition or_keep {A} (new : option A) (old : A) : A :=
  match new with Some v => v | None => old end.

Definition or_keep_opt {A} (new : option A) (old : option A) : option A :=
  match new with Some v => Some v | None => old end.

Definition apply_update (u : LinkUpdate) (l : CaseLink) : CaseLink :=
  {| id := id l;
     case_id := case_id l;
     token_hash := token_hash l;
     passcode_hash := passcode_hash l;
     expires_at := expires_at l;
     revoked_at := or_keep_opt (set_revoked_at u) (revoked_at l);
     attempt_count := or_keep (set_attempt_count u) (attempt_count l);
     locked_until := or_keep_opt (set_locked_until u) (locked_until l);
     view_count := or_keep (set_view_count u) (view_count l);
     last_viewed_at := or_keep_opt (set_last_viewed_at u) (last_viewed_at l);
     shareable_url := shareable_url l |}.

Definition with_links (w : World) (ls : list CaseLink) : World :=
  {| case_links := ls; cases := cases w; outbound := outbound w |}.

Definition with_cases (w : World) (cs : list Case) : World :=
  {| case_links := case_links w; cases := cs; outbound := outbound w |}.

Definition with_outbound (w : World) (o : Outbound) : World :=
  {| case_links := case_links w; cases := cases w;
     outbound := (outbound w ++ [o])%list |}.

(** The rows [.eq("token_hash", h).eq("case_id", c)] selects. *)
Definition matching_links (h c : string) (links : list CaseLink) : list CaseLink :=
  filter (fun l => String.eqb (token_hash l) h && String.eqb (case_id l) c) links.

(** The rows of [cases] that [.eq("id", c)] selects. *)
Definition matching_cases (c : string) (ks : list Case) : list Case :=
  filter (fun k => String.eqb (case_pk k) c) ks.

(** [from("case_links").select("*").eq("token_hash", h).eq("case_id", c).maybeSingle()] *)
Definition select_link (fails : bool) (h c : string) : M World (PgResult CaseLink) :=
  w <- get ;;
  ret (maybeSingle fails (matching_links h c (case_links w))).

(** [from("case_links").update(u).<filter>]: every row the filter
    selects is updated; a call the datastore answers with an error
    changes nothing.  The answer is the [error] of the result. *)
Definition update_links (fails : bool) (u : LinkUpdate) (selected : CaseLink -> bool)
  : M World bool :=
  if fails then ret true
  else
    w <- get ;;
    put (with_links w
           (map (fun l => if selected l then apply_update u l else l) (case_links w))) ;;;
    ret false.

(** [from("cases").select(...).eq("id", c).single()] *)
Definition select_case (fails : bool) (c : string) : M World (PgResult Case) :=
  w <- get ;;
  ret (single fails (matching_cases c (cases w))).

(** [from("case_links").insert(row)].  The columns the row leaves out
    take their defaults; the insert is refused when the datastore
    fails, when the case does not exist (foreign key), when the
    identifier is taken (primary key) or when the token hash is taken
    (unique index [idx_case_links_token_hash]).  The answer is the
    [error] of the result. *)
Definition insert_link (fails : bool) (row : CaseLink) : M World bool :=
  w <- get ;;
  if fails
     || negb (existsb (fun k => String.eqb (case_pk k) (case_id row)) (cases w))
     || existsb (fun l => String.eqb (id l) (id row)) (case_links w)
     || existsb (fun l => String.eqb (token_hash l) (token_hash row)) (case_links w)
  then ret true
  else put (with_links w (case_links w ++ [row])%list) ;;; ret false.

(** [from("cases").insert(row).select("id").single()]: refused when
    the datastore fails or the identifier is taken (primary key). *)
Definition insert_case (fails : bool) (row : Case) : M World (PgResult string) :=
  w <- get ;;
  if fails || existsb (fun k => String.eqb (case_pk k) (case_pk row)) (cases w)
  then ret pg_error
  else put (with_cases w (cases w ++ [row])%list) ;;; ret (pg_data (Some (case_pk row))).

Definition same_deal (d : option Z) (k : Case) : bool :=
  match d, pipedrive_deal_id k with
  | Some a, Some b => a =? b
  | _, _ => false
  end.

(** The row an upsert leaves when [row] conflicts with [old]: the
    columns of [row], the identifier and owner of [old]. *)
Definition merge_case (old row : Case) : Case :=
  {| case_pk := case_pk old;
     pipedrive_deal_id := pipedrive_deal_id row;
     user_id := user_id old;
     company_name := company_name row;
     industry := industry row;
     status := status row;
     calc_total := calc_total row;
     calc_er := calc_er row;
     calc_ee := calc_ee row;
     calc_inputs := calc_inputs row;
     calc_explanation := calc_explanation row;
     last_generated_at := last_generated_at row |}.

(** [from("cases").upsert(row, { onConflict: "pipedrive_deal_id" })
    .select("id").single()]: the row of the same deal is overwritten
    in place, and without one [row] is inserted under its own (fresh)
    identifier. *)
Definition upsert_case (fails : bool) (row : Case) : M World (PgResult string) :=
  w <- get ;;
  if fails then ret pg_error
  else
    match filter (same_deal (pipedrive_deal_id row)) (cases w) with
    | [] => insert_case false row
    | [old] =>
        put (with_cases w
               (map (fun k => if same_deal (pipedrive_deal_id row) k
                              then merge_case k row else k) (cases w))) ;;;
        ret (pg_data (Some (case_pk old)))
    | _ => ret pg_error
    end.

(** [from("cases").delete().eq("id", c)]; the links of the case go
    with it ([ON DELETE CASCADE]). *)
Definition delete_case (fails : bool) (c : string) : M World bool :=
  if fails then ret true
  else
    w <- get ;;
    put {| case_links := filter (fun l => negb (String.eqb (case_id l) c)) (case_links w);
           cases := filter (fun k => negb (String.eqb (case_pk k) c)) (cases w);
           outbound := outbound w |} ;;;
    ret false.

(** [from("cases").update({ last_generated_at: t }).eq("id", c)] *)
Definition touch_case (fails : bool) (c : string) (t : Z) : M World bool :=
  if fails then ret true
  else
    w <- get ;;
    put (with_cases w
           (map (fun k =>
                   if String.eqb (case_pk k) c
                   then {| case_pk := case_pk k;
                           pipedrive_deal_id := pipedrive_deal_id k;
                           user_id := user_id k;
                           company_name := company_name k;
                           industry := industry k;
                           status := status k;
                           calc_total := calc_total k;
                           calc_er := calc_er k;
                           calc_ee := calc_ee k;
                           calc_inputs := calc_inputs k;
                           calc_explanation := calc_explanation k;
                           last_generated_at := Some t |}
                   else k) (cases w))) ;;;
    ret false.

(** [from("cases").select("id, last_generated_at")
    .eq("pipedrive_deal_id", d).maybeSingle()] *)
Definition select_case_of_deal (fails : bool) (d : Z) : M World (PgResult Case) :=
  w <- get ;;
  ret (maybeSingle fails (filter (same_deal (Some d)) (cases w))).

(** A fresh row of [case_links]: the columns an insert gives, the
    others at their defaults. *)
Definition new_link (fresh_id c h p : string) (expires : Z) (url : option string)
  : CaseLink :=
  {| id := fresh_id;
     case_id := c;
     token_hash := h;
     passcode_hash := p;
     expires_at := expires;
     revoked_at := None;
     attempt_count := 0;
     locked_until := None;
     view_count := 0;
     last_viewed_at := None;
     shareable_url := url |}.

(** [update({ revoked_at: t }).eq("case_id", c).is("revoked_at", null)] *)
Definition revoke_links (fails : bool) (c : string) (t : Z) : M World bool :=
  update_links fails
    {| set_attempt_count := None; set_locked_until := None;
       set_view_count := None; set_last_viewed_at := None;
       set_revoked_at := Some t |}
    (fun l => String.eqb (case_id l) c
              && match revoked_at l with None => true | Some _ => false end).

(** A call to an external collaborator. *)
Definition call_out (o : Outbound) : M World unit :=
  w <- get ;;
  put (with_outbound w o).

End Store.

(** ** The environment of the edge functions *)

Module Deno.

Definition Env : Type := list (string * string).

(** [Deno.env.get(key)] *)
Fixpoint env_get (e : Env) (key : string) : option string :=
  match e with
  | [] => None
  | (k, v) :: rest => if String.eqb k key then Some v else env_get rest key
  end.

(** [env(key, fallback)]: [Deno.env.get(key) ?? fallback], throwing
    when the value is missing or empty. *)
Definition env {W} (e : Env) (key : string) (fallback : option string) : M W string :=
  let val := match env_get e key with Some v => Some v | None => fallback end in
  match val with
  | Some v => if Js.falsy v then throw ("Missing env var: " ++ key) else ret v
  | None => throw ("Missing env var: " ++ key)
  end.

(** [getServiceClient()] of [_shared/supabase.ts]. *)
Definition getServiceClient {W} (e : Env) : M W unit :=
  if Js.falsy_opt (env_get e "SUPABASE_URL")
     || Js.falsy_opt (env_get e "SUPABASE_SERVICE_ROLE_KEY")
  then throw "Missing SUPABASE_URL or SUPABASE_SERVICE_ROLE_KEY"
  else ret tt.

End Deno.

(** ** The datastore clients of the application ([src/lib]) *)

Module Next.

(** [getSupabaseServerClient()] of [lib/supabase-server.ts]:
    [createServerClient] throws without the URL or the key of the
    project; [e] is [process.env]. *)
Definition getSupabaseServerClient {W} (e : Deno.Env) : M W unit :=
  if Js.falsy_opt (Deno.env_get e "NEXT_PUBLIC_SUPABASE_URL")
     || Js.falsy_opt (Deno.env_get e "NEXT_PUBLIC_SUPABASE_ANON_KEY")
  then throw "Your project's URL and Key are required to create a Supabase client!"
  else ret tt.

(** [getSupabaseServiceClient()] of [lib/supabase.ts]: [createClient]
    throws without the URL and without the key. *)
Definition getSupabaseServiceClient {W} (e : Deno.Env) : M W unit :=
  if Js.falsy_opt (Deno.env_get e "NEXT_PUBLIC_SUPABASE_URL")
  then throw "supabaseUrl is required."
  else if Js.falsy_opt (Deno.env_get e "SUPABASE_SERVICE_ROLE_KEY")
       then throw "supabaseKey is required."
       else ret tt.

End Next.

(** ** The Access Validator ([validate_case_access/index.ts]) *)

Module Validator.
Import Store.

Inductive AccessState : Type :=
| success
| invalid
| expired
| revoked
| locked
| wrong_passcode.

(** The columns of the case that the success payload carries. *)
Record CaseData : Type := {
  d_id : string;
  d_company_name : string;
  d_industry : string;
  d_calc_total : option Js.Num;
  d_calc_er : option Js.Num;
  d_calc_ee : option Js.Num;
  d_calc_inputs : CalcInputs;
  d_calc_explanation : string;
  d_status : string
}.

(** [select("id, company_name, industry, calc_total, calc_er, calc_ee,
    calc_inputs, calc_explanation, status")] *)
Definition selected_columns (k : Case) : CaseData :=
  {| d_id := case_pk k;
     d_company_name := company_name k;
     d_industry := industry k;
     d_calc_total := calc_total k;
     d_calc_er := calc_er k;
     d_calc_ee := calc_ee k;
     d_calc_inputs := calc_inputs k;
     d_calc_explanation := calc_explanation k;
     d_status := status k |}.

(** The JSON object of a response: [AccessResponse], the [error] of
    the 405 answer and the [extra] fields [jsonResponse] spreads
    into it. *)
Record AccessResponse : Type := {
  ok : bool;
  state : AccessState;
  response_data : option CaseData;
  remaining_attempts : option Z;
  response_error : option string;
  response_locked_until : option Z
}.

Inductive Body : Type :=
| Text (s : string)
| Json (b : AccessResponse).

Record Response : Type := {
  status : Z;
  body : Body
}.

Inductive Method : Type :=
| OPTIONS
| POST
| OtherMethod (name : string).

(** The parsed JSON body of a request. *)
Record Input : Type := {
  in_case_id : string;
  in_token : string;
  in_passcode : string
}.

(** A request; [json = None] is a body that [req.json()] rejects. *)
Record Request : Type := {
  method : Method;
  json : option Input
}.

(** What one run of the handler reads from outside: the two clock
    readings ([new Date()] of step 3 and [Date.now()] of step 5) and
    whether the datastore answers each call with an error. *)
Record Run : Type := {
  now : Z;
  date_now : Z;
  link_select_fails : bool;
  attempt_update_fails : bool;
  view_update_fails : bool;
  case_select_fails : bool
}.

Definition answer (o : bool) (s : AccessState) : AccessResponse :=
  {| ok := o; state := s; response_data := None; remaining_attempts := None;
     response_error := None; response_locked_until := None |}.

(** [jsonResponse(body, status, extra)]; the only [extra] of the
    handler is [{ locked_until }]. *)
Definition jsonResponse (b : AccessResponse) (st : Z) (extra : option Z) : Response :=
  {| status := st;
     body := Json {| ok := ok b; state := state b;
                     response_data := response_data b;
                     remaining_attempts := remaining_attempts b;
                     response_error := response_error b;
                     response_locked_until :=
                       match extra with
                       | Some t => Some t
                       | None => response_locked_until b
                       end |} |}.

(** [link.locked_until && new Date(link.locked_until) > now] *)
Definition is_locked (link : CaseLink) (now : Z) : bool :=
  match locked_until link with
  | Some unlockAt => now <? unlockAt
  | None => false
  end.

Section Handler.

Variable sha256 : list byte -> list byte.

(** Step 5: Wrong passcode: increment attempts, maybe lock. *)
Definition wrong_passcode_branch (r : Run) (link : CaseLink) : M World Response :=
  let newAttemptCount := Js.or_zero (attempt_count link) + 1 in
  let updates :=
    {| set_attempt_count := Some newAttemptCount;
       set_locked_until :=
         if EdgeConstants.MAX_ATTEMPTS <=? newAttemptCount
         then Some (date_now r + EdgeConstants.LOCK_DURATION_MINUTES * 60 * 1000)
         else None;
       set_view_count := None;
       set_last_viewed_at := None;
       set_revoked_at := None |} in
  update_links (attempt_update_fails r) updates
    (fun l => String.eqb (id l) (id link)) ;;;
  if EdgeConstants.MAX_ATTEMPTS <=? newAttemptCount
  then ret (jsonResponse (answer false locked) 200 None)
  else
    ret (jsonResponse
           {| ok := false; state := wrong_passcode;
              response_data := None;
              remaining_attempts := Some (EdgeConstants.MAX_ATTEMPTS - newAttemptCount);
              response_error := None;
              response_locked_until := None |}
           200 None).

(** Step 6: Correct: reset attempts, increment view count.
    Step 7: Fetch case data and return payload. *)
Definition correct_passcode_branch (r : Run) (i : Input) (link : CaseLink)
  : M World Response :=
  update_links (view_update_fails r)
    {| set_attempt_count := Some 0;
       set_locked_until := None;
       set_view_count := Some (Js.or_zero (view_count link) + 1);
       set_last_viewed_at := Some (now r);
       set_revoked_at := None |}
    (fun l => String.eqb (id l) (id link)) ;;;
  fetched <- select_case (case_select_fails r) (in_case_id i) ;;
  match error fetched, data fetched with
  | false, Some caseData =>
      ret (jsonResponse
             {| ok := true; state := success;
                response_data := Some (selected_columns caseData);
                remaining_attempts := None;
                response_error := None;
                response_locked_until := None |}
             200 None)
  | _, _ => ret (jsonResponse (answer false invalid) 200 None)
  end.

(** Step 3: Check lifecycle: revoked, expired, locked.
    Step 4: Hash passcode and compare. *)
Definition check (r : Run) (i : Input) (pepper : string) (link : CaseLink)
  : M World Response :=
  match revoked_at link with
  | Some _ => ret (jsonResponse (answer false revoked) 200 None)
  | None =>
      if expires_at link <? now r
      then ret (jsonResponse (answer false expired) 200 None)
      else if is_locked link (now r)
      then ret (jsonResponse (answer false locked) 200 (locked_until link))
      else
        let passcodeHash := Crypto.hashWithPepper sha256 (in_passcode i) pepper in
        let isCorrect := String.eqb passcodeHash (passcode_hash link) in
        if negb isCorrect
        then wrong_passcode_branch r link
        else correct_passcode_branch r i link
  end.

(** The body of the [try] block, after [req.json()].
    Step 1: Parse input.
    Step 2: Hash token and look up case_links row. *)
Definition verify (e : Deno.Env) (r : Run) (i : Input) : M World Response :=
  if Js.falsy (in_case_id i) || Js.falsy (in_token i) || Js.falsy (in_passcode i)
  then ret (jsonResponse (answer false invalid) 400 None)
  else
    pepper <- Deno.env e "LINK_PEPPER" None ;;
    Deno.getServiceClient e ;;;
    let tokenHash := Crypto.hashWithPepper sha256 (in_token i) pepper in
    found <- select_link (link_select_fails r) tokenHash (in_case_id i) ;;
    if error found
    then ret (jsonResponse (answer false invalid) 500 None)
    else
      match data found with
      | None => ret (jsonResponse (answer false invalid) 200 None)
      | Some link => check r i pepper link
      end.

(** [req.json()] *)
Definition req_json (req : Request) : M World Input :=
  match json req with
  | Some i => ret i
  | None => throw "Unexpected token in JSON"
  end.

(** The handler given to [serve]. *)
Definition serve (e : Deno.Env) (r : Run) (req : Request) (w : World)
  : Response * World :=
  match method req with
  | OPTIONS => ({| status := 200; body := Text "ok" |}, w)
  | POST =>
      try_catch (i <- req_json req ;; verify e r i)
                (fun _ => jsonResponse (answer false invalid) 500 None)
                w
  | OtherMethod _ =>
      ({| status := 405;
          body := Json {| ok := false; state := invalid; response_data := None;
                          remaining_attempts := None;
                          response_error := Some "Method not allowed";
                          response_locked_until := None |} |}, w)
  end.

End Handler.

End Validator.

(** ** The Calculation Engine ([src/lib/calculator.ts]) *)

Module Calculator.
Import LibConstants.

(** The numbers of a result are doubles; [calc_inputs] is held as
    the JSON it is sent as. *)
Record CalculationResult : Type := {
  calc_total : Js.Num;
  calc_er : Js.Num;
  calc_ee : Js.Num;
  calc_inputs : Store.CalcInputs;
  calc_explanation : string
}.

Section Savings.

Variable fmt : Js.Formatting.

(** [formatUSD] of [src/lib/format.ts], on a number. *)
Definition formatUSD (n : Js.Num) : string := Js.currency fmt n.

(** Calculate tax savings from W-2 count; [taxYear] is
    [new Date().getFullYear()]. *)
Definition calculateSavings (taxYear : Z) (w2Count : Js.Num) : CalculationResult :=
  let calcTotal := Js.times w2Count RATE_TOTAL in
  let calcEr := Js.times w2Count RATE_ER in
  let calcEe := Js.times w2Count RATE_EE in
  {| calc_total := calcTotal;
     calc_er := calcEr;
     calc_ee := calcEe;
     calc_inputs :=
       {| Store.w2_count := Js.json w2Count;
          Store.tax_year := taxYear;
          Store.rate_total := RATE_TOTAL;
          Store.rate_er := RATE_ER;
          Store.rate_ee := RATE_EE |};
     calc_explanation :=
       "Based on " ++ Js.toString fmt w2Count ++ " W-2 employees (Tax Year "
         ++ Js.string_of_Z taxYear ++ "):" ++ Js.LF
         ++ "Total Tax Reduction: " ++ formatUSD calcTotal
         ++ " = Employer Net Savings: " ++ formatUSD calcEr
         ++ " + Employee Reduction: " ++ formatUSD calcEe ++ Js.LF
         ++ "Per W-2: Total " ++ formatUSD (Js.Int RATE_TOTAL)
         ++ " = ER " ++ formatUSD (Js.Int RATE_ER)
         ++ " + EE " ++ formatUSD (Js.Int RATE_EE) |}.

End Savings.

Record ProposalInput : Type := {
  company_name : Js.Value;
  industry : Js.Value;
  w2_count : Js.Value
}.

(** [!v || typeof v !== "string" || !v.trim()] *)
Definition blank (v : Js.Value) : bool :=
  Js.not v
  || negb (Js.is_string v)
  || match v with
     | Js.Str s => Js.falsy (Js.trim s)
     | _ => true
     end.

(** The test on [w2_count]. *)
Definition bad_count (w2 : Js.Value) : bool :=
  match w2 with
  | Js.Undefined => true                        (* w2 === undefined *)
  | Js.Null => true                             (* w2 === null *)
  | Js.Number n =>
      negb (Js.isFinite n) || Js.le_zero n || negb (Js.isInteger n)
  | _ => true                                   (* typeof w2 !== "number" *)
  end.

(** Validate proposal input fields.  Returns array of error messages
    (empty = valid). *)
Definition validateInput (input : ProposalInput) : list string :=
  ((if blank (company_name input) then ["Business Name"] else [])
   ++ (if blank (industry input) then ["Industry"] else [])
   ++ (if bad_count (w2_count input)
       then ["W-2 Count (must be a positive whole number)"] else []))%list.

End Calculator.

(** ** Calls to the CRM ([updatePipedriveDeal] of both edge functions) *)

Module Pipedrive.
Import Store.

(** [updatePipedriveDeal(dealId, fields)]: reads its two environment
    variables (and throws without them), then sends the [PUT]. *)
Definition updatePipedriveDeal (e : Deno.Env) (dealId : Z)
           (fields : list (string * FieldValue)) : M World unit :=
  Deno.env e "PIPEDRIVE_BASE_URL" (Some "https://api.pipedrive.com/v1") ;;;
  Deno.env e "PIPEDRIVE_API_TOKEN" None ;;;
  call_out (PipedrivePut dealId fields).

End Pipedrive.

(** ** The authenticated generation route ([src/app/api/generate/route.ts]) *)

Module GenerateRoute.
Import Store.

(** The JSON object of a response. *)
Record Body : Type := {
  ok : bool;
  error : option string;
  body_case_id : option string;
  url : option string;
  body_expires_at : option Z
}.

Record Response : Type := {
  status : Z;
  body : Body
}.

Definition failure (st : Z) (message : string) : Response :=
  {| status := st;
     body := {| ok := false; error := Some message; body_case_id := None;
                url := None; body_expires_at := None |} |}.

(** A request: the user of the session ([supabase.auth.getUser()])
    and the parsed JSON body, [None] when [request.json()] throws. *)
Record Request : Type := {
  user : option string;
  json : option Calculator.ProposalInput
}.

(** What one run reads from outside. *)
Record Run : Type := {
  tax_year : Z;
  generated_at : Z;
  date_now : Z;
  random_bytes : list byte;
  new_case_id : string;
  new_link_id : string;
  case_insert_fails : bool;
  link_insert_fails : bool;
  case_delete_fails : bool
}.

(** [a || b] on strings read from the environment. *)
Definition or_else (a : option string) (b : string) : string :=
  match a with
  | Some v => if Js.falsy v then b else v
  | None => b
  end.

Section Route.

Variable sha256 : list byte -> list byte.
Variable fmt : Js.Formatting.

(** The link row the route inserts. *)
Definition link_row (r : Run) (caseId tokenHash : string) (expiresAt : Z)
           (caseUrl : string) : CaseLink :=
  new_link (new_link_id r) caseId tokenHash "" expiresAt (Some caseUrl).

Definition create (e : Deno.Env) (r : Run) (req : Request) : M World Response :=
  Next.getSupabaseServerClient e ;;;
  (* Auth check *)
  match user req with
  | None => ret (failure 401 "Unauthorized")
  | Some uid =>
      (* Parse & validate input *)
      match json req with
      | None => ret (failure 400 "Invalid JSON body")
      | Some input =>
          let missing := Calculator.validateInput input in
          if (0 <? Z.of_nat (List.length missing))
          then ret (failure 400
                      ("Missing or invalid fields: " ++ Js.join_with ", " missing))
          else
            match Calculator.company_name input, Calculator.industry input,
                  Calculator.w2_count input with
            | Js.Str company, Js.Str ind, Js.Number w2 =>
                (* Calculate *)
                let savings := Calculator.calculateSavings fmt (tax_year r) w2 in
                (* Insert case *)
                inserted <-
                  insert_case (case_insert_fails r)
                    {| case_pk := new_case_id r;
                       pipedrive_deal_id := None;
                       user_id := Some uid;
                       company_name := Js.trim company;
                       industry := Js.trim ind;
                       Store.status := "generated";
                       calc_total := Js.json (Calculator.calc_total savings);
                       calc_er := Js.json (Calculator.calc_er savings);
                       calc_ee := Js.json (Calculator.calc_ee savings);
                       calc_inputs := Calculator.calc_inputs savings;
                       calc_explanation := Calculator.calc_explanation savings;
                       last_generated_at := Some (generated_at r) |} ;;
                match Store.error inserted, data inserted with
                | false, Some newCase =>
                    (* Generate token & create link *)
                    match Deno.env_get e "LINK_PEPPER" with
                    | Some pepper =>
                        if Js.falsy pepper
                        then ret (failure 500 "Server configuration error")
                        else
                          let rawToken := Crypto.generateToken (random_bytes r) in
                          let tokenHash :=
                            Crypto.hashWithPepper sha256 rawToken pepper in
                          let expiresAt :=
                            date_now r
                            + LibConstants.LINK_EXPIRY_DAYS * 24 * 60 * 60 * 1000 in
                          (* Build URL *)
                          let appBaseUrl :=
                            or_else (Deno.env_get e "APP_BASE_URL")
                              (match Deno.env_get e "NEXT_PUBLIC_VERCEL_URL" with
                               | Some v =>
                                   if Js.falsy v then "http://localhost:3000"
                                   else "https://" ++ v
                               | None => "http://localhost:3000"
                               end) in
                          let caseUrl :=
                            appBaseUrl ++ "/cases/" ++ newCase ++ "?t=" ++ rawToken in
                          linkError <-
                            insert_link (link_insert_fails r)
                              (link_row r newCase tokenHash expiresAt caseUrl) ;;
                          if (linkError : bool)
                          then
                            (* Clean up the case since link creation failed *)
                            delete_case (case_delete_fails r) newCase ;;;
                            ret (failure 500 "Failed to create link")
                          else
                            ret {| status := 200;
                                   body := {| ok := true; error := None;
                                              body_case_id := Some newCase;
                                              url := Some caseUrl;
                                              body_expires_at := Some expiresAt |} |}
                    | None => ret (failure 500 "Server configuration error")
                    end
                | _, _ => ret (failure 500 "Failed to create proposal")
                end
            | _, _, _ =>
                (* excluded by [validateInput]: [.trim()] of a value
                   that is not a string, a count that is not a number *)
                throw "TypeError"
            end
      end
  end.

(** [POST] *)
Definition POST (e : Deno.Env) (r : Run) (req : Request) (w : World)
  : Response * World :=
  try_catch (create e r req) (fun _ => failure 500 "Internal server error") w.

End Route.

End GenerateRoute.

(** ** Link rotation ([regenerate_link/index.ts]) *)

Module Regenerate.
Import Store.

Inductive Method : Type :=
| OPTIONS
| POST
| OtherMethod (name : string).

(** A request; [json] is the [case_id] of the parsed body (empty
    when the body has none), [None] when [req.json()] throws. *)
Record Request : Type := {
  method : Method;
  json : option string
}.

(** The JSON object of a response. *)
Record Issued : Type := {
  ok : bool;
  error : option string;
  body_case_id : option string;
  url : option string;
  passcode : option string;
  body_expires_at : option Z
}.

Inductive Body : Type :=
| Text (s : string)
| Json (b : Issued).

Record Response : Type := {
  status : Z;
  body : Body
}.

Definition failure (st : Z) (message : string) : Response :=
  {| status := st;
     body := Json {| ok := false; error := Some message; body_case_id := None;
                     url := None; passcode := None; body_expires_at := None |} |}.

(** What one run reads from outside: clock readings in the order of
    the calls, the random bytes of the token and of the passcode, the
    identifier of the new row, and the failures of the datastore. *)
Record Run : Type := {
  revoke_time : Z;
  date_now : Z;
  generated_at : Z;
  pipedrive_time : Z;
  token_bytes : list byte;
  passcode_bytes : byte * byte * byte * byte;
  new_link_id : string;
  case_select_fails : bool;
  revoke_fails : bool;
  link_insert_fails : bool;
  touch_fails : bool
}.

Section Handler.

Variable sha256 : list byte -> list byte.

Definition rotate (e : Deno.Env) (r : Run) (case_id : string) : M World Response :=
  if Js.falsy case_id
  then ret (failure 400 "case_id is required")
  else
    Deno.getServiceClient e ;;;
    pepper <- Deno.env e "LINK_PEPPER" None ;;
    appBaseUrl <- Deno.env e "APP_BASE_URL" None ;;
    (* Verify case exists and get pipedrive_deal_id *)
    fetched <- select_case (case_select_fails r) case_id ;;
    match Store.error fetched, data fetched with
    | false, Some caseData =>
        (* Revoke existing links *)
        revoke_links (revoke_fails r) case_id (revoke_time r) ;;;
        (* Generate new token + passcode *)
        let rawToken := Crypto.generateToken (token_bytes r) in
        let rawPasscode :=
          let '(b0, b1, b2, b3) := passcode_bytes r in
          Crypto.generatePasscode b0 b1 b2 b3 in
        let tokenHash := Crypto.hashWithPepper sha256 rawToken pepper in
        let passcodeHash := Crypto.hashWithPepper sha256 rawPasscode pepper in
        let expiresAt :=
          date_now r + EdgeConstants.LINK_EXPIRY_DAYS * 24 * 60 * 60 * 1000 in
        (* Insert new case_links row *)
        linkError <-
          insert_link (link_insert_fails r)
            (new_link (new_link_id r) case_id tokenHash passcodeHash expiresAt None) ;;
        if (linkError : bool)
        then ret (failure 500 "Failed to create link")
        else
          (* Build URL *)
          let caseUrl := appBaseUrl ++ "/cases/" ++ case_id ++ "?t=" ++ rawToken in
          (* Update case last_generated_at *)
          touch_case (touch_fails r) case_id (generated_at r) ;;;
          (* Update Pipedrive (non-fatal) *)
          let pipedriveDealdId :=
            match pipedrive_deal_id caseData with Some d => d | None => 0 end in
          (if pipedriveDealdId =? 0
           then ret tt
           else
             non_fatal
               (fieldCasePageUrl <- Deno.env e "PIPEDRIVE_FIELD_CASE_PAGE_URL" None ;;
                fieldCaseGeneratedAt <-
                  Deno.env e "PIPEDRIVE_FIELD_CASE_GENERATED_AT" None ;;
                Pipedrive.updatePipedriveDeal e pipedriveDealdId
                  [(fieldCasePageUrl, TextValue caseUrl);
                   (fieldCaseGeneratedAt, InstantValue (pipedrive_time r))])) ;;;
          ret {| status := 200;
                 body := Json {| ok := true; error := None;
                                 body_case_id := Some case_id;
                                 url := Some caseUrl;
                                 passcode := Some rawPasscode;
                                 body_expires_at := Some expiresAt |} |}
    | _, _ => ret (failure 404 "Case not found")
    end.

(** The handler given to [serve]. *)
Definition serve (e : Deno.Env) (r : Run) (req : Request) (w : World)
  : Response * World :=
  match method req with
  | OPTIONS => ({| status := 200; body := Text "ok" |}, w)
  | POST =>
      try_catch
        (match json req with
         | Some case_id => rotate e r case_id
         | None => throw "Unexpected token in JSON"
         end)
        (fun message => failure 500 message)
        w
  | OtherMethod _ => (failure 405 "Method not allowed", w)
  end.

End Handler.

End Regenerate.

(** ** Generation from an upstream event ([generate_case_from_pipedrive]) *)

Module Webhook.
Import Store.

(** A deal of the payload.  The custom fields, which the handler
    addresses by the keys of its environment, are held as typed
    values: [generate_proposal] and [industry] are the [String(...)]
    of the field, [None] when it is missing or [null];
    [deal_w2_count] is [Number(w2CountRaw)] of a field that is
    truthy, [None] when the field is falsy. *)
Record Deal : Type := {
  deal_id : Z;
  title : option string;
  generate_proposal : option string;
  deal_industry : option string;
  deal_w2_count : option Js.Num;
  owner : option Z
}.

Record Payload : Type := {
  current : option Deal;
  previous : option Deal
}.

(** A request: whether the method is [POST], the [secret] of the
    query string and the parsed payload ([None] when [req.json()]
    throws). *)
Record Request : Type := {
  is_post : bool;
  secret : option string;
  json : option Payload
}.

(** The JSON objects the handler answers with. *)
Inductive Body : Type :=
| Error (error : string)
    (* { error } *)
| Skipped
    (* { ok: true, skipped: true } *)
| MissingFields (error : string) (missing : list string)
    (* { ok: false, error, missing } *)
| SkippedIdempotent (reason : string) (case_id : string)
    (* { ok: true, skipped: true, reason, case_id } *)
| Failed (error : string)
    (* { ok: false, error } *)
| Generated (case_id url passcode : string) (expires_at : Z).
    (* { ok: true, case_id, url, passcode, expires_at } *)

Record Response : Type := {
  status : Z;
  body : Body
}.

(** What one run reads from outside: the clock readings in the
    order of the calls, the random bytes, the identifiers of the new
    rows and the failures of the datastore. *)
Record Run : Type := {
  tax_year : Z;
  date_now : Z;                 (* Date.now() of the idempotency check *)
  generated_at : Z;
  revoke_time : Z;
  expiry_base : Z;              (* Date.now() of step 11 *)
  token_bytes : list byte;
  passcode_bytes : byte * byte * byte * byte;
  new_case_id : string;
  new_link_id : string;
  case_select_fails : bool;
  upsert_fails : bool;
  revoke_fails : bool;
  link_insert_fails : bool
}.

(** The values of step 7; the numbers are doubles, [calcInputs] is
    held as the JSON it is sent as. *)
Record Calculation : Type := {
  calcTotal : Js.Num;
  calcEr : Js.Num;
  calcEe : Js.Num;
  calcInputs : CalcInputs;
  calcExplanation : string
}.

Section Handler.

Variable sha256 : list byte -> list byte.

Variable fmt : Js.Formatting.

(** [usd]: [Intl.NumberFormat("en-US", { style: "currency", ... }).format]. *)
Definition usd (n : Js.Num) : string := Js.currency fmt n.

(** Step 7: Calculate values. *)
Definition calculate (taxYear : Z) (w2Count : Js.Num) : Calculation :=
  let calcTotal := Js.times w2Count EdgeConstants.RATE_TOTAL in
  let calcEr := Js.times w2Count EdgeConstants.RATE_ER in
  let calcEe := Js.times w2Count EdgeConstants.RATE_EE in
  {| calcTotal := calcTotal;
     calcEr := calcEr;
     calcEe := calcEe;
     calcInputs :=
       {| w2_count := Js.json w2Count;
          Store.tax_year := taxYear;
          rate_total := EdgeConstants.RATE_TOTAL;
          rate_er := EdgeConstants.RATE_ER;
          rate_ee := EdgeConstants.RATE_EE |};
     calcExplanation :=
       "Based on " ++ Js.toString fmt w2Count ++ " W-2 employees (Tax Year "
         ++ Js.string_of_Z taxYear ++ "):" ++ Js.LF
         ++ "Total Tax Reduction: " ++ usd calcTotal
         ++ " = Employer Net Savings: " ++ usd calcEr
         ++ " + Employee Reduction: " ++ usd calcEe ++ Js.LF
         ++ "Per W-2: Total " ++ usd (Js.Int EdgeConstants.RATE_TOTAL)
         ++ " = ER " ++ usd (Js.Int EdgeConstants.RATE_ER)
         ++ " + EE " ++ usd (Js.Int EdgeConstants.RATE_EE) |}.

(** [v ?? ""] then [String(...)], and [v || ""]. *)
Definition text (v : option string) : string :=
  match v with Some s => s | None => "" end.

(** Steps 8 to 15: upsert, revoke, issue, notify. *)
Definition generate (e : Deno.Env) (r : Run) (cur : Deal) (dealId : Z)
           (companyName industry : string) (w2Count : Js.Num)
           (fieldCasePageUrl : string) : M World Response :=
  let c := calculate (tax_year r) w2Count in
  (* Step 8: Upsert case *)
  upserted <-
    upsert_case (upsert_fails r)
      {| case_pk := new_case_id r;
         pipedrive_deal_id := Some dealId;
         user_id := None;
         company_name := companyName;
         Store.industry := industry;
         Store.status := "generated";
         calc_total := Js.json (calcTotal c);
         calc_er := Js.json (calcEr c);
         calc_ee := Js.json (calcEe c);
         calc_inputs := calcInputs c;
         calc_explanation := calcExplanation c;
         last_generated_at := Some (generated_at r) |} ;;
  match Store.error upserted, data upserted with
  | false, Some caseId =>
      (* Step 9: Revoke existing links (non-fatal) *)
      revoke_links (revoke_fails r) caseId (revoke_time r) ;;;
      (* Step 10: Generate token + passcode *)
      pepper <- Deno.env e "LINK_PEPPER" None ;;
      let rawToken := Crypto.generateToken (token_bytes r) in
      let rawPasscode :=
        let '(b0, b1, b2, b3) := passcode_bytes r in
        Crypto.generatePasscode b0 b1 b2 b3 in
      let tokenHash := Crypto.hashWithPepper sha256 rawToken pepper in
      let passcodeHash := Crypto.hashWithPepper sha256 rawPasscode pepper in
      (* Step 11: Insert new case_links row *)
      let expiresAt :=
        expiry_base r + EdgeConstants.LINK_EXPIRY_DAYS * 24 * 60 * 60 * 1000 in
      linkError <-
        insert_link (link_insert_fails r)
          (new_link (new_link_id r) caseId tokenHash passcodeHash expiresAt None) ;;
      if (linkError : bool)
      then ret {| status := 500; body := Failed "Failed to create link" |}
      else
        (* Step 12: Build URL *)
        appBaseUrl <- Deno.env e "APP_BASE_URL" None ;;
        let caseUrl := appBaseUrl ++ "/cases/" ++ caseId ++ "?t=" ++ rawToken in
        (* Step 13: Post Slack message (non-fatal) *)
        let slackChannel := text (Deno.env_get e "SLACK_DEFAULT_CHANNEL") in
        (if Js.falsy slackChannel
         then ret tt
         else
           non_fatal
             ((match owner cur with
               | Some dealOwnerId =>
                   if dealOwnerId =? 0 then ret tt
                   else
                     (* getPipedriveUserEmail builds its URL first *)
                     Deno.env e "PIPEDRIVE_BASE_URL"
                       (Some "https://api.pipedrive.com/v1") ;;;
                     Deno.env e "PIPEDRIVE_API_TOKEN" None ;;;
                     ret tt
               | None => ret tt
               end) ;;;
              (* postSlackMessage *)
              Deno.env e "SLACK_BOT_TOKEN" None ;;;
              call_out (SlackPostMessage slackChannel caseUrl rawPasscode))) ;;;
        (* Step 14: Update Pipedrive deal (non-fatal) *)
        non_fatal
          (Pipedrive.updatePipedriveDeal e dealId
             [(fieldCasePageUrl, TextValue caseUrl)]) ;;;
        (* Step 15: Return success *)
        ret {| status := 200;
               body := Generated caseId caseUrl rawPasscode expiresAt |}
  | _, _ => ret {| status := 500; body := Failed "Database upsert failed" |}
  end.

(** Steps 1 to 6 of the [try] block. *)
Definition receive (e : Deno.Env) (r : Run) (req : Request) : M World Response :=
  (* Step 1: Verify webhook secret *)
  expectedSecret <- Deno.env e "PIPEDRIVE_WEBHOOK_SECRET" None ;;
  if negb (match secret req with
           | Some s => String.eqb s expectedSecret
           | None => false
           end)
  then ret {| status := 401; body := Error "Unauthorized" |}
  else
    (* Step 2: Parse Pipedrive webhook payload *)
    payload <- match json req with
               | Some p => ret p
               | None => throw "Unexpected token in JSON"
               end ;;
    match current payload, previous payload with
    | Some cur, Some prev =>
        let dealId := deal_id cur in
        (* Step 3: Guard against feedback loops *)
        fieldKey <- Deno.env e "PIPEDRIVE_FIELD_GENERATE_PROPOSAL" None ;;
        yesOptionId <- Deno.env e "PIPEDRIVE_OPTION_GENERATE_YES" None ;;
        let currentVal := text (generate_proposal cur) in
        let previousVal := text (generate_proposal prev) in
        if negb (String.eqb currentVal yesOptionId) || String.eqb previousVal yesOptionId
        then ret {| status := 200; body := Skipped |}
        else
          (* Step 4: Extract deal fields *)
          let companyName := text (title cur) in
          Deno.env e "PIPEDRIVE_FIELD_INDUSTRY" None ;;;
          let industry := text (deal_industry cur) in
          Deno.env e "PIPEDRIVE_FIELD_W2_COUNT" None ;;;
          let w2Count :=
            match deal_w2_count cur with
            | Some n => n
            | None => Js.Int 0
            end in
          fieldCasePageUrl <- Deno.env e "PIPEDRIVE_FIELD_CASE_PAGE_URL" None ;;
          (* Step 5: Validate required fields *)
          let missing :=
            ((if Js.falsy companyName then ["Deal Title (company name)"] else [])
             ++ (if Js.falsy industry then ["Industry"] else [])
             ++ (if Js.not (Js.Number w2Count) || Js.le_zero w2Count
                 then ["W-2 Count"] else []))%list in
          if 0 <? Z.of_nat (List.length missing)
          then
            let errorMsg := "Missing required fields: " ++ Js.join_with ", " missing in
            (* Reset generate_proposal so staff can fix and re-trigger *)
            non_fatal
              (Pipedrive.updatePipedriveDeal e dealId [(fieldKey, TextValue "")]) ;;;
            ret {| status := 200; body := MissingFields errorMsg missing |}
          else
            (* Step 6: Idempotency check *)
            Deno.getServiceClient e ;;;
            existing <- select_case_of_deal (case_select_fails r) dealId ;;
            match data existing with
            | Some existingCase =>
                match last_generated_at existingCase with
                | Some lastGen =>
                    let now := date_now r in
                    if now - lastGen <? EdgeConstants.IDEMPOTENCY_WINDOW_SECONDS * 1000
                    then
                      ret {| status := 200;
                             body := SkippedIdempotent "idempotency_window"
                                       (case_pk existingCase) |}
                    else
                      generate e r cur dealId companyName industry w2Count
                               fieldCasePageUrl
                | None =>
                    generate e r cur dealId companyName industry w2Count
                             fieldCasePageUrl
                end
            | None =>
                generate e r cur dealId companyName industry w2Count fieldCasePageUrl
            end
    | _, _ => ret {| status := 200; body := Skipped |}
    end.

(** The handler given to [serve]. *)
Definition serve (e : Deno.Env) (r : Run) (req : Request) (w : World)
  : Response * World :=
  if negb (is_post req)
  then ({| status := 405; body := Error "Method not allowed" |}, w)
  else
    try_catch (receive e r req)
              (fun message => {| status := 500; body := Failed message |})
              w.

End Handler.

End Webhook.

(** ** Vocabulary of the properties *)

Module Props.
Import Store.

(** The environment of an edge function holds the pepper and the
    two variables of the service client. *)
Definition configured (e : Deno.Env) (pepper : string) : Prop :=
  Deno.env_get e "LINK_PEPPER" = Some pepper
  /\ Js.falsy pepper = false
  /\ Js.falsy_opt (Deno.env_get e "SUPABASE_URL") = false
  /\ Js.falsy_opt (Deno.env_get e "SUPABASE_SERVICE_ROLE_KEY") = false.

(** A verification request: a [POST] whose body carries the three
    fields, none of them empty. *)
Definition verification (i : Validator.Input) : Validator.Request :=
  {| Validator.method := Validator.POST; Validator.json := Some i |}.

Definition well_formed (i : Validator.Input) : Prop :=
  Js.falsy (Validator.in_case_id i) = false
  /\ Js.falsy (Validator.in_token i) = false
  /\ Js.falsy (Validator.in_passcode i) = false.

Section WithDigest.

Variable sha256 : list byte -> list byte.

(** The link row of the request is found: the lookup by the hash
    of the token and by the case answers with exactly [link]. *)
Definition found (pepper : string) (r : Validator.Run) (i : Validator.Input)
           (w : World) (link : CaseLink) : Prop :=
  maybeSingle (Validator.link_select_fails r)
    (matching_links (Crypto.hashWithPepper sha256 (Validator.in_token i) pepper)
                    (Validator.in_case_id i) (case_links w))
  = pg_data (Some link).

(** The supplied passcode is the one of the link. *)
Definition correct (pepper : string) (i : Validator.Input) (link : CaseLink) : Prop :=
  Crypto.hashWithPepper sha256 (Validator.in_passcode i) pepper = passcode_hash link.

(** A run of verification requests, each with its own readings. *)
Fixpoint serve_all (e : Deno.Env) (reqs : list (Validator.Run * Validator.Input))
         (w : World) : list Validator.Response * World :=
  match reqs with
  | [] => ([], w)
  | (r, i) :: rest =>
      let (resp, w1) := Validator.serve sha256 e r (verification i) w in
      let (resps, w2) := serve_all e rest w1 in
      (resp :: resps, w2)
  end.

(** An attempt with a wrong passcode on the link of token [token]
    and case [c], whose passcode hash is [ph] and whose expiry is
    [ex]: well-formed, not after the expiry, and served by a
    datastore that answers the lookup and applies the update. *)
Definition wrong_attempt_on (pepper token c ph : string) (ex : Z)
           (a : Validator.Run * Validator.Input) : Prop :=
  well_formed (snd a)
  /\ Validator.in_token (snd a) = token
  /\ Validator.in_case_id (snd a) = c
  /\ Crypto.hashWithPepper sha256 (Validator.in_passcode (snd a)) pepper <> ph
  /\ (ex <? Validator.now (fst a)) = false
  /\ Validator.link_select_fails (fst a) = false
  /\ Validator.attempt_update_fails (fst a) = false.

End WithDigest.

(** The environment holds a non-empty value under [key]. *)
Definition has (e : Deno.Env) (key : string) : Prop :=
  exists v, Deno.env_get e key = Some v /\ Js.falsy v = false.

(** A generation trigger: an authenticated [POST] whose payload says
    that the deal [cur] was just switched to "generate proposal", with
    the required fields of the deal filled in, received by a handler
    whose environment is complete. *)
Definition trigger (e : Deno.Env) (req : Webhook.Request) (cur prev : Webhook.Deal)
  : Prop :=
  Webhook.is_post req = true
  /\ (exists s, Deno.env_get e "PIPEDRIVE_WEBHOOK_SECRET" = Some s
                /\ Js.falsy s = false /\ Webhook.secret req = Some s)
  /\ Webhook.json req
      = Some {| Webhook.current := Some cur; Webhook.previous := Some prev |}
  /\ has e "PIPEDRIVE_FIELD_GENERATE_PROPOSAL"
  /\ (exists yes, Deno.env_get e "PIPEDRIVE_OPTION_GENERATE_YES" = Some yes
                  /\ Js.falsy yes = false
                  /\ Webhook.generate_proposal cur = Some yes
                  /\ Webhook.text (Webhook.generate_proposal prev) <> yes)
  /\ has e "PIPEDRIVE_FIELD_INDUSTRY"
  /\ has e "PIPEDRIVE_FIELD_W2_COUNT"
  /\ has e "PIPEDRIVE_FIELD_CASE_PAGE_URL"
  /\ Js.falsy_opt (Deno.env_get e "SUPABASE_URL") = false
  /\ Js.falsy_opt (Deno.env_get e "SUPABASE_SERVICE_ROLE_KEY") = false
  /\ Js.falsy (Webhook.text (Webhook.title cur)) = false
  /\ Js.falsy (Webhook.text (Webhook.deal_industry cur)) = false
  /\ (exists n, Webhook.deal_w2_count cur = Some n
                 /\ Js.not (Js.Number n) = false /\ Js.le_zero n = false).

Definition not_expired (link : CaseLink) (r : Validator.Run) : Prop :=
  (expires_at link <? Validator.now r) = false.

(** The answers of the validator. *)
Definition LOCKED : Validator.Response :=
  {| Validator.status := 200;
     Validator.body :=
       Validator.Json
         {| Validator.ok := false; Validator.state := Validator.locked;
            Validator.response_data := None; Validator.remaining_attempts := None;
            Validator.response_error := None;
            Validator.response_locked_until := None |} |}.

Definition LOCKED_UNTIL (t : Z) : Validator.Response :=
  {| Validator.status := 200;
     Validator.body :=
       Validator.Json
         {| Validator.ok := false; Validator.state := Validator.locked;
            Validator.response_data := None; Validator.remaining_attempts := None;
            Validator.response_error := None;
            Validator.response_locked_until := Some t |} |}.

Definition WRONG_PASSCODE (remaining : Z) : Validator.Response :=
  {| Validator.status := 200;
     Validator.body :=
       Validator.Json
         {| Validator.ok := false; Validator.state := Validator.wrong_passcode;
            Validator.response_data := None;
            Validator.remaining_attempts := Some remaining;
            Validator.response_error := None;
            Validator.response_locked_until := None |} |}.

Definition TERMINAL (s : Validator.AccessState) : Validator.Response :=
  {| Validator.status := 200;
     Validator.body :=
       Validator.Json
         {| Validator.ok := false; Validator.state := s;
            Validator.response_data := None; Validator.remaining_attempts := None;
            Validator.response_error := None;
            Validator.response_locked_until := None |} |}.

Definition SUCCESS (d : Validator.CaseData) : Validator.Response :=
  {| Validator.status := 200;
     Validator.body :=
       Validator.Json
         {| Validator.ok := true; Validator.state := Validator.success;
            Validator.response_data := Some d; Validator.remaining_attempts := None;
            Validator.response_error := None;
            Validator.response_locked_until := None |} |}.

(** The answer of the [catch] block of the validator. *)
Definition on_throw : string -> Validator.Response :=
  fun _ => Validator.jsonResponse (Validator.answer false Validator.invalid) 500 None.

(** The answers to [n] failed attempts in a row on a link that
    counted [k] failures before them. *)
Definition answers_from (k : Z) (n : nat) : list Validator.Response :=
  map (fun j => if 10 <=? k + Z.of_nat j then LOCKED
                else WRONG_PASSCODE (10 - (k + Z.of_nat j)))
      (seq 1 n).

(** The state a response reports, if it is a JSON answer. *)
Definition state_of (resp : Validator.Response) : option Validator.AccessState :=
  match Validator.body resp with
  | Validator.Json b => Some (Validator.state b)
  | Validator.Text _ => None
  end.

(** The link row after a failed attempt: the counter is [count] and,
    when [lock] is given, the lock lasts until it. *)
Definition after_failure (link : CaseLink) (count : Z) (lock : option Z) : CaseLink :=
  {| id := id link;
     case_id := case_id link;
     token_hash := token_hash link;
     passcode_hash := passcode_hash link;
     expires_at := expires_at link;
     revoked_at := revoked_at link;
     attempt_count := count;
     locked_until := match lock with Some t => Some t | None => locked_until link end;
     view_count := view_count link;
     last_viewed_at := last_viewed_at link;
     shareable_url := shareable_url link |}.

(** The link row after a successful verification at [t] that
    brings the views to [views]. *)
Definition after_success (link : CaseLink) (views : Z) (t : Z) : CaseLink :=
  {| id := id link;
     case_id := case_id link;
     token_hash := token_hash link;
     passcode_hash := passcode_hash link;
     expires_at := expires_at link;
     revoked_at := revoked_at link;
     attempt_count := 0;
     locked_until := locked_until link;
     view_count := views;
     last_viewed_at := Some t;
     shareable_url := shareable_url link |}.

(** The link row once revoked at [t]. *)
Definition after_revocation (link : CaseLink) (t : Z) : CaseLink :=
  {| id := id link;
     case_id := case_id link;
     token_hash := token_hash link;
     passcode_hash := passcode_hash link;
     expires_at := expires_at link;
     revoked_at := Some t;
     attempt_count := attempt_count link;
     locked_until := locked_until link;
     view_count := view_count link;
     last_viewed_at := last_viewed_at link;
     shareable_url := shareable_url link |}.

(** The table after the links of case [c] that were not revoked
    were revoked at [t]. *)
Definition active_revoked (c : string) (t : Z) (links : list CaseLink) : list CaseLink :=
  map (fun l =>
         if String.eqb (case_id l) c
            && match revoked_at l with None => true | Some _ => false end
         then after_revocation l t else l)
      links.

(** Computations that leave the table of links as it is. *)
Definition keeps_links {A} (m : M World A) : Prop :=
  forall w, case_links (snd (m w)) = case_links w.

(** A rotation request for the case [c]. *)
Definition rotation (c : string) : Regenerate.Request :=
  {| Regenerate.method := Regenerate.POST; Regenerate.json := Some c |}.

(** The table after the rows of identifier [i] became [f row]. *)
Definition rows_updated (i : string) (f : CaseLink -> CaseLink) (links : list CaseLink)
  : list CaseLink :=
  map (fun l => if String.eqb (id l) i then f l else l) links.

End Props.

(** ** Sample data on which the handlers are run *)

Module Sample.
Import Store.

Definition byte_of (n : N) : byte :=
  match Byte.of_N (n mod 256) with
  | Some b => b
  | None => x00
  end.

(** A stand-in for the digest of the platform, with its 32-byte
    output: a positional checksum of the data in the first four
    bytes. *)
Definition digest (data : list byte) : list byte :=
  let h := fold_left (fun acc b => ((acc * 31 + Byte.to_N b) mod 2 ^ 32)%N) data 7%N in
  ([byte_of h; byte_of (h / 256); byte_of (h / 65536); byte_of (h / 16777216)]
     ++ repeat x00 28)%list.

Definition environment : Deno.Env :=
  [("LINK_PEPPER", "pepper");
   ("SUPABASE_URL", "https://db.example");
   ("SUPABASE_SERVICE_ROLE_KEY", "service-role-key");
   ("NEXT_PUBLIC_SUPABASE_URL", "https://db.example");
   ("NEXT_PUBLIC_SUPABASE_ANON_KEY", "anon-key");
   ("APP_BASE_URL", "https://app.example");
   ("PIPEDRIVE_WEBHOOK_SECRET", "hook-secret");
   ("PIPEDRIVE_FIELD_GENERATE_PROPOSAL", "field-generate");
   ("PIPEDRIVE_OPTION_GENERATE_YES", "42");
   ("PIPEDRIVE_FIELD_INDUSTRY", "field-industry");
   ("PIPEDRIVE_FIELD_W2_COUNT", "field-w2");
   ("PIPEDRIVE_FIELD_CASE_PAGE_URL", "field-url")].

Definition acme : Case :=
  {| case_pk := "case-1";
     pipedrive_deal_id := Some 90724;
     user_id := None;
     company_name := "Acme Corp";
     industry := "Manufacturing";
     status := "generated";
     calc_total := Some (Js.Int 67140);
     calc_er := Some (Js.Int 23740);
     calc_ee := Some (Js.Int 43400);
     calc_inputs := {| w2_count := Some (Js.Int 20); tax_year := 2026; rate_total := 3357;
                       rate_er := 1187; rate_ee := 2170 |};
     calc_explanation := "Based on 20 W-2 employees";
     last_generated_at := Some 1000 |}.

(** A fresh link of [acme], for the token ["token-1"] and the
    passcode ["123456"]. *)
Definition fresh : CaseLink :=
  new_link "link-1" "case-1"
    (Crypto.hashWithPepper digest "token-1" "pepper")
    (Crypto.hashWithPepper digest "123456" "pepper")
    5000000 None.

Definition world : World :=
  {| case_links := [fresh]; cases := [acme]; outbound := [] |}.

(** A visitor presenting the link with passcode [p]. *)
Definition visit (p : string) : Validator.Input :=
  {| Validator.in_case_id := "case-1";
     Validator.in_token := "token-1";
     Validator.in_passcode := p |}.

(** A run at instant [t] in which the datastore answers every call. *)
Definition at_time (t : Z) : Validator.Run :=
  {| Validator.now := t;
     Validator.date_now := t + 1;
     Validator.link_select_fails := false;
     Validator.attempt_update_fails := false;
     Validator.view_update_fails := false;
     Validator.case_select_fails := false |}.

(** The same run, except that the datastore answers the update of
    the attempt counter with an error. *)
Definition write_failing (t : Z) : Validator.Run :=
  {| Validator.now := t;
     Validator.date_now := t + 1;
     Validator.link_select_fails := false;
     Validator.attempt_update_fails := true;
     Validator.view_update_fails := false;
     Validator.case_select_fails := false |}.

(** Ten visits in a row with a wrong passcode. *)
Definition wrong_visits : list (Validator.Run * Validator.Input) :=
  map (fun t => (at_time t, visit "000000"))
      [100; 200; 300; 400; 500; 600; 700; 800; 900; 1000].

(** The link of [acme] after ten failures at instant 50 and a
    rotation at instant 60: locked until 1800050 and revoked. *)
Definition superseded_while_locked : CaseLink :=
  Props.after_revocation (Props.after_failure fresh 10 (Some 1800050)) 60.

Definition world_after_rotation : World :=
  {| case_links := [superseded_while_locked]; cases := [acme]; outbound := [] |}.

(** The link of [acme] after nine failures, and after the tenth at
    instant 50. *)
Definition nine_failures : CaseLink := Props.after_failure fresh 9 None.

Definition locked_link : CaseLink := Props.after_failure fresh 10 (Some 1800050).

Definition world_of (l : CaseLink) : World :=
  {| case_links := [l]; cases := [acme]; outbound := [] |}.

(** The fresh link of [acme] once a rotation at instant 60 revoked it. *)
Definition revoked_link : CaseLink := Props.after_revocation fresh 60.

(** A stand-in for the formatting of the platform, right on the
    whole amounts below [10^21] when grouping is left aside. *)
Definition formatUSD : Js.Formatting :=
  {| Js.currency :=
       fun n => match n with
                | Js.Int z => "$" ++ Js.string_of_Z z ++ ".00"
                | _ => "$?"
                end;
     Js.digits := fun _ => "?" |}.

(** A signed-in user asking the route for a proposal. *)
Definition proposal : GenerateRoute.Request :=
  {| GenerateRoute.user := Some "user-1";
     GenerateRoute.json :=
       Some {| Calculator.company_name := Js.Str " Globex ";
               Calculator.industry := Js.Str "Retail";
               Calculator.w2_count := Js.Number (Js.Int 20) |} |}.

Definition route_run : GenerateRoute.Run :=
  {| GenerateRoute.tax_year := 2026;
     GenerateRoute.generated_at := 10;
     GenerateRoute.date_now := 11;
     GenerateRoute.random_bytes := repeat x2a 32;
     GenerateRoute.new_case_id := "case-2";
     GenerateRoute.new_link_id := "link-2";
     GenerateRoute.case_insert_fails := false;
     GenerateRoute.link_insert_fails := false;
     GenerateRoute.case_delete_fails := false |}.

(** The world after the route served [proposal]. *)
Definition world_after_route : World :=
  snd (GenerateRoute.POST digest formatUSD environment route_run proposal world).

(** The link the route inserted. *)
Definition route_link : CaseLink :=
  GenerateRoute.link_row route_run "case-2"
    (Crypto.hashWithPepper digest (Crypto.generateToken (repeat x2a 32)) "pepper")
    2592000011
    ("https://app.example/cases/case-2?t=" ++ Crypto.generateToken (repeat x2a 32)).

(** A visitor presenting the link of the route with passcode [p]. *)
Definition route_visit (p : string) : Validator.Input :=
  {| Validator.in_case_id := "case-2";
     Validator.in_token := Crypto.generateToken (repeat x2a 32);
     Validator.in_passcode := p |}.

(** The deal 90724 switched to "generate proposal". *)
Definition deal_now : Webhook.Deal :=
  {| Webhook.deal_id := 90724;
     Webhook.title := Some "Acme Corp";
     Webhook.generate_proposal := Some "42";
     Webhook.deal_industry := Some "Manufacturing";
     Webhook.deal_w2_count := Some (Js.Int 20);
     Webhook.owner := None |}.

Definition deal_before : Webhook.Deal :=
  {| Webhook.deal_id := 90724;
     Webhook.title := Some "Acme Corp";
     Webhook.generate_proposal := None;
     Webhook.deal_industry := Some "Manufacturing";
     Webhook.deal_w2_count := Some (Js.Int 20);
     Webhook.owner := None |}.

Definition event : Webhook.Request :=
  {| Webhook.is_post := true;
     Webhook.secret := Some "hook-secret";
     Webhook.json :=
       Some {| Webhook.current := Some deal_now;
               Webhook.previous := Some deal_before |} |}.

(** A run of the webhook whose idempotency check reads the clock at
    [t]. *)
Definition event_run (t : Z) : Webhook.Run :=
  {| Webhook.tax_year := 2026;
     Webhook.date_now := t;
     Webhook.generated_at := t + 1;
     Webhook.revoke_time := t + 2;
     Webhook.expiry_base := t + 3;
     Webhook.token_bytes := repeat x07 32;
     Webhook.passcode_bytes := (x00, x01, x02, x03);
     Webhook.new_case_id := "case-3";
     Webhook.new_link_id := "link-3";
     Webhook.case_select_fails := false;
     Webhook.upsert_fails := false;
     Webhook.revoke_fails := false;
     Webhook.link_insert_fails := false |}.

Definition rotation_run : Regenerate.Run :=
  {| Regenerate.revoke_time := 60;
     Regenerate.date_now := 61;
     Regenerate.generated_at := 62;
     Regenerate.pipedrive_time := 63;
     Regenerate.token_bytes := repeat x09 32;
     Regenerate.passcode_bytes := (x00, x0f, x42, x40);
     Regenerate.new_link_id := "link-4";
     Regenerate.case_select_fails := false;
     Regenerate.revoke_fails := false;
     Regenerate.link_insert_fails := false;
     Regenerate.touch_fails := false |}.

End Sample.

(** ** Token-only validation (the route [/api/validate]) *)

Module TokenRoute.
Import Store.

(** The parsed JSON body; a field the body leaves out is empty. *)
Record Input : Type := {
  in_case_id : string;
  in_token : string
}.

(** A request; [json = None] is a body that [request.json()] rejects. *)
Record Request : Type := {
  json : option Input
}.

(** What one run reads from outside: the clock at the expiry check
    and at the update, and the failures of the datastore. *)
Record Run : Type := {
  now : Z;
  viewed_at : Z;
  link_select_fails : bool;
  view_update_fails : bool;
  case_select_fails : bool
}.

(** [NextResponse.json({ ok: false, state, error }, { status })] *)
Definition refusal (st : Z) (s : Validator.AccessState) (message : option string)
  : Validator.Response :=
  {| Validator.status := st;
     Validator.body :=
       Validator.Json
         {| Validator.ok := false; Validator.state := s;
            Validator.response_data := None; Validator.remaining_attempts := None;
            Validator.response_error := message;
            Validator.response_locked_until := None |} |}.

Section Route.

Variable sha256 : list byte -> list byte.

(** The body of the outer [try] block. *)
Definition validate (e : Deno.Env) (r : Run) (req : Request) : M World Validator.Response :=
  match json req with
  | None => ret (refusal 400 Validator.invalid (Some "Invalid request body"))
  | Some body =>
      if Js.falsy (in_case_id body) || Js.falsy (in_token body)
      then ret (refusal 400 Validator.invalid None)
      else
        match Deno.env_get e "LINK_PEPPER" with
        | None => ret (refusal 500 Validator.invalid (Some "Server config error"))
        | Some pepper =>
            if Js.falsy pepper
            then ret (refusal 500 Validator.invalid (Some "Server config error"))
            else
              Next.getSupabaseServiceClient e ;;;
              let tokenHash := Crypto.hashWithPepper sha256 (in_token body) pepper in
              (* Look up link by token hash and case_id *)
              found <- select_link (link_select_fails r) tokenHash (in_case_id body) ;;
              if error found
              then ret (refusal 500 Validator.invalid None)
              else
                match data found with
                | None => ret (refusal 200 Validator.invalid None)
                | Some link =>
                    (* Check revoked *)
                    match revoked_at link with
                    | Some _ => ret (refusal 200 Validator.revoked None)
                    | None =>
                        (* Check expired *)
                        if expires_at link <? now r
                        then ret (refusal 200 Validator.expired None)
                        else
                          (* Increment view count *)
                          update_links (view_update_fails r)
                            {| set_attempt_count := None;
                               set_locked_until := None;
                               set_view_count := Some (Js.or_zero (view_count link) + 1);
                               set_last_viewed_at := Some (viewed_at r);
                               set_revoked_at := None |}
                            (fun l => String.eqb (id l) (id link)) ;;;
                          (* Fetch case data *)
                          fetched <- select_case (case_select_fails r) (in_case_id body) ;;
                          match error fetched, data fetched with
                          | false, Some caseData =>
                              ret {| Validator.status := 200;
                                     Validator.body :=
                                       Validator.Json
                                         {| Validator.ok := true;
                                            Validator.state := Validator.success;
                                            Validator.response_data :=
                                              Some (Validator.selected_columns caseData);
                                            Validator.remaining_attempts := None;
                                            Validator.response_error := None;
                                            Validator.response_locked_until := None |} |}
                          | _, _ => ret (refusal 200 Validator.invalid None)
                          end
                    end
                end
        end
  end.

(** [POST] *)
Definition POST (e : Deno.Env) (r : Run) (req : Request) (w : World)
  : Validator.Response * World :=
  try_catch (validate e r req) (fun _ => refusal 500 Validator.invalid None) w.

End Route.

End TokenRoute.

(** ** Route protection ([src/middleware.ts]) *)

Module Middleware.





End Middleware.

(** ** Vocabulary of the further properties *)

Module Invariant.
Import Store.

(** The columns of a link that no verification may change. *)
Definition identity_of (l : CaseLink)
  : string * string * string * string * Z * option Z * option string :=
  (id l, case_id l, token_hash l, passcode_hash l, expires_at l, revoked_at l,
   shareable_url l).

(** The store is consistent: the identifiers of the links, their
    token hashes and the identifiers of the cases are unique, and
    every link belongs to a case of the table. *)
Definition consistent (w : World) : Prop :=
  NoDup (map id (case_links w))
  /\ NoDup (map token_hash (case_links w))
  /\ NoDup (map case_pk (cases w))
  /\ (forall l, In l (case_links w) -> exists k, In k (cases w) /\ case_pk k = case_id l).

(** A computation keeps a property of the world, whether it returns
    or throws. *)
Definition preserves {A} (P : World -> Prop) (m : M World A) : Prop :=
  forall w, P w -> P (snd (m w)).

(** The value of a hexadecimal digit, the inverse of
    [Crypto.hex_digit] below 16. *)
Definition hex_value (c : ascii) : N :=
  let n := N_of_ascii c in
  if (n <? 58)%N then (n - 48)%N else (n - 87)%N.


(** A run of the validator in which the datastore answers every call. *)
Definition answering (r : Validator.Run) : Prop :=
  Validator.link_select_fails r = false
  /\ Validator.attempt_update_fails r = false
  /\ Validator.view_update_fails r = false
  /\ Validator.case_select_fails r = false.

(** The case [k] after a rotation touched it at [t]. *)
Definition touched (k : Case) (t : Z) : Case :=
  {| case_pk := case_pk k;
     pipedrive_deal_id := pipedrive_deal_id k;
     user_id := user_id k;
     company_name := company_name k;
     industry := industry k;
     status := status k;
     calc_total := calc_total k;
     calc_er := calc_er k;
     calc_ee := calc_ee k;
     calc_inputs := calc_inputs k;
     calc_explanation := calc_explanation k;
     last_generated_at := Some t |}.

(** The link row after the token-only route recorded a view. *)
Definition after_view (link : CaseLink) (views : Z) (t : Z) : CaseLink :=
  {| id := id link;
     case_id := case_id link;
     token_hash := token_hash link;
     passcode_hash := passcode_hash link;
     expires_at := expires_at link;
     revoked_at := revoked_at link;
     attempt_count := attempt_count link;
     locked_until := locked_until link;
     view_count := views;
     last_viewed_at := Some t;
     shareable_url := shareable_url link |}.

(** The passcode a rotation hands out. *)
Definition issued_passcode (r : Regenerate.Run) : string :=
  let '(b0, b1, b2, b3) := Regenerate.passcode_bytes r in
  Crypto.generatePasscode b0 b1 b2 b3.

(** The row a rotation of the case [c] inserts under the pepper
    [pepper]. *)
Definition issued_link (sha256 : list byte -> list byte) (r : Regenerate.Run)
           (c pepper : string) : CaseLink :=
  new_link (Regenerate.new_link_id r) c
    (Crypto.hashWithPepper sha256 (Crypto.generateToken (Regenerate.token_bytes r)) pepper)
    (Crypto.hashWithPepper sha256 (issued_passcode r) pepper)
    (Regenerate.date_now r + 30 * 24 * 60 * 60 * 1000)
    None.

(** The passcode a generation of the webhook hands out. *)
Definition webhook_passcode (r : Webhook.Run) : string :=
  let '(b0, b1, b2, b3) := Webhook.passcode_bytes r in
  Crypto.generatePasscode b0 b1 b2 b3.

(** The link row the webhook inserts for the case [c] under the
    pepper [pepper]. *)
Definition webhook_link (sha256 : list byte -> list byte) (r : Webhook.Run)
           (c pepper : string) : CaseLink :=
  new_link (Webhook.new_link_id r) c
    (Crypto.hashWithPepper sha256 (Crypto.generateToken (Webhook.token_bytes r)) pepper)
    (Crypto.hashWithPepper sha256 (webhook_passcode r) pepper)
    (Webhook.expiry_base r + 30 * 24 * 60 * 60 * 1000)
    None.

(** The case row the webhook upserts for the deal [d]. *)
Definition webhook_row (usd : Js.Formatting) (r : Webhook.Run) (d : Z)
           (company ind : string) (n : Js.Num) : Case :=
  {| case_pk := Webhook.new_case_id r;
     pipedrive_deal_id := Some d;
     user_id := None;
     company_name := company;
     industry := ind;
     status := "generated";
     calc_total := Js.json (Js.times n 3357);
     calc_er := Js.json (Js.times n 1187);
     calc_ee := Js.json (Js.times n 2170);
     calc_inputs := {| w2_count := Js.json n; tax_year := Webhook.tax_year r;
                       rate_total := 3357;
                       rate_er := 1187; rate_ee := 2170 |};
     calc_explanation := Webhook.calcExplanation (Webhook.calculate usd (Webhook.tax_year r) n);
     last_generated_at := Some (Webhook.generated_at r) |}.

(** The table of cases after [row] overwrote the case of the deal [d]. *)
Definition overwritten (d : Z) (row : Case) (ks : list Case) : list Case :=
  map (fun k => if same_deal (Some d) k then merge_case k row else k) ks.

(** The tables [ks] and [ls] after the upsert of [row] for the deal
    [d] answered with the case [c]. *)
Definition upserted (d : Z) (row : Case) (c : string) (ks ks' : list Case) : Prop :=
  (filter (same_deal (Some d)) ks = []
   /\ c = case_pk row
   /\ existsb (fun k => String.eqb (case_pk k) (case_pk row)) ks = false
   /\ ks' = (ks ++ [row])%list)
  \/ (exists old,
         filter (same_deal (Some d)) ks = [old]
         /\ c = case_pk old
         /\ ks' = overwritten d row ks).

End Invariant.

(** ** Further sample data *)

Module Scenario.
Import Store.

(** A run of the token-only route at instant [t] in which the
    datastore answers every call. *)
Definition token_run (t : Z) : TokenRoute.Run :=
  {| TokenRoute.now := t;
     TokenRoute.viewed_at := t + 1;
     TokenRoute.link_select_fails := false;
     TokenRoute.view_update_fails := false;
     TokenRoute.case_select_fails := false |}.

(** A run of the validator at instant [t] in which the datastore
    answers the lookup of the case with an error. *)
Definition case_lookup_failing (t : Z) : Validator.Run :=
  {| Validator.now := t;
     Validator.date_now := t + 1;
     Validator.link_select_fails := false;
     Validator.attempt_update_fails := false;
     Validator.view_update_fails := false;
     Validator.case_select_fails := true |}.

(** A run of the validator at instant [t] in which the datastore
    refuses the write of the success branch. *)
Definition view_write_failing (t : Z) : Validator.Run :=
  {| Validator.now := t;
     Validator.date_now := t + 1;
     Validator.link_select_fails := false;
     Validator.attempt_update_fails := false;
     Validator.view_update_fails := true;
     Validator.case_select_fails := false |}.

(** A visitor opening the link of [Sample.route_link]. *)
Definition token_visit : TokenRoute.Request :=
  {| TokenRoute.json :=
       Some {| TokenRoute.in_case_id := "case-2";
               TokenRoute.in_token := Crypto.generateToken (repeat x2a 32) |} |}.

(** A visitor opening the link of [Sample.fresh]. *)
Definition token_visit_fresh : TokenRoute.Request :=
  {| TokenRoute.json :=
       Some {| TokenRoute.in_case_id := "case-1"; TokenRoute.in_token := "token-1" |} |}.

(** The world after the rotation of [Sample.rotation_run]. *)
Definition world_after_rotation : World :=
  snd (Regenerate.serve Sample.digest Sample.environment Sample.rotation_run
         (Props.rotation "case-1") Sample.world).

(** A rotation whose insert the datastore refuses. *)
Definition failing_rotation_run : Regenerate.Run :=
  {| Regenerate.revoke_time := 60;
     Regenerate.date_now := 61;
     Regenerate.generated_at := 62;
     Regenerate.pipedrive_time := 63;
     Regenerate.token_bytes := repeat x09 32;
     Regenerate.passcode_bytes := (x00, x0f, x42, x40);
     Regenerate.new_link_id := "link-4";
     Regenerate.case_select_fails := false;
     Regenerate.revoke_fails := false;
     Regenerate.link_insert_fails := true;
     Regenerate.touch_fails := false |}.

(** A run of the route whose link insert the datastore refuses. *)
Definition failing_route_run : GenerateRoute.Run :=
  {| GenerateRoute.tax_year := 2026;
     GenerateRoute.generated_at := 10;
     GenerateRoute.date_now := 11;
     GenerateRoute.random_bytes := repeat x2a 32;
     GenerateRoute.new_case_id := "case-2";
     GenerateRoute.new_link_id := "link-2";
     GenerateRoute.case_insert_fails := false;
     GenerateRoute.link_insert_fails := true;
     GenerateRoute.case_delete_fails := false |}.

(** An environment without the pepper. *)
Definition environment_without_pepper : Deno.Env :=
  [("SUPABASE_URL", "https://db.example");
   ("SUPABASE_SERVICE_ROLE_KEY", "service-role-key");
   ("NEXT_PUBLIC_SUPABASE_URL", "https://db.example");
   ("NEXT_PUBLIC_SUPABASE_ANON_KEY", "anon-key");
   ("APP_BASE_URL", "https://app.example")].

(** The environment of the webhook without the pepper. *)
Definition environment_for_webhook_without_pepper : Deno.Env :=
  [("SUPABASE_URL", "https://db.example");
   ("SUPABASE_SERVICE_ROLE_KEY", "service-role-key");
   ("APP_BASE_URL", "https://app.example");
   ("PIPEDRIVE_WEBHOOK_SECRET", "hook-secret");
   ("PIPEDRIVE_FIELD_GENERATE_PROPOSAL", "field-generate");
   ("PIPEDRIVE_OPTION_GENERATE_YES", "42");
   ("PIPEDRIVE_FIELD_INDUSTRY", "field-industry");
   ("PIPEDRIVE_FIELD_W2_COUNT", "field-w2");
   ("PIPEDRIVE_FIELD_CASE_PAGE_URL", "field-url")].

(** An anonymous request to the route. *)
Definition anonymous_proposal : GenerateRoute.Request :=
  {| GenerateRoute.user := None; GenerateRoute.json := GenerateRoute.json Sample.proposal |}.

(** A world without any case of the deal 90724. *)
Definition empty_world : World :=
  {| case_links := []; cases := []; outbound := [] |}.

(** The deal 90724 with its W-2 count left out. *)
Definition deal_without_count : Webhook.Deal :=
  {| Webhook.deal_id := 90724;
     Webhook.title := Some "Acme Corp";
     Webhook.generate_proposal := Some "42";
     Webhook.deal_industry := Some "Manufacturing";
     Webhook.deal_w2_count := None;
     Webhook.owner := None |}.

Definition event_without_count : Webhook.Request :=
  {| Webhook.is_post := true;
     Webhook.secret := Some "hook-secret";
     Webhook.json :=
       Some {| Webhook.current := Some deal_without_count;
               Webhook.previous := Some Sample.deal_before |} |}.

(** An event whose secret is wrong. *)
Definition forged_event : Webhook.Request :=
  {| Webhook.is_post := true;
     Webhook.secret := Some "guess";
     Webhook.json := Webhook.json Sample.event |}.

End Scenario.

(** * Properties *)

(** ** Running the computations *)

Lemma env_present {W} (e : Deno.Env) (key v : string) (w : W) :
  Deno.env_get e key = Some v -> Js.falsy v = false ->
  Deno.env e key None w = (Returned v, w).
Proof.
  intros Hget Hv. unfold Deno.env. rewrite Hget, Hv. reflexivity.
Qed.

Lemma service_client_present {W} (e : Deno.Env) (w : W) :
  Js.falsy_opt (Deno.env_get e "SUPABASE_URL") = false ->
  Js.falsy_opt (Deno.env_get e "SUPABASE_SERVICE_ROLE_KEY") = false ->
  Deno.getServiceClient e w = (Returned tt, w).
Proof.
  intros Hu Hk. unfold Deno.getServiceClient. rewrite Hu, Hk. reflexivity.
Qed.

Lemma or_zero_id (n : Z) : Js.or_zero n = n.
Proof.
  unfold Js.or_zero. destruct (n =? 0) eqn:E; [apply Z.eqb_eq in E; lia | reflexivity].
Qed.

Example sample_hex :
  Crypto.hex [x00; x0a; xff; x10] = "000aff10"
  /\ String.length (Crypto.hashWithPepper Sample.digest "token-1" "pepper") = 64%nat.
Proof. vm_compute. split; reflexivity. Qed.

Example sample_generatePasscode :
  Crypto.generatePasscode x00 x00 x00 x07 = "000007"
  /\ Crypto.generatePasscode x00 x0f x42 x40 = "000000"
  /\ Crypto.generatePasscode xff xff xff xff = "967295".
Proof. vm_compute. repeat split. Qed.

Example sample_trim :
  Js.trim "  Acme Corp  " = "Acme Corp"
  /\ Js.trim "   " = ""
  /\ Js.trim "a b" = "a b".
Proof. vm_compute. repeat split. Qed.

(** White space outside ASCII is trimmed as well: U+00A0 (bytes C2 A0),
    U+FEFF (EF BB BF) and U+2028 (E2 80 A8); a name made of U+00A0
    alone is blank. *)
Example sample_trim_beyond_ascii :
  Js.trim (String (ascii_of_nat 194) (String (ascii_of_nat 160) "Acme")) = "Acme"
  /\ Js.trim (String (ascii_of_nat 239) (String (ascii_of_nat 187)
                (String (ascii_of_nat 191) "Acme"))) = "Acme"
  /\ Js.trim ("Acme" ++ String (ascii_of_nat 226) (String (ascii_of_nat 128)
                           (String (ascii_of_nat 168) ""))) = "Acme"
  /\ Js.trim (String (ascii_of_nat 194) (String (ascii_of_nat 160) "")) = ""
  /\ Calculator.validateInput
       {| Calculator.company_name :=
            Js.Str (String (ascii_of_nat 194) (String (ascii_of_nat 160) ""));
          Calculator.industry := Js.Str "Retail";
          Calculator.w2_count := Js.Number (Js.Int 20) |}
     = ["Business Name"].
Proof. vm_compute. repeat split. Qed.

Example sample_first_wrong :
  Validator.serve Sample.digest Sample.environment (Sample.at_time 100)
    (Props.verification (Sample.visit "000000")) Sample.world
  = (Props.WRONG_PASSCODE 9,
     Store.with_links Sample.world [Props.after_failure Sample.fresh 1 None]).
Proof. vm_compute. reflexivity. Qed.

Example sample_correct :
  fst (Validator.serve Sample.digest Sample.environment (Sample.at_time 100)
         (Props.verification (Sample.visit "123456")) Sample.world)
  = Props.SUCCESS (Validator.selected_columns Sample.acme).
Proof. vm_compute. reflexivity. Qed.

(** ** Facts about the store *)

Section StoreFacts.
Import Store.

Lemma update_links_applied (u : LinkUpdate) (sel : CaseLink -> bool) (w : World) :
  update_links false u sel w
  = (Returned false,
     with_links w (map (fun l => if sel l then apply_update u l else l) (case_links w))).
Proof. reflexivity. Qed.

Lemma update_links_refused (u : LinkUpdate) (sel : CaseLink -> bool) (w : World) :
  update_links true u sel w = (Returned true, w).
Proof. reflexivity. Qed.

(** An update keeps the columns by which a link is looked up, so the
    rows a lookup selects are the updated ones of those it selected
    before. *)
Lemma matching_links_map (f : CaseLink -> CaseLink) (h c : string) (ls : list CaseLink) :
  (forall l, token_hash (f l) = token_hash l /\ case_id (f l) = case_id l) ->
  matching_links h c (map f ls) = map f (matching_links h c ls).
Proof.
  intros Hkeys. unfold matching_links.
  induction ls as [|l ls IH]; [reflexivity|].
  cbn [map filter]. destruct (Hkeys l) as [-> ->].
  destruct ((token_hash l =? h)%string && (case_id l =? c)%string);
    cbn [map]; rewrite IH; reflexivity.
Qed.

Lemma maybeSingle_found {A} (fails : bool) (rows : list A) (a : A) :
  maybeSingle fails rows = pg_data (Some a) -> fails = false /\ rows = [a].
Proof.
  unfold maybeSingle. destruct fails; [discriminate|].
  destruct rows as [|x [|y rest]]; try discriminate.
  intros H. injection H as ->. split; reflexivity.
Qed.

Lemma matching_links_sound (h c : string) (ls : list CaseLink) (l : CaseLink) :
  In l (matching_links h c ls) -> In l ls /\ token_hash l = h /\ case_id l = c.
Proof.
  unfold matching_links. rewrite filter_In. intros [Hin Hb].
  apply andb_true_iff in Hb as [Ht Hc].
  apply String.eqb_eq in Ht, Hc. auto.
Qed.

Lemma matching_cases_sound (c : string) (ks : list Case) (k : Case) :
  In k (matching_cases c ks) -> In k ks /\ case_pk k = c.
Proof.
  unfold matching_cases. rewrite filter_In. intros [Hin Hb].
  apply String.eqb_eq in Hb. auto.
Qed.

Lemma single_found {A} (fails : bool) (rows : list A) (a : A) :
  single fails rows = pg_data (Some a) -> fails = false /\ rows = [a].
Proof.
  unfold single. destruct fails; [discriminate|].
  destruct rows as [|x [|y rest]]; try discriminate.
  intros H. injection H as ->. split; reflexivity.
Qed.

End StoreFacts.

(** ** The Access Validator *)

Section ValidatorFacts.
Import Store Props.

Variable sha256 : list byte -> list byte.

(** A well-formed request in a configured environment whose link is
    found goes through the lifecycle checks of step 3. *)
Lemma serve_found e r i w pepper link :
  configured e pepper -> well_formed i -> found sha256 pepper r i w link ->
  Validator.serve sha256 e r (verification i) w
  = try_catch (Validator.check sha256 r i pepper link) on_throw w.
Proof.
  intros (Hp & Hpf & Hu & Hk) (Hc & Ht & Hpc) Hfound.
  unfold Validator.serve, verification, try_catch, bind;
    cbn [Validator.method Validator.json Validator.req_json ret].
  unfold Validator.verify. rewrite Hc, Ht, Hpc. cbn [orb].
  unfold bind at 1. rewrite (env_present e _ pepper w Hp Hpf).
  unfold bind at 1. rewrite (service_client_present e w Hu Hk).
  unfold bind at 1. unfold select_link at 1. unfold bind at 1, get at 1, ret at 1.
  unfold found in Hfound. rewrite Hfound.
  reflexivity.
Qed.

Lemma serve_not_found e r i w pepper :
  configured e pepper -> well_formed i ->
  maybeSingle (Validator.link_select_fails r)
    (matching_links (Crypto.hashWithPepper sha256 (Validator.in_token i) pepper)
                    (Validator.in_case_id i) (case_links w))
  = pg_data None ->
  Validator.serve sha256 e r (verification i) w = (TERMINAL Validator.invalid, w).
Proof.
  intros (Hp & Hpf & Hu & Hk) (Hc & Ht & Hpc) Hnone.
  unfold Validator.serve, verification, try_catch, bind;
    cbn [Validator.method Validator.json Validator.req_json ret].
  unfold Validator.verify. rewrite Hc, Ht, Hpc. cbn [orb].
  unfold bind at 1. rewrite (env_present e _ pepper w Hp Hpf).
  unfold bind at 1. rewrite (service_client_present e w Hu Hk).
  unfold bind at 1. unfold select_link at 1. unfold bind at 1, get at 1, ret at 1.
  rewrite Hnone.
  reflexivity.
Qed.

(** The wrong-passcode branch: its answer, and its write when the
    datastore applies it. *)
Lemma wrong_branch_answer r link w :
  fst (Validator.wrong_passcode_branch r link w)
  = Returned (if 10 <=? attempt_count link + 1 then LOCKED
              else WRONG_PASSCODE (10 - (attempt_count link + 1))).
Proof.
  unfold Validator.wrong_passcode_branch. rewrite or_zero_id.
  change EdgeConstants.MAX_ATTEMPTS with 10.
  unfold bind.
  destruct (Validator.attempt_update_fails r);
    [rewrite update_links_refused | rewrite update_links_applied];
    destruct (10 <=? attempt_count link + 1); reflexivity.
Qed.

Lemma wrong_branch_write r link w :
  Validator.attempt_update_fails r = false ->
  snd (Validator.wrong_passcode_branch r link w)
  = with_links w
      (rows_updated (id link)
         (fun l => after_failure l (attempt_count link + 1)
                     (if 10 <=? attempt_count link + 1
                      then Some (Validator.date_now r + 30 * 60 * 1000) else None))
         (case_links w)).
Proof.
  intros Hok. unfold Validator.wrong_passcode_branch. rewrite or_zero_id, Hok.
  change EdgeConstants.MAX_ATTEMPTS with 10.
  change EdgeConstants.LOCK_DURATION_MINUTES with 30.
  unfold bind. rewrite update_links_applied.
  destruct (10 <=? attempt_count link + 1); reflexivity.
Qed.

Lemma wrong_branch_refused r link w :
  Validator.attempt_update_fails r = true ->
  snd (Validator.wrong_passcode_branch r link w) = w.
Proof.
  intros Hko. unfold Validator.wrong_passcode_branch. rewrite Hko.
  unfold bind. rewrite update_links_refused.
  destruct (EdgeConstants.MAX_ATTEMPTS <=? Js.or_zero (attempt_count link) + 1);
    reflexivity.
Qed.

End ValidatorFacts.

Section ValidatorSteps.
Import Store Props.

Variable sha256 : list byte -> list byte.

Lemma try_catch_returned {W A} (m : M W A) (h : string -> A) (w : W) (a : A) :
  fst (m w) = Returned a -> try_catch m h w = (a, snd (m w)).
Proof.
  unfold try_catch. destruct (m w) as [o w']. cbn. intros ->. reflexivity.
Qed.

Lemma check_revoked r i pepper link t w :
  revoked_at link = Some t ->
  Validator.check sha256 r i pepper link w = (Returned (TERMINAL Validator.revoked), w).
Proof. intros H. unfold Validator.check. rewrite H. reflexivity. Qed.

Lemma check_expired r i pepper link w :
  revoked_at link = None -> (expires_at link <? Validator.now r) = true ->
  Validator.check sha256 r i pepper link w = (Returned (TERMINAL Validator.expired), w).
Proof. intros H1 H2. unfold Validator.check. rewrite H1, H2. reflexivity. Qed.

Lemma check_locked r i pepper link t w :
  revoked_at link = None -> not_expired link r ->
  locked_until link = Some t -> Validator.now r < t ->
  Validator.check sha256 r i pepper link w = (Returned (LOCKED_UNTIL t), w).
Proof.
  intros H1 H2 H3 H4. unfold Validator.check, Validator.is_locked.
  rewrite H1, H2, H3. apply Z.ltb_lt in H4. rewrite H4. reflexivity.
Qed.

Lemma check_wrong r i pepper link w :
  revoked_at link = None -> not_expired link r ->
  Validator.is_locked link (Validator.now r) = false ->
  ~ correct sha256 pepper i link ->
  Validator.check sha256 r i pepper link w = Validator.wrong_passcode_branch r link w.
Proof.
  intros H1 H2 H3 H4. unfold Validator.check. rewrite H1, H2, H3.
  apply String.eqb_neq in H4. cbv zeta. rewrite H4. reflexivity.
Qed.

Lemma check_correct r i pepper link w :
  revoked_at link = None -> not_expired link r ->
  Validator.is_locked link (Validator.now r) = false ->
  correct sha256 pepper i link ->
  Validator.check sha256 r i pepper link w = Validator.correct_passcode_branch r i link w.
Proof.
  intros H1 H2 H3 H4. unfold Validator.check. rewrite H1, H2, H3.
  apply String.eqb_eq in H4. cbv zeta. rewrite H4. reflexivity.
Qed.

(** One failed attempt. *)
Lemma wrong_attempt e r i w pepper link :
  configured e pepper -> well_formed i -> found sha256 pepper r i w link ->
  revoked_at link = None -> not_expired link r ->
  Validator.is_locked link (Validator.now r) = false ->
  ~ correct sha256 pepper i link ->
  Validator.serve sha256 e r (verification i) w
  = (if 10 <=? attempt_count link + 1 then LOCKED
     else WRONG_PASSCODE (10 - (attempt_count link + 1)),
     snd (Validator.wrong_passcode_branch r link w)).
Proof.
  intros Hcfg Hwf Hfound Hrev Hexp Hlock Hwrong.
  rewrite (serve_found sha256 e r i w pepper link Hcfg Hwf Hfound).
  rewrite (try_catch_returned _ _ _ _
             (eq_trans (f_equal fst (check_wrong r i pepper link w Hrev Hexp Hlock Hwrong))
                       (wrong_branch_answer r link w))).
  rewrite (check_wrong r i pepper link w Hrev Hexp Hlock Hwrong). reflexivity.
Qed.

(** After the rows of the found link are updated by a function that
    keeps the lookup columns, the same lookup finds the updated row. *)
Lemma found_after_update pepper r r' i w link (f : CaseLink -> CaseLink) :
  found sha256 pepper r i w link ->
  Validator.link_select_fails r' = false ->
  (forall l, token_hash (f l) = token_hash l /\ case_id (f l) = case_id l) ->
  found sha256 pepper r' i (with_links w (rows_updated (id link) f (case_links w))) (f link).
Proof.
  intros Hfound Hok Hkeys. unfold found in *.
  apply maybeSingle_found in Hfound as [_ Hrows].
  cbn [case_links with_links]. unfold rows_updated.
  rewrite matching_links_map.
  - rewrite Hrows. cbn [map]. rewrite String.eqb_refl, Hok. reflexivity.
  - intros l. destruct (id l =? id link)%string; [apply Hkeys | split; reflexivity].
Qed.

End ValidatorSteps.

Section LockoutScenario.
Import Store Props.

Variable sha256 : list byte -> list byte.

Lemma after_failure_keys link count lock :
  token_hash (after_failure link count lock) = token_hash link
  /\ case_id (after_failure link count lock) = case_id link.
Proof. split; reflexivity. Qed.

Lemma answers_from_cons (k : Z) (n : nat) :
  answers_from k (S n)
  = (if 10 <=? k + 1 then LOCKED else WRONG_PASSCODE (10 - (k + 1)))
      :: answers_from (k + 1) n.
Proof.
  unfold answers_from. cbn [seq map]. f_equal.
  rewrite <- seq_shift, map_map. apply map_ext. intros j.
  replace (k + Z.of_nat (S j)) with (k + 1 + Z.of_nat j) by lia. reflexivity.
Qed.

(** Failed attempts in a row, as long as the counter stays within
    the maximum: each is answered from the counter it finds. *)
Lemma wrong_attempts_in_a_row e pepper token c ph ex :
  configured e pepper ->
  forall attempts w link k,
    matching_links (Crypto.hashWithPepper sha256 token pepper) c (case_links w) = [link] ->
    revoked_at link = None -> locked_until link = None ->
    attempt_count link = k -> passcode_hash link = ph -> expires_at link = ex ->
    Forall (wrong_attempt_on sha256 pepper token c ph ex) attempts ->
    k + Z.of_nat (List.length attempts) <= 10 ->
    fst (serve_all sha256 e attempts w) = answers_from k (List.length attempts).
Proof.
  intros Hcfg. induction attempts as [|[r i] rest IH];
    intros w link k Hrows Hrev Hlock Hcount Hph Hex Hall Hbound.
  - reflexivity.
  - inversion Hall as [|a l Ha Hrest]; subst a l.
    destruct Ha as (Hwf & Htok & Hcase & Hwrong & Hnotexp & Hsel & Hupd).
    cbn [fst snd] in *.
    assert (Hfound : found sha256 pepper r i w link).
    { unfold found. rewrite Htok, Hcase, Hrows, Hsel. reflexivity. }
    assert (Hunlocked : Validator.is_locked link (Validator.now r) = false).
    { unfold Validator.is_locked. rewrite Hlock. reflexivity. }
    assert (Hnotexp' : not_expired link r).
    { unfold not_expired. rewrite Hex. exact Hnotexp. }
    assert (Hwrong' : ~ correct sha256 pepper i link).
    { unfold correct. rewrite Hph. exact Hwrong. }
    cbn [serve_all].
    rewrite (wrong_attempt sha256 e r i w pepper link
               Hcfg Hwf Hfound Hrev Hnotexp' Hunlocked Hwrong').
    rewrite (wrong_branch_write r link w Hupd).
    cbn [List.length]. rewrite answers_from_cons, Hcount.
    destruct rest as [|next rest'].
    + reflexivity.
    + assert (Hbelow : (10 <=? k + 1) = false).
      { apply Z.leb_gt. cbn [List.length] in Hbound. lia. }
      rewrite Hbelow.
      set (link' := after_failure link (k + 1) None).
      set (w' := with_links w _).
      assert (Hrows' : matching_links (Crypto.hashWithPepper sha256 token pepper) c
                         (case_links w') = [link']).
      { subst w'. cbn [case_links with_links]. unfold rows_updated.
        rewrite matching_links_map.
        - rewrite Hrows. cbn [map]. rewrite String.eqb_refl. reflexivity.
        - intros l. destruct (id l =? id link)%string;
            [apply after_failure_keys | split; reflexivity]. }
      assert (Hbound' : k + 1 + Z.of_nat (List.length (next :: rest')) <= 10).
      { cbn [List.length] in Hbound |- *. lia. }
      pose proof (IH w' link' (k + 1) Hrows' Hrev Hlock eq_refl Hph Hex Hrest Hbound')
        as Hrec.
      destruct (serve_all sha256 e (next :: rest') w') as [resps w''].
      cbn [fst] in Hrec |- *. rewrite Hrec. reflexivity.
Qed.

End LockoutScenario.

(** ** Claims about the Access Validator *)

Ltac sample_configured :=
  repeat split; reflexivity.

Example sample_ten_wrong_visits :
  snd (Props.serve_all Sample.digest Sample.environment Sample.wrong_visits Sample.world)
  = Sample.world_of (Props.after_failure Sample.fresh 10 (Some (1001 + 30 * 60 * 1000))).
Proof. vm_compute. reflexivity. Qed.

(** C1. For a verification request whose link row is found, not
    revoked, not expired and not locked, a passcode whose hash differs
    from the stored one makes the validator add exactly 1 to
    [attempt_count]; when the new count reaches the maximum of 10 it
    also sets [locked_until] to the instant read for the lock plus 30
    minutes and reports LOCKED, and otherwise it reports WRONG_PASSCODE
    with [remaining_attempts = 10 - newCount].  The write is the one
    the datastore applies; the same lookup then finds the updated row.
    In particular ten wrong passcodes in a row against a fresh link are
    answered by nine WRONG_PASSCODE (9 down to 1 attempts remaining)
    and, at the tenth, LOCKED. *)
Theorem C1_wrong_passcode_counts_then_locks :
  forall (sha256 : list byte -> list byte) (e : Deno.Env) (pepper : string),
    Props.configured e pepper ->
    (forall r i w link,
        Props.well_formed i ->
        Props.found sha256 pepper r i w link ->
        Store.revoked_at link = None ->
        Props.not_expired link r ->
        Validator.is_locked link (Validator.now r) = false ->
        ~ Props.correct sha256 pepper i link ->
        let count := Store.attempt_count link + 1 in
        let lock := if 10 <=? count
                    then Some (Validator.date_now r + 30 * 60 * 1000) else None in
        let out := Validator.serve sha256 e r (Props.verification i) w in
        fst out = (if 10 <=? count then Props.LOCKED
                   else Props.WRONG_PASSCODE (10 - count))
        /\ (Validator.attempt_update_fails r = false ->
            snd out
            = Store.with_links w
                (Props.rows_updated (Store.id link)
                   (fun l => Props.after_failure l count lock) (Store.case_links w))
            /\ forall r', Validator.link_select_fails r' = false ->
                 Props.found sha256 pepper r' i (snd out)
                   (Props.after_failure link count lock)))
    /\ (forall token c w link attempts,
           Store.matching_links (Crypto.hashWithPepper sha256 token pepper) c
             (Store.case_links w) = [link] ->
           Store.revoked_at link = None ->
           Store.locked_until link = None ->
           Store.attempt_count link = 0 ->
           Forall (Props.wrong_attempt_on sha256 pepper token c
                     (Store.passcode_hash link) (Store.expires_at link)) attempts ->
           List.length attempts = 10%nat ->
           fst (Props.serve_all sha256 e attempts w)
           = (map Props.WRONG_PASSCODE [9; 8; 7; 6; 5; 4; 3; 2; 1] ++ [Props.LOCKED])%list).
Proof.
  intros sha256 e pepper Hcfg. split.
  - intros r i w link Hwf Hfound Hrev Hexp Hlock Hwrong count lock out.
    subst out.
    rewrite (wrong_attempt sha256 e r i w pepper link Hcfg Hwf Hfound Hrev Hexp Hlock Hwrong).
    cbn [fst snd]. split; [reflexivity|].
    intros Hupd. rewrite (wrong_branch_write r link w Hupd).
    split; [reflexivity|].
    intros r' Hsel.
    apply (found_after_update sha256 pepper r r' i w link
             (fun l => Props.after_failure l count lock) Hfound Hsel).
    intros l. apply after_failure_keys.
  - intros token c w link attempts Hrows Hrev Hlock Hcount Hall Hlen.
    rewrite (wrong_attempts_in_a_row sha256 e pepper token c
               (Store.passcode_hash link) (Store.expires_at link) Hcfg
               attempts w link 0 Hrows Hrev Hlock Hcount eq_refl eq_refl Hall).
    + rewrite Hlen. reflexivity.
    + rewrite Hlen. cbn. lia.
Qed.

Lemma C1_witness :
  fst (Validator.serve Sample.digest Sample.environment (Sample.at_time 100)
         (Props.verification (Sample.visit "000000")) (Sample.world_of Sample.nine_failures))
  = Props.LOCKED
  /\ fst (Props.serve_all Sample.digest Sample.environment Sample.wrong_visits Sample.world)
     = (map Props.WRONG_PASSCODE [9; 8; 7; 6; 5; 4; 3; 2; 1] ++ [Props.LOCKED])%list.
Proof.
  destruct (C1_wrong_passcode_counts_then_locks Sample.digest Sample.environment "pepper")
    as [Hstep Hrun].
  - sample_configured.
  - split.
    + apply (Hstep (Sample.at_time 100) (Sample.visit "000000")
               (Sample.world_of Sample.nine_failures) Sample.nine_failures).
      * sample_configured.
      * reflexivity.
      * reflexivity.
      * reflexivity.
      * reflexivity.
      * vm_compute. discriminate.
    + apply (Hrun "token-1" "case-1" Sample.world Sample.fresh Sample.wrong_visits).
      * reflexivity.
      * reflexivity.
      * reflexivity.
      * reflexivity.
      * unfold Sample.wrong_visits. cbn [map].
        repeat (constructor;
                [repeat split; try reflexivity; vm_compute; discriminate|]).
        constructor.
      * reflexivity.
Defined.

Section ValidatorRuns.
Import Store Props.

Variable sha256 : list byte -> list byte.

Lemma check_revoked_run r i pepper link t w :
  revoked_at link = Some t ->
  try_catch (Validator.check sha256 r i pepper link) on_throw w
  = (TERMINAL Validator.revoked, w).
Proof.
  intros H. unfold try_catch. rewrite (check_revoked sha256 r i pepper link t w H).
  reflexivity.
Qed.

Lemma check_expired_run r i pepper link w :
  revoked_at link = None -> (expires_at link <? Validator.now r) = true ->
  try_catch (Validator.check sha256 r i pepper link) on_throw w
  = (TERMINAL Validator.expired, w).
Proof.
  intros H1 H2. unfold try_catch. rewrite (check_expired sha256 r i pepper link w H1 H2).
  reflexivity.
Qed.

Lemma check_locked_run r i pepper link t w :
  revoked_at link = None -> not_expired link r ->
  locked_until link = Some t -> Validator.now r < t ->
  try_catch (Validator.check sha256 r i pepper link) on_throw w
  = (LOCKED_UNTIL t, w).
Proof.
  intros H1 H2 H3 H4. unfold try_catch.
  rewrite (check_locked sha256 r i pepper link t w H1 H2 H3 H4). reflexivity.
Qed.

End ValidatorRuns.

(** C2, as stated, fails: a link that is locked and was revoked by a
    rotation in the meantime reports REVOKED, not LOCKED. *)
Lemma C2_counterexample :
  ~ (forall (sha256 : list byte -> list byte) e pepper r i w link t,
        Props.configured e pepper ->
        Props.well_formed i ->
        Props.found sha256 pepper r i w link ->
        Store.locked_until link = Some t ->
        Validator.now r < t ->
        Props.state_of (fst (Validator.serve sha256 e r (Props.verification i) w))
        = Some Validator.locked).
Proof.
  intros Hclaim.
  specialize (Hclaim Sample.digest Sample.environment "pepper" (Sample.at_time 100)
                     (Sample.visit "123456") Sample.world_after_rotation
                     Sample.superseded_while_locked 1800050).
  assert (Hstate : Props.state_of
                     (fst (Validator.serve Sample.digest Sample.environment
                             (Sample.at_time 100)
                             (Props.verification (Sample.visit "123456"))
                             Sample.world_after_rotation))
                   = Some Validator.revoked) by (vm_compute; reflexivity).
  rewrite Hstate in Hclaim.
  assert (Habsurd : Some Validator.revoked = Some Validator.locked).
  { apply Hclaim; try reflexivity; sample_configured. }
  discriminate Habsurd.
Qed.

(** C2, amended.  For a verification request against a found link
    that is not revoked and not expired and whose [locked_until] is set
    and strictly in the future, the validator reports LOCKED, with the
    instant of the unlock, before any passcode comparison and without
    any write, whatever the passcode, the right one included.  Whatever
    the lifecycle state of a found link that is locked, the request
    writes nothing, so an attempt made while locked does not increment
    [attempt_count], and it never reports SUCCESS. *)
Theorem C2_locked_before_comparison :
  forall (sha256 : list byte -> list byte) e pepper r i w link t,
    Props.configured e pepper ->
    Props.well_formed i ->
    Props.found sha256 pepper r i w link ->
    Store.locked_until link = Some t ->
    Validator.now r < t ->
    let out := Validator.serve sha256 e r (Props.verification i) w in
    (Store.revoked_at link = None -> Props.not_expired link r ->
     out = (Props.LOCKED_UNTIL t, w))
    /\ snd out = w
    /\ Props.state_of (fst out) <> Some Validator.success.
Proof.
  intros sha256 e pepper r i w link t Hcfg Hwf Hfound Hlock Hnow out. subst out.
  rewrite (serve_found sha256 e r i w pepper link Hcfg Hwf Hfound).
  destruct (Store.revoked_at link) as [t0|] eqn:Hrev.
  - rewrite (check_revoked_run sha256 r i pepper link t0 w Hrev).
    repeat split; [discriminate | discriminate].
  - destruct (Store.expires_at link <? Validator.now r) eqn:Hexp.
    + rewrite (check_expired_run sha256 r i pepper link w Hrev Hexp).
      repeat split; [intros _ H; unfold Props.not_expired in H; congruence | discriminate].
    + rewrite (check_locked_run sha256 r i pepper link t w Hrev Hexp Hlock Hnow).
      repeat split; discriminate.
Qed.

Lemma C2_witness :
  Validator.serve Sample.digest Sample.environment (Sample.at_time 100)
    (Props.verification (Sample.visit "123456")) (Sample.world_of Sample.locked_link)
  = (Props.LOCKED_UNTIL 1800050, Sample.world_of Sample.locked_link).
Proof.
  apply (C2_locked_before_comparison Sample.digest Sample.environment "pepper"
           (Sample.at_time 100) (Sample.visit "123456")
           (Sample.world_of Sample.locked_link) Sample.locked_link 1800050).
  - sample_configured.
  - sample_configured.
  - reflexivity.
  - reflexivity.
  - vm_compute. reflexivity.
  - reflexivity.
  - reflexivity.
Defined.

Section SuccessBranch.
Import Store Props.

Variable sha256 : list byte -> list byte.

Lemma after_success_keys link views t :
  token_hash (after_success link views t) = token_hash link
  /\ case_id (after_success link views t) = case_id link.
Proof. split; reflexivity. Qed.

(** The branch of a correct passcode when the datastore applies the
    update and returns the case. *)
Lemma correct_branch_run r i link k w :
  Validator.view_update_fails r = false ->
  single (Validator.case_select_fails r) (matching_cases (Validator.in_case_id i) (cases w))
  = pg_data (Some k) ->
  Validator.correct_passcode_branch r i link w
  = (Returned (SUCCESS (Validator.selected_columns k)),
     with_links w
       (rows_updated (id link)
          (fun l => after_success l (view_count link + 1) (Validator.now r))
          (case_links w))).
Proof.
  intros Hupd Hcase. unfold Validator.correct_passcode_branch.
  rewrite Hupd, or_zero_id. unfold bind at 1. rewrite update_links_applied.
  unfold bind at 1. unfold select_case, bind, get, ret.
  cbn [cases with_links]. rewrite Hcase. reflexivity.
Qed.

End SuccessBranch.

(** C3. For a verification request against a found link that is not
    revoked, not expired and not locked, a passcode whose hash equals
    the stored [passcode_hash] makes the validator reset
    [attempt_count] to 0, add exactly 1 to [view_count], set
    [last_viewed_at] to the instant of the request, and report SUCCESS
    with the calculation fields of the case of the link: the answer is
    200 with [ok], the state [success] and, as data, the identifier,
    the company name, the industry, the three figures, the inputs, the
    explanation and the status of the one row of [cases] whose
    identifier is the [case_id] of the request and of the link.  The
    write is the one the datastore applies, and the case is the one
    it returns. *)
Theorem C3_correct_passcode_resets_and_counts_view :
  forall (sha256 : list byte -> list byte) e pepper r i w link k,
    Props.configured e pepper ->
    Props.well_formed i ->
    Props.found sha256 pepper r i w link ->
    Store.revoked_at link = None ->
    Props.not_expired link r ->
    Validator.is_locked link (Validator.now r) = false ->
    Props.correct sha256 pepper i link ->
    Validator.view_update_fails r = false ->
    Store.single (Validator.case_select_fails r)
      (Store.matching_cases (Validator.in_case_id i) (Store.cases w))
    = Store.pg_data (Some k) ->
    let out := Validator.serve sha256 e r (Props.verification i) w in
    let link' := Props.after_success link (Store.view_count link + 1) (Validator.now r) in
    fst out
    = {| Validator.status := 200;
         Validator.body :=
           Validator.Json
             {| Validator.ok := true;
                Validator.state := Validator.success;
                Validator.response_data :=
                  Some {| Validator.d_id := Store.case_pk k;
                          Validator.d_company_name := Store.company_name k;
                          Validator.d_industry := Store.industry k;
                          Validator.d_calc_total := Store.calc_total k;
                          Validator.d_calc_er := Store.calc_er k;
                          Validator.d_calc_ee := Store.calc_ee k;
                          Validator.d_calc_inputs := Store.calc_inputs k;
                          Validator.d_calc_explanation := Store.calc_explanation k;
                          Validator.d_status := Store.status k |};
                Validator.remaining_attempts := None;
                Validator.response_error := None;
                Validator.response_locked_until := None |} |}
    /\ In k (Store.cases w)
    /\ Store.case_pk k = Validator.in_case_id i
    /\ In link (Store.case_links w)
    /\ Store.case_id link = Store.case_pk k
    /\ snd out
       = Store.with_links w
           (Props.rows_updated (Store.id link)
              (fun l => Props.after_success l (Store.view_count link + 1) (Validator.now r))
              (Store.case_links w))
    /\ (forall r', Validator.link_select_fails r' = false ->
          Props.found sha256 pepper r' i (snd out) link')
    /\ Store.attempt_count link' = 0
    /\ Store.view_count link' = Store.view_count link + 1
    /\ Store.last_viewed_at link' = Some (Validator.now r).
Proof.
  intros sha256 e pepper r i w link k Hcfg Hwf Hfound Hrev Hexp Hlock Hok Hupd Hcase
         out link'.
  subst out link'.
  rewrite (serve_found sha256 e r i w pepper link Hcfg Hwf Hfound).
  unfold try_catch.
  rewrite (check_correct sha256 r i pepper link w Hrev Hexp Hlock Hok).
  rewrite (correct_branch_run r i link k w Hupd Hcase).
  cbn [fst snd].
  assert (Hk : In k (Store.cases w) /\ Store.case_pk k = Validator.in_case_id i).
  { apply single_found in Hcase as [_ Hrows]. apply matching_cases_sound.
    rewrite Hrows. left. reflexivity. }
  assert (Hl : In link (Store.case_links w)
               /\ Store.case_id link = Validator.in_case_id i).
  { apply maybeSingle_found in Hfound as Hrows. destruct Hrows as [_ Hrows].
    assert (Hin : In link
                    (Store.matching_links
                       (Crypto.hashWithPepper sha256 (Validator.in_token i) pepper)
                       (Validator.in_case_id i) (Store.case_links w)))
      by (rewrite Hrows; left; reflexivity).
    apply matching_links_sound in Hin as (Hin & _ & Hc). split; assumption. }
  destruct Hk as [Hkin Hkpk]. destruct Hl as [Hlin Hlc].
  split; [reflexivity|]. split; [exact Hkin|]. split; [exact Hkpk|].
  split; [exact Hlin|]. split; [rewrite Hlc, Hkpk; reflexivity|].
  repeat split.
  intros r' Hsel.
  apply (found_after_update sha256 pepper r r' i w link
           (fun l => Props.after_success l (Store.view_count link + 1) (Validator.now r))
           Hfound Hsel).
  intros l. apply after_success_keys.
Qed.

Lemma C3_witness :
  fst (Validator.serve Sample.digest Sample.environment (Sample.at_time 100)
         (Props.verification (Sample.visit "123456")) (Sample.world_of Sample.nine_failures))
  = Props.SUCCESS (Validator.selected_columns Sample.acme)
  /\ snd (Validator.serve Sample.digest Sample.environment (Sample.at_time 100)
            (Props.verification (Sample.visit "123456"))
            (Sample.world_of Sample.nine_failures))
     = Sample.world_of (Props.after_success Sample.nine_failures 1 100).
Proof.
  destruct (C3_correct_passcode_resets_and_counts_view
              Sample.digest Sample.environment "pepper" (Sample.at_time 100)
              (Sample.visit "123456") (Sample.world_of Sample.nine_failures)
              Sample.nine_failures Sample.acme) as (Hans & _ & _ & _ & _ & Hwrite & _).
  - sample_configured.
  - sample_configured.
  - reflexivity.
  - reflexivity.
  - reflexivity.
  - reflexivity.
  - vm_compute. reflexivity.
  - reflexivity.
  - reflexivity.
  - split; [exact Hans | rewrite Hwrite; reflexivity].
Defined.

(** C4. For a verification request, a link row whose [revoked_at] is
    set is answered REVOKED whatever the passcode; otherwise a link row
    whose [expires_at] is before the instant of the request is
    answered EXPIRED, whatever its count of prior attempts; and when no
    row is found (answered with the state [invalid]), when the link is
    revoked and when it is expired, nothing is written: the tables are
    left as they were. *)
Theorem C4_terminal_states_write_nothing :
  forall (sha256 : list byte -> list byte) e pepper r i w,
    Props.configured e pepper ->
    Props.well_formed i ->
    let out := Validator.serve sha256 e r (Props.verification i) w in
    (forall link t,
        Props.found sha256 pepper r i w link ->
        Store.revoked_at link = Some t ->
        out = (Props.TERMINAL Validator.revoked, w))
    /\ (forall link,
           Props.found sha256 pepper r i w link ->
           Store.revoked_at link = None ->
           Store.expires_at link < Validator.now r ->
           out = (Props.TERMINAL Validator.expired, w))
    /\ (Store.maybeSingle (Validator.link_select_fails r)
          (Store.matching_links
             (Crypto.hashWithPepper sha256 (Validator.in_token i) pepper)
             (Validator.in_case_id i) (Store.case_links w))
        = Store.pg_data None ->
        out = (Props.TERMINAL Validator.invalid, w)).
Proof.
  intros sha256 e pepper r i w Hcfg Hwf out. subst out. repeat split.
  - intros link t Hfound Hrev.
    rewrite (serve_found sha256 e r i w pepper link Hcfg Hwf Hfound).
    apply (check_revoked_run sha256 r i pepper link t w Hrev).
  - intros link Hfound Hrev Hexp.
    rewrite (serve_found sha256 e r i w pepper link Hcfg Hwf Hfound).
    apply (check_expired_run sha256 r i pepper link w Hrev).
    apply Z.ltb_lt. exact Hexp.
  - intros Hnone. apply (serve_not_found sha256 e r i w pepper Hcfg Hwf Hnone).
Qed.

Lemma C4_witness :
  Validator.serve Sample.digest Sample.environment (Sample.at_time 100)
    (Props.verification (Sample.visit "123456")) (Sample.world_of Sample.revoked_link)
  = (Props.TERMINAL Validator.revoked, Sample.world_of Sample.revoked_link)
  /\ Validator.serve Sample.digest Sample.environment (Sample.at_time 6000000)
       (Props.verification (Sample.visit "123456")) Sample.world
     = (Props.TERMINAL Validator.expired, Sample.world).
Proof.
  split.
  - apply (C4_terminal_states_write_nothing Sample.digest Sample.environment "pepper"
             (Sample.at_time 100) (Sample.visit "123456")
             (Sample.world_of Sample.revoked_link))
      with (link := Sample.revoked_link) (t := 60).
    + sample_configured.
    + sample_configured.
    + reflexivity.
    + reflexivity.
  - apply (C4_terminal_states_write_nothing Sample.digest Sample.environment "pepper"
             (Sample.at_time 6000000) (Sample.visit "123456") Sample.world)
      with (link := Sample.fresh).
    + sample_configured.
    + sample_configured.
    + reflexivity.
    + reflexivity.
    + reflexivity.
Defined.

(** C6.  The code does not do what the claim asks: when the datastore
    answers the update of the attempt counter with an error, the
    handler drops that answer, reports WRONG_PASSCODE with a remaining
    count as if the attempt had been recorded, and the row is left
    unchanged. *)
Theorem C6_unrecorded_attempt_still_reported :
  forall (sha256 : list byte -> list byte) e pepper r i w link,
    Props.configured e pepper ->
    Props.well_formed i ->
    Props.found sha256 pepper r i w link ->
    Store.revoked_at link = None ->
    Props.not_expired link r ->
    Validator.is_locked link (Validator.now r) = false ->
    ~ Props.correct sha256 pepper i link ->
    Store.attempt_count link + 1 < 10 ->
    Validator.attempt_update_fails r = true ->
    Validator.serve sha256 e r (Props.verification i) w
    = (Props.WRONG_PASSCODE (10 - (Store.attempt_count link + 1)), w).
Proof.
  intros sha256 e pepper r i w link Hcfg Hwf Hfound Hrev Hexp Hlock Hwrong Hbelow Hko.
  rewrite (wrong_attempt sha256 e r i w pepper link Hcfg Hwf Hfound Hrev Hexp Hlock Hwrong).
  rewrite (wrong_branch_refused r link w Hko).
  apply Z.leb_gt in Hbelow. rewrite Hbelow. reflexivity.
Qed.

Lemma C6_witness :
  Validator.serve Sample.digest Sample.environment (Sample.write_failing 100)
    (Props.verification (Sample.visit "000000")) Sample.world
  = (Props.WRONG_PASSCODE 9, Sample.world).
Proof.
  apply (C6_unrecorded_attempt_still_reported Sample.digest Sample.environment "pepper"
           (Sample.write_failing 100) (Sample.visit "000000") Sample.world Sample.fresh).
  - sample_configured.
  - sample_configured.
  - reflexivity.
  - reflexivity.
  - reflexivity.
  - reflexivity.
  - vm_compute. discriminate.
  - reflexivity.
  - reflexivity.
Defined.

(** ** The digest in hexadecimal *)

Section HexDigest.

Lemma length_app_string (a b : string) :
  String.length (a ++ b) = (String.length a + String.length b)%nat.
Proof. induction a as [|c a IH]; cbn; [reflexivity | rewrite IH; reflexivity]. Qed.

Lemma two_hex_digits (b : byte) :
  String.length (Js.padStart (Crypto.toString16 b) 2 "0"%char) = 2%nat.
Proof. destruct b; reflexivity. Qed.

Lemma hex_length (bytes : list byte) :
  String.length (Crypto.hex bytes) = (2 * List.length bytes)%nat.
Proof.
  unfold Crypto.hex. induction bytes as [|b rest IH]; [reflexivity|].
  cbn [map Js.join List.length]. rewrite length_app_string, two_hex_digits, IH. lia.
Qed.

Variable sha256 : list byte -> list byte.
Hypothesis sha256_length : forall data, List.length (sha256 data) = 32%nat.

Lemma hashWithPepper_length (value pepper : string) :
  String.length (Crypto.hashWithPepper sha256 value pepper) = 64%nat.
Proof.
  unfold Crypto.hashWithPepper. rewrite hex_length, sha256_length. reflexivity.
Qed.

Lemma hashWithPepper_not_empty (value pepper : string) :
  Crypto.hashWithPepper sha256 value pepper <> "".
Proof.
  intros H. pose proof (hashWithPepper_length value pepper) as Hlen.
  rewrite H in Hlen. discriminate Hlen.
Qed.

End HexDigest.

Section HexCharacters.

Lemma two_hex_digits_are_hex (b : byte) :
  forallb Crypto.is_hex_char
    (list_ascii_of_string (Js.padStart (Crypto.toString16 b) 2 "0"%char)) = true.
Proof. destruct b; reflexivity. Qed.

Lemma list_ascii_app (a b : string) :
  list_ascii_of_string (a ++ b)
  = (list_ascii_of_string a ++ list_ascii_of_string b)%list.
Proof. induction a as [|c a IH]; cbn; [reflexivity | rewrite IH; reflexivity]. Qed.

Lemma hex_is_hex (bytes : list byte) :
  forallb Crypto.is_hex_char (list_ascii_of_string (Crypto.hex bytes)) = true.
Proof.
  unfold Crypto.hex. induction bytes as [|b rest IH]; [reflexivity|].
  cbn [map Js.join]. rewrite list_ascii_app, forallb_app, two_hex_digits_are_hex, IH.
  reflexivity.
Qed.

End HexCharacters.

(** ** The authenticated route *)

Section RouteFacts.
Import Store.

Variable sha256 : list byte -> list byte.
Variable formatUSD : Js.Formatting.

(** A request the route answers with 200 left exactly one more link,
    the row [link_row] builds, whose [passcode_hash] is empty. *)
Lemma route_success_inserts_link e r req w resp w' :
  GenerateRoute.POST sha256 formatUSD e r req w = (resp, w') ->
  GenerateRoute.status resp = 200 ->
  exists caseId tokenHash expiresAt caseUrl,
    case_links w'
    = (case_links w
         ++ [GenerateRoute.link_row r caseId tokenHash expiresAt caseUrl])%list.
Proof.
  unfold GenerateRoute.POST, try_catch, GenerateRoute.create.
  intros Hrun Hok.
  unfold bind at 1, Next.getSupabaseServerClient in Hrun.
  destruct (_ || _); [cbn in Hrun; injection Hrun as <- <-; discriminate Hok|].
  unfold ret at 1 in Hrun.
  destruct (GenerateRoute.user req) as [uid|];
    [|cbn in Hrun; injection Hrun as <- <-; discriminate Hok].
  destruct (GenerateRoute.json req) as [input|];
    [|cbn in Hrun; injection Hrun as <- <-; discriminate Hok].
  destruct (0 <? Z.of_nat (List.length (Calculator.validateInput input)));
    [cbn in Hrun; injection Hrun as <- <-; discriminate Hok|].
  destruct (Calculator.company_name input) as [| | |?|company|];
    try (cbn in Hrun; injection Hrun as <- <-; discriminate Hok).
  destruct (Calculator.industry input) as [| | |?|ind|];
    try (cbn in Hrun; injection Hrun as <- <-; discriminate Hok).
  destruct (Calculator.w2_count input) as [| | |w2|?|];
    try (cbn in Hrun; injection Hrun as <- <-; discriminate Hok).
  unfold bind at 1 in Hrun. unfold insert_case at 1 in Hrun.
  unfold bind at 1, get at 1 in Hrun.
  destruct (GenerateRoute.case_insert_fails r || existsb _ (cases w)).
  - cbn in Hrun. injection Hrun as <- <-. discriminate Hok.
  - unfold bind at 1, put at 1, ret at 1 in Hrun. cbn [Store.error data pg_data] in Hrun.
    destruct (Deno.env_get e "LINK_PEPPER") as [pepper|];
      [|cbn in Hrun; injection Hrun as <- <-; discriminate Hok].
    destruct (Js.falsy pepper);
      [cbn in Hrun; injection Hrun as <- <-; discriminate Hok|].
    unfold bind at 1 in Hrun. unfold insert_link at 1 in Hrun.
    unfold bind at 1, get at 1 in Hrun.
    match type of Hrun with
    | context [if ?c then ret true else _] => destruct c
    end.
    + unfold delete_case in Hrun. destruct (GenerateRoute.case_delete_fails r);
        cbn in Hrun; injection Hrun as <- <-; discriminate Hok.
    + cbn in Hrun. injection Hrun as <- <-. cbn [case_links with_links with_cases].
      eauto.
Qed.

End RouteFacts.

Example sample_route_world :
  Store.case_links Sample.world_after_route = [Sample.fresh; Sample.route_link]
  /\ fst (GenerateRoute.POST Sample.digest Sample.formatUSD Sample.environment
            Sample.route_run Sample.proposal Sample.world)
     = {| GenerateRoute.status := 200;
          GenerateRoute.body :=
            {| GenerateRoute.ok := true; GenerateRoute.error := None;
               GenerateRoute.body_case_id := Some "case-2";
               GenerateRoute.url :=
                 Some ("https://app.example/cases/case-2?t="
                         ++ Crypto.generateToken (repeat x2a 32));
               GenerateRoute.body_expires_at := Some 2592000011 |} |}.
Proof. vm_compute. split; reflexivity. Qed.

(** C10. A link row whose stored [passcode_hash] is the empty string,
    as the route [/api/generate] inserts them, is never answered
    SUCCESS by the validator, whatever passcode is supplied:
    [hashWithPepper] returns the 64 hexadecimal characters of a 32-byte
    digest, which the empty string is not, so every verification
    request on such a link that is neither revoked nor expired is
    answered WRONG_PASSCODE or LOCKED. *)
Theorem C10_empty_passcode_hash_never_succeeds :
  forall (sha256 : list byte -> list byte),
    (forall data, List.length (sha256 data) = 32%nat) ->
    (forall formatUSD e r req w resp w',
        GenerateRoute.POST sha256 formatUSD e r req w = (resp, w') ->
        GenerateRoute.status resp = 200 ->
        exists link,
          Store.case_links w' = (Store.case_links w ++ [link])%list
          /\ Store.passcode_hash link = "")
    /\ (forall value pepper,
           String.length (Crypto.hashWithPepper sha256 value pepper) = 64%nat
           /\ forallb Crypto.is_hex_char
                (list_ascii_of_string (Crypto.hashWithPepper sha256 value pepper)) = true)
    /\ (forall e pepper r i w link,
           Props.configured e pepper ->
           Props.well_formed i ->
           Props.found sha256 pepper r i w link ->
           Store.passcode_hash link = "" ->
           let out := Validator.serve sha256 e r (Props.verification i) w in
           Props.state_of (fst out) <> Some Validator.success
           /\ (Store.revoked_at link = None -> Props.not_expired link r ->
               Props.state_of (fst out) = Some Validator.wrong_passcode
               \/ Props.state_of (fst out) = Some Validator.locked)).
Proof.
  intros sha256 Hlen. split; [|split].
  - intros formatUSD e r req w resp w' Hrun Hok.
    destruct (route_success_inserts_link sha256 formatUSD e r req w resp w' Hrun Hok)
      as (caseId & tokenHash & expiresAt & caseUrl & Hlinks).
    eexists. split; [exact Hlinks | reflexivity].
  - intros value pepper. split.
    + apply hashWithPepper_length. exact Hlen.
    + apply hex_is_hex.
  - intros e pepper r i w link Hcfg Hwf Hfound Hempty out. subst out.
    assert (Hwrong : ~ Props.correct sha256 pepper i link).
    { unfold Props.correct. rewrite Hempty.
      apply hashWithPepper_not_empty. exact Hlen. }
    destruct (Store.revoked_at link) as [t|] eqn:Hrev.
    { rewrite (serve_found sha256 e r i w pepper link Hcfg Hwf Hfound).
      rewrite (check_revoked_run sha256 r i pepper link t w Hrev).
      split; [discriminate | intros H; discriminate H]. }
    destruct (Store.expires_at link <? Validator.now r) eqn:Hexp.
    { rewrite (serve_found sha256 e r i w pepper link Hcfg Hwf Hfound).
      rewrite (check_expired_run sha256 r i pepper link w Hrev Hexp).
      split; [discriminate | intros _ H; unfold Props.not_expired in H; congruence]. }
    destruct (Validator.is_locked link (Validator.now r)) eqn:Hlock.
    { unfold Validator.is_locked in Hlock.
      destruct (Store.locked_until link) as [t|] eqn:Hlu; [|discriminate].
      apply Z.ltb_lt in Hlock.
      rewrite (serve_found sha256 e r i w pepper link Hcfg Hwf Hfound).
      rewrite (check_locked_run sha256 r i pepper link t w Hrev Hexp Hlu Hlock).
      split; [discriminate | intros _ _; right; reflexivity]. }
    rewrite (wrong_attempt sha256 e r i w pepper link Hcfg Hwf Hfound Hrev Hexp Hlock Hwrong).
    cbn [fst].
    destruct (10 <=? Store.attempt_count link + 1);
      (split; [discriminate | intros _ _; (left; reflexivity) || (right; reflexivity)]).
Qed.

Lemma C10_witness :
  Props.state_of
    (fst (Validator.serve Sample.digest Sample.environment (Sample.at_time 100)
            (Props.verification (Sample.route_visit "123456")) Sample.world_after_route))
  <> Some Validator.success.
Proof.
  destruct (C10_empty_passcode_hash_never_succeeds Sample.digest) as (_ & _ & Hnever).
  - intros data. reflexivity.
  - apply (Hnever Sample.environment "pepper" (Sample.at_time 100)
             (Sample.route_visit "123456") Sample.world_after_route Sample.route_link).
    + sample_configured.
    + sample_configured.
    + vm_compute. reflexivity.
    + reflexivity.
Defined.


(** ** The Calculation Engine and the two generation paths *)

Section Doubles.

(** An integer below [2^53] in magnitude is a double. *)
Lemma round53_exact (x : Z) : Z.abs x < 2 ^ 53 -> Js.round53 x = x.
Proof.
  intros Hx. unfold Js.round53.
  assert (Hlog : Z.log2 (Z.abs x) - 52 <= 0).
  { destruct (Z.eq_dec (Z.abs x) 0) as [H0|H0]; [rewrite H0; cbn; lia|].
    assert (Z.log2 (Z.abs x) < 53); [|lia].
    apply Z.log2_lt_pow2; lia. }
  apply Z.leb_le in Hlog. rewrite Hlog. reflexivity.
Qed.

Lemma of_dyadic_exact (x : Z) : Z.abs x < 2 ^ 53 -> Js.of_dyadic x 0 = Js.Int x.
Proof.
  intros Hx. unfold Js.of_dyadic. rewrite (round53_exact x Hx).
  assert (Hbig : 2 ^ 53 < 2 ^ (1024 + 0)) by (apply Z.pow_lt_mono_r; lia).
  assert (Hno : (2 ^ (1024 + 0) <=? Z.abs x) = false) by (apply Z.leb_gt; lia).
  rewrite Hno. reflexivity.
Qed.

(** Below [2^53] the product of two integers is exact. *)
Lemma times_exact (n c : Z) :
  Z.abs (n * c) < 2 ^ 53 -> Js.times (Js.Int n) c = Js.Int (n * c).
Proof. intros H. unfold Js.times. apply of_dyadic_exact. exact H. Qed.

(** Below [2^53] the sum of two integers is exact. *)
Lemma plus_exact (a b : Z) :
  Z.abs (a + b) < 2 ^ 53 -> Js.plus (Js.Int a) (Js.Int b) = Js.Int (a + b).
Proof.
  intros H. unfold Js.plus. cbn [Z.max Z.sub Z.compare Z.pow Z.pow_pos Z.opp].
  replace (a * 2 ^ (0 - 0) + b * 2 ^ (0 - 0)) with (a + b) by (cbn; lia).
  apply of_dyadic_exact. exact H.
Qed.

End Doubles.

Example sample_doubles :
  Js.round53 9007199254740993 = 9007199254740992
  /\ Js.round53 9007199254740995 = 9007199254740996
  /\ Js.times (Js.Int 3) 2170 = Js.Int 6510
  /\ Js.times (Js.NonInteger 5 1) 3357 = Js.NonInteger 16785 1
  /\ Js.times (Js.NonInteger 1 2) 2170 = Js.NonInteger 1085 1
  /\ Js.times (Js.Int (2 ^ 1020)) 3356 = Js.Infinity false
  /\ Js.plus (Js.NonInteger 1 1) (Js.NonInteger 1 1) = Js.Int 1
  /\ Js.json (Js.times (Js.Int (2 ^ 1020)) 3356) = None.
Proof. vm_compute. repeat split. Qed.

Example sample_calculation :
  let s := Calculator.calculateSavings Sample.formatUSD 2026 (Js.Int 20) in
  Calculator.calc_total s = Js.Int 67120
  /\ Calculator.calc_er s = Js.Int 23720
  /\ Calculator.calc_ee s = Js.Int 43400
  /\ Calculator.calc_explanation s
     = "Based on 20 W-2 employees (Tax Year 2026):" ++ Js.LF
         ++ "Total Tax Reduction: $67120.00 = Employer Net Savings: $23720.00"
         ++ " + Employee Reduction: $43400.00" ++ Js.LF
         ++ "Per W-2: Total $3356.00 = ER $1186.00 + EE $2170.00".
Proof. vm_compute. repeat split. Qed.

(** Where the products are no longer exact the two paths do not
    differ by the count: for 8301566133403 W-2s the totals differ by
    8301566133404, and for a count that overflows both are infinite. *)
Example sample_paths_beyond_exact_products :
  Webhook.calcTotal (Webhook.calculate Sample.formatUSD 2026 (Js.Int 8301566133403))
  = Js.Int 27868357509833872
  /\ Calculator.calc_total
       (Calculator.calculateSavings Sample.formatUSD 2026 (Js.Int 8301566133403))
     = Js.Int 27860055943700468
  /\ Webhook.calcTotal (Webhook.calculate Sample.formatUSD 2026 (Js.Int (2 ^ 1020)))
     = Calculator.calc_total
         (Calculator.calculateSavings Sample.formatUSD 2026 (Js.Int (2 ^ 1020))).
Proof. vm_compute. repeat split. Qed.

Example sample_validateInput :
  Calculator.validateInput
    {| Calculator.company_name := Js.Str "Acme Corp";
       Calculator.industry := Js.Str "Manufacturing";
       Calculator.w2_count := Js.Number (Js.Int 25) |} = []
  /\ Calculator.validateInput
       {| Calculator.company_name := Js.Str "   ";
          Calculator.industry := Js.Null;
          Calculator.w2_count := Js.Number (Js.NonInteger 5 1) |}
     = ["Business Name"; "Industry"; "W-2 Count (must be a positive whole number)"]
  /\ List.length
       (Calculator.validateInput
          {| Calculator.company_name := Js.Str "";
             Calculator.industry := Js.Str "";
             Calculator.w2_count := Js.Number (Js.Int 0) |}) = 3%nat
  /\ Calculator.validateInput
       {| Calculator.company_name := Js.Number (Js.Int 123);
          Calculator.industry := Js.Str "Manufacturing";
          Calculator.w2_count := Js.Str "25" |}
     = ["Business Name"; "W-2 Count (must be a positive whole number)"].
Proof. vm_compute. repeat split. Qed.

(** C9, as stated, fails: the products of [calculateSavings] are
    products of doubles, and for the count 8301566133403 the employee
    share is rounded up by 2, so that the total (27860055943700468) is
    neither what [+] returns for the two shares (27860055943700472)
    nor their sum (27860055943700470). *)
Lemma C9_counterexample :
  ~ (forall (formatUSD : Js.Formatting) (taxYear n : Z),
        0 < n ->
        Calculator.calc_total (Calculator.calculateSavings formatUSD taxYear (Js.Int n))
        = Js.plus
            (Calculator.calc_er (Calculator.calculateSavings formatUSD taxYear (Js.Int n)))
            (Calculator.calc_ee (Calculator.calculateSavings formatUSD taxYear (Js.Int n))))
  /\ (let s := Calculator.calculateSavings Sample.formatUSD 2026 (Js.Int 8301566133403) in
      Calculator.calc_total s = Js.Int 27860055943700468
      /\ Calculator.calc_er s = Js.Int 9845657434215958
      /\ Calculator.calc_ee s = Js.Int 18014398509484512
      /\ Js.plus (Calculator.calc_er s) (Calculator.calc_ee s) = Js.Int 27860055943700472
      /\ 27860055943700468 <> 9845657434215958 + 18014398509484512).
Proof.
  split.
  - intros H. specialize (H Sample.formatUSD 2026 8301566133403 eq_refl).
    vm_compute in H. discriminate H.
  - vm_compute. repeat split; discriminate.
Qed.

(** C9. For every positive integer [n] with [n * 3356 < 2^53] (that
    is, up to 2683909193903), the three figures of
    [calculateSavings(n)] are the exact products, and the total is the
    sum of the employer and employee shares, as [+] computes it; the
    configured rates satisfy [RATE_TOTAL = RATE_ER + RATE_EE] exactly
    (those of the application and those of the edge functions
    alike). *)
Theorem C9_total_is_employer_plus_employee :
  forall (formatUSD : Js.Formatting) (taxYear n : Z),
    0 < n ->
    n * 3356 < 2 ^ 53 ->
    Calculator.calc_total (Calculator.calculateSavings formatUSD taxYear (Js.Int n))
    = Js.plus (Calculator.calc_er (Calculator.calculateSavings formatUSD taxYear (Js.Int n)))
              (Calculator.calc_ee (Calculator.calculateSavings formatUSD taxYear (Js.Int n)))
    /\ Calculator.calc_total (Calculator.calculateSavings formatUSD taxYear (Js.Int n))
       = Js.Int (n * 3356)
    /\ Calculator.calc_er (Calculator.calculateSavings formatUSD taxYear (Js.Int n))
       = Js.Int (n * 1186)
    /\ Calculator.calc_ee (Calculator.calculateSavings formatUSD taxYear (Js.Int n))
       = Js.Int (n * 2170)
    /\ n * 3356 = n * 1186 + n * 2170
    /\ LibConstants.RATE_TOTAL = LibConstants.RATE_ER + LibConstants.RATE_EE
    /\ EdgeConstants.RATE_TOTAL = EdgeConstants.RATE_ER + EdgeConstants.RATE_EE.
Proof.
  intros formatUSD taxYear n Hpos Hbound.
  cbn [Calculator.calculateSavings Calculator.calc_total Calculator.calc_er
       Calculator.calc_ee].
  unfold LibConstants.RATE_TOTAL, LibConstants.RATE_ER, LibConstants.RATE_EE,
    EdgeConstants.RATE_TOTAL, EdgeConstants.RATE_ER, EdgeConstants.RATE_EE.
  rewrite !times_exact by lia. rewrite plus_exact by lia.
  repeat split; try lia. f_equal. lia.
Qed.

Lemma C9_witness :
  Calculator.calc_total (Calculator.calculateSavings Sample.formatUSD 2026 (Js.Int 20))
  = Js.plus (Calculator.calc_er (Calculator.calculateSavings Sample.formatUSD 2026 (Js.Int 20)))
            (Calculator.calc_ee (Calculator.calculateSavings Sample.formatUSD 2026 (Js.Int 20)))
  /\ Calculator.calc_total (Calculator.calculateSavings Sample.formatUSD 2026 (Js.Int 20))
     = Js.Int (20 * 3356).
Proof.
  destruct (C9_total_is_employer_plus_employee Sample.formatUSD 2026 20) as (H1 & H2 & _).
  - lia.
  - vm_compute. reflexivity.
  - split; [exact H1 | exact H2].
Defined.

(** C5.  The two generation paths do not compute the same figures:
    the webhook handler multiplies by the rates of the edge functions
    (3357, 1187, 2170) and [calculateSavings] by those of the
    application (3356, 1186, 2170).  The employee shares agree for
    every count; for a count [n] whose products are exact
    ([|n| * 3357 < 2^53]) the totals and the employer shares differ
    by [n]; for 20 W-2s the webhook stores 67140 and 23740 where the
    route stores 67120 and 23720. *)
Theorem C5_generation_paths_differ :
  forall (usd formatUSD : Js.Formatting) (taxYear n : Z),
    Z.abs n * 3357 < 2 ^ 53 ->
    (exists t er,
        Calculator.calc_total (Calculator.calculateSavings formatUSD taxYear (Js.Int n))
        = Js.Int t
        /\ Webhook.calcTotal (Webhook.calculate usd taxYear (Js.Int n)) = Js.Int (t + n)
        /\ Calculator.calc_er (Calculator.calculateSavings formatUSD taxYear (Js.Int n))
           = Js.Int er
        /\ Webhook.calcEr (Webhook.calculate usd taxYear (Js.Int n)) = Js.Int (er + n))
    /\ (forall c : Js.Num,
          Webhook.calcEe (Webhook.calculate usd taxYear c)
          = Calculator.calc_ee (Calculator.calculateSavings formatUSD taxYear c))
    /\ Webhook.calcTotal (Webhook.calculate usd taxYear (Js.Int 20)) = Js.Int 67140
    /\ Calculator.calc_total (Calculator.calculateSavings formatUSD taxYear (Js.Int 20))
       = Js.Int 67120
    /\ Webhook.calcEr (Webhook.calculate usd taxYear (Js.Int 20)) = Js.Int 23740
    /\ Calculator.calc_er (Calculator.calculateSavings formatUSD taxYear (Js.Int 20))
       = Js.Int 23720.
Proof.
  intros usd formatUSD taxYear n Hbound.
  cbn [Webhook.calculate Webhook.calcTotal Webhook.calcEr Webhook.calcEe
       Calculator.calculateSavings Calculator.calc_total Calculator.calc_er
       Calculator.calc_ee].
  unfold LibConstants.RATE_TOTAL, LibConstants.RATE_ER, LibConstants.RATE_EE,
    EdgeConstants.RATE_TOTAL, EdgeConstants.RATE_ER, EdgeConstants.RATE_EE.
  split; [|split; [reflexivity | repeat split; vm_compute; reflexivity]].
  exists (n * 3356), (n * 1186). rewrite !times_exact by lia.
  repeat split; f_equal; lia.
Qed.

Lemma C5_witness :
  Webhook.calcTotal (Webhook.calculate Sample.formatUSD 2026 (Js.Int 20)) = Js.Int 67140
  /\ Calculator.calc_total (Calculator.calculateSavings Sample.formatUSD 2026 (Js.Int 20))
     = Js.Int 67120.
Proof.
  destruct (C5_generation_paths_differ Sample.formatUSD Sample.formatUSD 2026 20)
    as (_ & _ & H1 & H2 & _).
  - vm_compute. reflexivity.
  - split; [exact H1 | exact H2].
Defined.

(** ** The Generation Idempotency Guard *)

Example sample_first_generation :
  let out := Webhook.serve Sample.digest Sample.formatUSD Sample.environment
               (Sample.event_run 100000) Sample.event Sample.world in
  Webhook.status (fst out) = 200
  /\ List.length (Store.case_links (snd out)) = 2%nat
  /\ map Store.last_generated_at (Store.cases (snd out)) = [Some 100001]
  /\ map Store.revoked_at (Store.case_links (snd out)) = [Some 100002; None].
Proof. vm_compute. repeat split. Qed.

Example sample_window_boundary :
  Webhook.status
    (fst (Webhook.serve Sample.digest Sample.formatUSD Sample.environment
            (Sample.event_run 61000) Sample.event Sample.world)) = 200
  /\ List.length
       (Store.case_links
          (snd (Webhook.serve Sample.digest Sample.formatUSD Sample.environment
                  (Sample.event_run 61000) Sample.event Sample.world))) = 2%nat
  /\ Webhook.serve Sample.digest Sample.formatUSD Sample.environment
       (Sample.event_run 60999) Sample.event Sample.world
     = ({| Webhook.status := 200;
           Webhook.body := Webhook.SkippedIdempotent "idempotency_window" "case-1" |},
        Sample.world).
Proof. vm_compute. repeat split. Qed.



(** ** Link rotation *)

Example sample_rotation :
  let out := Regenerate.serve Sample.digest Sample.environment Sample.rotation_run
               (Props.rotation "case-1") Sample.world in
  Regenerate.status (fst out) = 200
  /\ map Store.revoked_at (Store.case_links (snd out)) = [Some 60; None]
  /\ map Store.last_generated_at (Store.cases (snd out)) = [Some 62]
  /\ (exists u x,
         Regenerate.body (fst out)
         = Regenerate.Json
             {| Regenerate.ok := true; Regenerate.error := None;
                Regenerate.body_case_id := Some "case-1";
                Regenerate.url := Some u;
                Regenerate.passcode := Some "000000";
                Regenerate.body_expires_at := Some x |}).
Proof. vm_compute. repeat split. eauto. Qed.

Section RotationFacts.
Import Store Props.

Variable sha256 : list byte -> list byte.

(** Inversion of a sequence that returned. *)
Lemma bind_returned {W A B} (m : M W A) (k : A -> M W B) (w w' : W) (b : B) :
  bind m k w = (Returned b, w') ->
  exists a w1, m w = (Returned a, w1) /\ k a w1 = (Returned b, w').
Proof.
  unfold bind. destruct (m w) as [[a|msg] w1]; [eauto | discriminate].
Qed.

Lemma env_returned {W} (e : Deno.Env) key fallback (w w' : W) v :
  Deno.env e key fallback w = (Returned v, w') -> w' = w.
Proof.
  unfold Deno.env.
  destruct (match Deno.env_get e key with Some v0 => Some v0 | None => fallback end)
    as [x|]; [destruct (Js.falsy x)|]; cbn; intros H; inversion H; reflexivity.
Qed.

Lemma service_client_returned {W} (e : Deno.Env) (w w' : W) u :
  Deno.getServiceClient e w = (Returned u, w') -> w' = w.
Proof.
  unfold Deno.getServiceClient.
  destruct (_ || _); cbn; intros H; inversion H; reflexivity.
Qed.

Lemma keeps_env e key fallback : keeps_links (Deno.env (W := World) e key fallback).
Proof.
  intros w. unfold Deno.env.
  destruct (match Deno.env_get e key with Some v0 => Some v0 | None => fallback end)
    as [x|]; [destruct (Js.falsy x)|]; reflexivity.
Qed.

Lemma keeps_bind {A B} (m : M World A) (k : A -> M World B) :
  keeps_links m -> (forall a, keeps_links (k a)) -> keeps_links (bind m k).
Proof.
  intros Hm Hk w. unfold bind. specialize (Hm w).
  destruct (m w) as [[a|msg] w1]; cbn [snd] in *.
  - rewrite (Hk a w1). exact Hm.
  - exact Hm.
Qed.

Lemma keeps_non_fatal (m : M World unit) : keeps_links m -> keeps_links (non_fatal m).
Proof.
  intros Hm w. unfold non_fatal. specialize (Hm w).
  destruct (m w) as [o w1]. exact Hm.
Qed.

Lemma keeps_call_out o : keeps_links (call_out o).
Proof. intros w. reflexivity. Qed.

Lemma keeps_touch_case fails c t : keeps_links (touch_case fails c t).
Proof. intros w. unfold touch_case. destruct fails; reflexivity. Qed.

Lemma keeps_updatePipedriveDeal e d fields :
  keeps_links (Pipedrive.updatePipedriveDeal e d fields).
Proof.
  unfold Pipedrive.updatePipedriveDeal.
  repeat (apply keeps_bind; [apply keeps_env | intros ?]).
  apply keeps_call_out.
Qed.

Lemma revoke_links_applied c t w :
  revoke_links false c t w
  = (Returned false, with_links w (active_revoked c t (case_links w))).
Proof. reflexivity. Qed.

End RotationFacts.

Section RotationRuns.
Import Store Props.

Variable sha256 : list byte -> list byte.

(** What a rotation answered with 200 did to the table of links,
    when the datastore applied the revocation: the links of the case
    that were active are revoked at the instant of the revocation,
    and one fresh, active link of the case follows them, whose token
    hash none of the former rows has. *)
Lemma rotation_success e r c w resp w' :
  Regenerate.serve sha256 e r (rotation c) w = (resp, w') ->
  Regenerate.status resp = 200 ->
  Regenerate.revoke_fails r = false ->
  exists fresh_link,
    case_links w'
    = (active_revoked c (Regenerate.revoke_time r) (case_links w) ++ [fresh_link])%list
    /\ case_id fresh_link = c
    /\ revoked_at fresh_link = None
    /\ attempt_count fresh_link = 0
    /\ locked_until fresh_link = None
    /\ existsb (fun l => String.eqb (token_hash l) (token_hash fresh_link))
         (active_revoked c (Regenerate.revoke_time r) (case_links w)) = false.
Proof.
  unfold Regenerate.serve, rotation, try_catch.
  cbn [Regenerate.method Regenerate.json].
  intros Hrun Hok Hrevoke.
  destruct (Regenerate.rotate sha256 e r c w) as [[resp0|msg] w0] eqn:E;
    injection Hrun as <- <-; [|discriminate Hok].
  unfold Regenerate.rotate in E.
  destruct (Js.falsy c); [injection E as <- <-; discriminate Hok|].
  apply bind_returned in E as (u & w1 & E1 & E).
  apply service_client_returned in E1. subst w1.
  apply bind_returned in E as (pepper & w1 & E1 & E).
  apply env_returned in E1. subst w1.
  apply bind_returned in E as (appBaseUrl & w1 & E1 & E).
  apply env_returned in E1. subst w1.
  apply bind_returned in E as (fetched & w1 & E1 & E).
  unfold select_case, bind, get, ret in E1. injection E1 as <- <-.
  destruct (Store.error _); [injection E as <- <-; discriminate Hok|].
  destruct (data _) as [caseData|]; [|injection E as <- <-; discriminate Hok].
  apply bind_returned in E as (revokeError & w1 & E1 & E).
  rewrite Hrevoke, revoke_links_applied in E1. injection E1 as <- <-.
  apply bind_returned in E as (linkError & w2 & E1 & E).
  unfold insert_link, bind, get in E1.
  match type of E1 with
  | context [if ?cond then ret true else _] => destruct cond eqn:Hcond
  end.
  - injection E1 as <- <-. injection E as <- <-. discriminate Hok.
  - cbn in E1. injection E1 as <- <-.
    apply bind_returned in E as (touched & w3 & E1 & E).
    apply bind_returned in E as (notified & w4 & E2 & E).
    injection E as <- <-.
    pose proof (keeps_touch_case (Regenerate.touch_fails r) c
                  (Regenerate.generated_at r)) as Hk1.
    match type of E1 with ?m ?w0 = _ => specialize (Hk1 w0) end.
    rewrite E1 in Hk1. cbn [snd] in Hk1.
    assert (Hk2 : case_links w4 = case_links w3).
    { destruct (match pipedrive_deal_id caseData with Some d => d | None => 0 end =? 0).
      - injection E2 as <- <-. reflexivity.
      - match type of E2 with
        | non_fatal ?m ?w0 = _ =>
            assert (Hkeep : keeps_links (non_fatal m))
        end.
        { apply keeps_non_fatal.
          repeat (apply keeps_bind; [apply keeps_env | intros ?]).
          first [apply keeps_updatePipedriveDeal | apply keeps_call_out]. }
        specialize (Hkeep w3). rewrite E2 in Hkeep. exact Hkeep. }
    rewrite Hk2, Hk1. cbn [case_links with_links].
    eexists. split; [reflexivity|].
    repeat apply orb_false_elim in Hcond as [Hcond ?].
    cbn [case_links with_links new_link token_hash case_id revoked_at attempt_count
         locked_until] in *.
    repeat split; assumption.
Qed.

End RotationRuns.

Section RotationThenVerification.
Import Store Props.

Variable sha256 : list byte -> list byte.

Lemma revocation_keys c t l :
  token_hash (if String.eqb (case_id l) c
                 && match revoked_at l with None => true | Some _ => false end
              then after_revocation l t else l) = token_hash l
  /\ case_id (if String.eqb (case_id l) c
                 && match revoked_at l with None => true | Some _ => false end
              then after_revocation l t else l) = case_id l.
Proof. destruct (_ && _); split; reflexivity. Qed.

(** A link that a request found before the rotation of its case, and
    that was active, is found revoked after it. *)
Lemma found_revoked_after_rotation pepper rv i w link c t fresh_link links' :
  found sha256 pepper rv i w link ->
  case_id link = c -> revoked_at link = None ->
  links' = (active_revoked c t (case_links w) ++ [fresh_link])%list ->
  existsb (fun l => String.eqb (token_hash l) (token_hash fresh_link))
    (active_revoked c t (case_links w)) = false ->
  found sha256 pepper rv i (with_links w links') (after_revocation link t).
Proof.
  intros Hfound Hcase Hactive -> Hunique. unfold found in *.
  apply maybeSingle_found in Hfound as [Hsel Hrows].
  cbn [case_links with_links].
  assert (Hin : In link (matching_links
                           (Crypto.hashWithPepper sha256 (Validator.in_token i) pepper)
                           (Validator.in_case_id i) (case_links w)))
    by (rewrite Hrows; left; reflexivity).
  apply matching_links_sound in Hin as (Hin & Hhash & _).
  unfold matching_links at 1. rewrite filter_app. fold (matching_links
    (Crypto.hashWithPepper sha256 (Validator.in_token i) pepper) (Validator.in_case_id i)
    (active_revoked c t (case_links w))).
  unfold active_revoked at 1. rewrite matching_links_map by (intros l; apply revocation_keys).
  rewrite Hrows. cbn [map]. rewrite Hcase, String.eqb_refl, Hactive. cbn [andb].
  assert (Hfresh : (token_hash fresh_link
                    =? Crypto.hashWithPepper sha256 (Validator.in_token i) pepper)%string
                   = false).
  { apply String.eqb_neq. intros Heq.
    assert (Hex : existsb (fun l => String.eqb (token_hash l) (token_hash fresh_link))
                    (active_revoked c t (case_links w)) = true).
    { apply existsb_exists. exists (after_revocation link t). split.
      - unfold active_revoked. apply in_map_iff. exists link. split; [|exact Hin].
        rewrite Hcase, String.eqb_refl, Hactive. reflexivity.
      - cbn [token_hash after_revocation]. rewrite Hhash, Heq. apply String.eqb_refl. }
    rewrite Hunique in Hex. discriminate Hex. }
  cbn [filter app]. rewrite Hfresh. cbn [andb app]. rewrite Hsel. reflexivity.
Qed.

End RotationThenVerification.

(** C7. A rotation for a case, answered with 200 by a datastore that
    applied the revocation, marked every link of the case that was not
    revoked as revoked at the instant of the revocation, and only then
    inserted the new link, which is therefore active; a verification
    request that found one of the previously active links before the
    rotation is answered REVOKED after it, whatever its passcode, and
    writes nothing. *)
Theorem C7_rotation_revokes_previous_links :
  forall (sha256 : list byte -> list byte) e r c w resp w',
    Regenerate.serve sha256 e r (Props.rotation c) w = (resp, w') ->
    Regenerate.status resp = 200 ->
    Regenerate.revoke_fails r = false ->
    (exists fresh_link,
        Store.case_links w'
        = (Props.active_revoked c (Regenerate.revoke_time r) (Store.case_links w)
             ++ [fresh_link])%list
        /\ Store.case_id fresh_link = c
        /\ Store.revoked_at fresh_link = None)
    /\ (forall link,
           In link (Store.case_links w) ->
           Store.case_id link = c ->
           Store.revoked_at link = None ->
           In (Props.after_revocation link (Regenerate.revoke_time r))
              (Store.case_links w'))
    /\ (forall ev pepper rv i link,
           Props.configured ev pepper ->
           Props.well_formed i ->
           Props.found sha256 pepper rv i w link ->
           Store.case_id link = c ->
           Store.revoked_at link = None ->
           Validator.serve sha256 ev rv (Props.verification i) w'
           = (Props.TERMINAL Validator.revoked, w')).
Proof.
  intros sha256 e r c w resp w' Hrun Hok Hrevoke.
  destruct (rotation_success sha256 e r c w resp w' Hrun Hok Hrevoke)
    as (fresh_link & Hlinks & Hcase & Hactive & _ & _ & Hunique).
  split; [|split].
  - exists fresh_link. auto.
  - intros link Hin Hc Hnot. rewrite Hlinks. apply in_or_app. left.
    unfold Props.active_revoked. apply in_map_iff. exists link. split; [|exact Hin].
    rewrite Hc, String.eqb_refl, Hnot. reflexivity.
  - intros ev pepper rv i link Hcfg Hwf Hfound Hc Hnot.
    pose proof (found_revoked_after_rotation sha256 pepper rv i w link c
                  (Regenerate.revoke_time r) fresh_link (Store.case_links w')
                  Hfound Hc Hnot Hlinks Hunique) as Hfound'.
    assert (Hsame : Props.found sha256 pepper rv i w'
                      (Props.after_revocation link (Regenerate.revoke_time r))).
    { unfold Props.found in *. cbn [Store.case_links Store.with_links] in Hfound'.
      exact Hfound'. }
    rewrite (serve_found sha256 ev rv i w' pepper _ Hcfg Hwf Hsame).
    apply (check_revoked_run sha256 rv i pepper _ (Regenerate.revoke_time r) w').
    reflexivity.
Qed.

Lemma C7_witness :
  Validator.serve Sample.digest Sample.environment (Sample.at_time 100)
    (Props.verification (Sample.visit "123456"))
    (snd (Regenerate.serve Sample.digest Sample.environment Sample.rotation_run
            (Props.rotation "case-1") Sample.world))
  = (Props.TERMINAL Validator.revoked,
     snd (Regenerate.serve Sample.digest Sample.environment Sample.rotation_run
            (Props.rotation "case-1") Sample.world)).
Proof.
  destruct (C7_rotation_revokes_previous_links Sample.digest Sample.environment
              Sample.rotation_run "case-1" Sample.world
              (fst (Regenerate.serve Sample.digest Sample.environment Sample.rotation_run
                      (Props.rotation "case-1") Sample.world))
              (snd (Regenerate.serve Sample.digest Sample.environment Sample.rotation_run
                      (Props.rotation "case-1") Sample.world)))
    as (_ & _ & Hthen).
  - vm_compute. reflexivity.
  - vm_compute. reflexivity.
  - reflexivity.
  - apply (Hthen Sample.environment "pepper" (Sample.at_time 100)
             (Sample.visit "123456") Sample.fresh).
    + sample_configured.
    + sample_configured.
    + reflexivity.
    + reflexivity.
    + reflexivity.
Defined.

(** * Further properties *)

(** ** Tokens and passcodes *)

Section TokenFacts.

Lemma string_app_inj_length (a a' b b' : string) :
  String.length a = String.length a' -> (a ++ b = a' ++ b')%string -> a = a' /\ b = b'.
Proof.
  revert a'. induction a as [|c a IH]; intros [|c' a'] Hlen Heq;
    try discriminate Hlen.
  - split; [reflexivity | exact Heq].
  - cbn in Heq. injection Heq as -> Heq. injection Hlen as Hlen.
    destruct (IH a' Hlen Heq) as [-> ->]. split; reflexivity.
Qed.

Lemma hex_value_digit (n : N) : (n < 16)%N -> Invariant.hex_value (Crypto.hex_digit n) = n.
Proof.
  intros Hn. destruct n as [|p]; [reflexivity|].
  do 4 (destruct p as [p|p|]; try reflexivity); lia.
Qed.

Lemma two_hex_digits_shape (b : byte) :
  Js.padStart (Crypto.toString16 b) 2 "0"%char
  = String (Crypto.hex_digit (Byte.to_N b / 16))
      (String (Crypto.hex_digit (Byte.to_N b mod 16)) EmptyString).
Proof. destruct b; reflexivity. Qed.

Lemma byte_to_N_inj (b b' : byte) : Byte.to_N b = Byte.to_N b' -> b = b'.
Proof.
  intros H. apply (f_equal Byte.of_N) in H. rewrite !Byte.of_to_N in H.
  injection H as ->. reflexivity.
Qed.

Lemma two_hex_digits_inj (b b' : byte) :
  Js.padStart (Crypto.toString16 b) 2 "0"%char = Js.padStart (Crypto.toString16 b') 2 "0"%char ->
  b = b'.
Proof.
  rewrite !two_hex_digits_shape. intros H. injection H as Hhi Hlo.
  pose proof (Byte.to_N_bounded b) as Hb. pose proof (Byte.to_N_bounded b') as Hb'.
  apply (f_equal Invariant.hex_value) in Hhi, Hlo.
  rewrite !hex_value_digit in Hhi, Hlo;
    try (apply N.mod_lt; lia); try (apply N.Div0.div_lt_upper_bound; lia).
  apply byte_to_N_inj.
  rewrite (N.div_mod (Byte.to_N b) 16), (N.div_mod (Byte.to_N b') 16) by lia.
  rewrite Hhi, Hlo. reflexivity.
Qed.

Lemma hex_inj (a b : list byte) : Crypto.hex a = Crypto.hex b -> a = b.
Proof.
  unfold Crypto.hex. revert b. induction a as [|x a IH]; intros [|y b] H.
  - reflexivity.
  - cbn [map Js.join] in H. rewrite two_hex_digits_shape in H. discriminate H.
  - cbn [map Js.join] in H. rewrite two_hex_digits_shape in H. discriminate H.
  - cbn [map Js.join] in H.
    apply string_app_inj_length in H; [|rewrite !two_hex_digits; reflexivity].
    destruct H as [Hxy Hrest]. apply two_hex_digits_inj in Hxy. subst y.
    f_equal. apply IH. exact Hrest.
Qed.









Lemma repeat_char_length (c : ascii) (n : nat) : String.length (Js.repeat_char c n) = n.
Proof. induction n; cbn; [reflexivity | rewrite IHn; reflexivity]. Qed.


(** [padStart] never shortens, and fills up to the target length. *)
Lemma padStart_length (s : string) (n : nat) (c : ascii) :
  String.length (Js.padStart s n c) = Nat.max n (String.length s).
Proof.
  unfold Js.padStart. rewrite length_app_string, repeat_char_length. lia.
Qed.

End TokenFacts.

(** X1. A token is the lower-case hexadecimal text of the random
    bytes, two characters per byte (64 characters for the 32 bytes of
    [generateToken]), and different byte arrays give different tokens. *)
Theorem X1_token_is_injective_hex :
  forall a b : list byte,
    String.length (Crypto.generateToken a) = (2 * List.length a)%nat
    /\ forallb Crypto.is_hex_char (list_ascii_of_string (Crypto.generateToken a)) = true
    /\ (Crypto.generateToken a = Crypto.generateToken b <-> a = b).
Proof.
  intros a b. unfold Crypto.generateToken. split; [apply hex_length|].
  split; [apply hex_is_hex|].
  split; [apply hex_inj | intros ->; reflexivity].
Qed.


(** ** Validation of proposal input and route protection *)

Lemma blank_spec (v : Js.Value) :
  Calculator.blank v = false <-> exists s, v = Js.Str s /\ Js.trim s <> "".
Proof.
  split.
  - intros H. destruct v as [| |b|n|s|]; unfold Calculator.blank in H;
      try (cbn in H; rewrite ?orb_true_r in H; discriminate H).
    cbn [Js.not Js.is_string Js.typeof negb] in H.
    apply orb_false_elim in H as [_ H]. exists s. split; [reflexivity|].
    intros Ht. rewrite Ht in H. discriminate H.
  - intros (s & -> & Hn). unfold Calculator.blank.
    cbn [Js.not Js.is_string Js.typeof negb].
    destruct s as [|c s]; [contradiction Hn; reflexivity|].
    destruct (Js.trim (String c s)); [contradiction Hn; reflexivity | reflexivity].
Qed.

Lemma bad_count_spec (v : Js.Value) :
  Calculator.bad_count v = false <-> exists n, v = Js.Number (Js.Int n) /\ 0 < n.
Proof.
  split.
  - intros H. destruct v as [| |b|[z|neg| |neg]|s|]; cbn in H;
      rewrite ?orb_true_r in H; try discriminate H.
    rewrite orb_false_r in H. apply Z.leb_gt in H. exists z. split; [reflexivity | lia].
  - intros (n & -> & Hn). cbn. rewrite orb_false_r. apply Z.leb_gt. lia.
Qed.

(** X3. [validateInput] returns no error exactly when the business
    name and the industry are strings that are not blank once trimmed
    and the W-2 count is an integer strictly above zero. *)
Theorem X3_validateInput_accepts_exactly_valid_input :
  forall input : Calculator.ProposalInput,
    Calculator.validateInput input = []
    <-> exists company ind n,
          Calculator.company_name input = Js.Str company
          /\ Js.trim company <> ""
          /\ Calculator.industry input = Js.Str ind
          /\ Js.trim ind <> ""
          /\ Calculator.w2_count input = Js.Number (Js.Int n)
          /\ 0 < n.
Proof.
  intros [company ind w2]. unfold Calculator.validateInput.
  cbn [Calculator.company_name Calculator.industry Calculator.w2_count].
  split.
  - intros H.
    destruct (Calculator.blank company) eqn:Hc; [discriminate H|].
    destruct (Calculator.blank ind) eqn:Hi; [discriminate H|].
    destruct (Calculator.bad_count w2) eqn:Hw; [discriminate H|].
    apply blank_spec in Hc as (c0 & -> & Hc0).
    apply blank_spec in Hi as (i0 & -> & Hi0).
    apply bad_count_spec in Hw as (n & -> & Hn).
    exists c0, i0, n. repeat split; first [reflexivity | assumption].
  - intros (c0 & i0 & n & -> & Hc0 & -> & Hi0 & -> & Hn).
    rewrite (proj2 (blank_spec (Js.Str c0))) by (exists c0; auto).
    rewrite (proj2 (blank_spec (Js.Str i0))) by (exists i0; auto).
    rewrite (proj2 (bad_count_spec (Js.Number (Js.Int n)))) by (exists n; auto).
    reflexivity.
Qed.



(** ** The Access Validator on every request *)

(** Both sides of a disjunction that is false are false. *)
Ltac split_orb :=
  repeat match goal with
         | H : orb _ _ = false |- _ => apply orb_false_elim in H; destruct H
         end.

(** [x] holds no case analysis of its own. *)
Ltac is_plain x :=
  tryif (match x with context [match _ with _ => _ end] => idtac end)
  then fail else idtac.

(** Case analysis of a run: opens the conditionals of the hypothesis
    [E] one after the other, from the inside out. *)
Ltac crack E :=
  repeat
    (match type of E with
     | context [match ?x with _ => _ end] => is_plain x; destruct x eqn:?
     end; cbn beta iota in E;
     cbn [Store.cases Store.case_links Store.outbound Store.with_links Store.with_cases
          Store.with_outbound Store.error Store.data Store.pg_data Store.pg_error] in E).

Ltac open_validator E :=
  unfold Validator.serve, try_catch, Validator.req_json, Validator.verify, Validator.check,
    Validator.wrong_passcode_branch, Validator.correct_passcode_branch,
    Deno.env, Deno.getServiceClient, Store.select_link, Store.select_case,
    Store.update_links, bind, ret, throw, get, put in E;
  cbn [Store.cases Store.case_links Store.with_links] in E.

Section ValidatorEverywhere.
Import Store Props.

Variable sha256 : list byte -> list byte.

Lemma maybeSingle_data_rows {A} (fails : bool) (rows : list A) (a : A) :
  data (maybeSingle fails rows) = Some a -> fails = false /\ rows = [a].
Proof.
  unfold maybeSingle. destruct fails; [discriminate|].
  destruct rows as [|x [|y rest]]; try discriminate.
  cbn. intros H. injection H as ->. split; reflexivity.
Qed.

Lemma single_data_rows {A} (fails : bool) (rows : list A) (a : A) :
  data (single fails rows) = Some a -> fails = false /\ rows = [a].
Proof.
  unfold single. destruct fails; [discriminate|].
  destruct rows as [|x [|y rest]]; try discriminate.
  cbn. intros H. injection H as ->. split; reflexivity.
Qed.

Lemma validator_success_sound e r req w resp w' :
  Validator.serve sha256 e r req w = (resp, w') ->
  state_of resp = Some Validator.success ->
  exists i pepper link k,
    Validator.json req = Some i
    /\ Deno.env_get e "LINK_PEPPER" = Some pepper
    /\ In link (case_links w)
    /\ token_hash link = Crypto.hashWithPepper sha256 (Validator.in_token i) pepper
    /\ case_id link = Validator.in_case_id i
    /\ passcode_hash link = Crypto.hashWithPepper sha256 (Validator.in_passcode i) pepper
    /\ revoked_at link = None
    /\ Validator.now r <= expires_at link
    /\ Validator.is_locked link (Validator.now r) = false
    /\ In k (cases w)
    /\ case_pk k = Validator.in_case_id i
    /\ resp = SUCCESS (Validator.selected_columns k).
Proof.
  intros E Hs. open_validator E. crack E; injection E as <- <-; try discriminate Hs.
  all: repeat match goal with
         | H : data (maybeSingle _ _) = Some _ |- _ =>
             apply maybeSingle_data_rows in H as [_ H]
         | H : data (single _ _) = Some _ |- _ =>
             apply single_data_rows in H as [_ H]
         end.
  all: match goal with
       | Hl : matching_links _ _ _ = [?link], Hk : matching_cases _ _ = [?k] |- _ =>
           assert (Hin : In link (matching_links
                                    (Crypto.hashWithPepper sha256 (Validator.in_token i) s)
                                    (Validator.in_case_id i) (case_links w)))
             by (rewrite Hl; left; reflexivity);
           assert (Hink : In k (matching_cases (Validator.in_case_id i) (cases w)))
             by (rewrite Hk; left; reflexivity);
           apply matching_links_sound in Hin as (Hin & Hth & Hci);
           apply matching_cases_sound in Hink as (Hink & Hpk);
           exists i, s, link, k
       end.
  all: repeat match goal with
         | H : negb _ = false |- _ => apply negb_false_iff, String.eqb_eq in H
         | H : (_ <? _) = false |- _ => apply Z.ltb_ge in H
         end.
  all: repeat split; auto.
Qed.

Lemma validator_refusals_write_nothing e r req w resp w' :
  Validator.serve sha256 e r req w = (resp, w') ->
  Validator.status resp <> 200 ->
  w' = w.
Proof.
  intros E Hs. open_validator E.
  crack E; injection E as <- <-; try reflexivity; exfalso; apply Hs; reflexivity.
Qed.

Lemma identity_after_update (u : LinkUpdate) (sel : CaseLink -> bool) (ls : list CaseLink) :
  set_revoked_at u = None ->
  map Invariant.identity_of (map (fun l => if sel l then apply_update u l else l) ls)
  = map Invariant.identity_of ls.
Proof.
  intros Hu. rewrite map_map. apply map_ext. intros l.
  destruct (sel l); [|reflexivity].
  unfold Invariant.identity_of, apply_update. cbn. rewrite Hu. reflexivity.
Qed.

Lemma validator_keeps_identities e r req w resp w' :
  Validator.serve sha256 e r req w = (resp, w') ->
  map Invariant.identity_of (case_links w') = map Invariant.identity_of (case_links w)
  /\ cases w' = cases w
  /\ outbound w' = outbound w.
Proof.
  intros E. open_validator E.
  crack E; injection E as <- <-; cbn [case_links cases outbound with_links];
    (split; [first [reflexivity | apply identity_after_update; reflexivity]
            | split; reflexivity]).
Qed.

End ValidatorEverywhere.

Example sample_malformed_request :
  Validator.serve Sample.digest Sample.environment (Sample.at_time 100)
    (Props.verification (Sample.visit "")) Sample.world
  = ({| Validator.status := 400;
        Validator.body := Validator.Json (Validator.answer false Validator.invalid) |},
     Sample.world)
  /\ fst (Validator.serve Sample.digest Scenario.environment_without_pepper
            (Sample.at_time 100) (Props.verification (Sample.visit "123456")) Sample.world)
     = Props.on_throw "".
Proof. vm_compute. split; reflexivity. Qed.

(** X5. The validator reports SUCCESS only for a request whose token
    and case select a link of the table that is not revoked, not
    expired at the instant of the request and not locked, whose stored
    passcode hash is the hash of the supplied passcode, and then the
    payload is the selected columns of a case of the table with the
    requested identifier. *)
Theorem X5_success_only_for_live_link_and_right_passcode :
  forall (sha256 : list byte -> list byte) e r req w,
    Props.state_of (fst (Validator.serve sha256 e r req w)) = Some Validator.success ->
    exists i pepper link k,
      Validator.json req = Some i
      /\ Deno.env_get e "LINK_PEPPER" = Some pepper
      /\ In link (Store.case_links w)
      /\ Store.token_hash link = Crypto.hashWithPepper sha256 (Validator.in_token i) pepper
      /\ Store.case_id link = Validator.in_case_id i
      /\ Store.passcode_hash link
         = Crypto.hashWithPepper sha256 (Validator.in_passcode i) pepper
      /\ Store.revoked_at link = None
      /\ Validator.now r <= Store.expires_at link
      /\ Validator.is_locked link (Validator.now r) = false
      /\ In k (Store.cases w)
      /\ Store.case_pk k = Validator.in_case_id i
      /\ fst (Validator.serve sha256 e r req w)
         = Props.SUCCESS (Validator.selected_columns k).
Proof.
  intros sha256 e r req w Hs.
  destruct (Validator.serve sha256 e r req w) as [resp w'] eqn:E. cbn [fst] in *.
  apply (validator_success_sound sha256 e r req w resp w' E Hs).
Qed.

Lemma X5_witness :
  exists i pepper link k,
    Validator.json (Props.verification (Sample.visit "123456")) = Some i
    /\ Deno.env_get Sample.environment "LINK_PEPPER" = Some pepper
    /\ In link (Store.case_links Sample.world)
    /\ Store.token_hash link
       = Crypto.hashWithPepper Sample.digest (Validator.in_token i) pepper
    /\ Store.case_id link = Validator.in_case_id i
    /\ Store.passcode_hash link
       = Crypto.hashWithPepper Sample.digest (Validator.in_passcode i) pepper
    /\ Store.revoked_at link = None
    /\ Validator.now (Sample.at_time 100) <= Store.expires_at link
    /\ Validator.is_locked link (Validator.now (Sample.at_time 100)) = false
    /\ In k (Store.cases Sample.world)
    /\ Store.case_pk k = Validator.in_case_id i
    /\ fst (Validator.serve Sample.digest Sample.environment (Sample.at_time 100)
              (Props.verification (Sample.visit "123456")) Sample.world)
       = Props.SUCCESS (Validator.selected_columns k).
Proof.
  apply (X5_success_only_for_live_link_and_right_passcode Sample.digest Sample.environment
           (Sample.at_time 100) (Props.verification (Sample.visit "123456")) Sample.world).
  vm_compute. reflexivity.
Defined.

(** X6. A request the validator answers with a status other than 200
    (a method that is not allowed, a field that is missing or empty, a
    body that is not JSON, a missing environment variable, a failed
    lookup) writes nothing. *)
Theorem X6_refusals_write_nothing :
  forall (sha256 : list byte -> list byte) e r req w,
    Validator.status (fst (Validator.serve sha256 e r req w)) <> 200 ->
    snd (Validator.serve sha256 e r req w) = w.
Proof.
  intros sha256 e r req w Hs.
  destruct (Validator.serve sha256 e r req w) as [resp w'] eqn:E. cbn [fst snd] in *.
  apply (validator_refusals_write_nothing sha256 e r req w resp w' E Hs).
Qed.

Lemma X6_witness :
  snd (Validator.serve Sample.digest Sample.environment (Sample.at_time 100)
         (Props.verification (Sample.visit "")) Sample.world)
  = Sample.world.
Proof.
  apply (X6_refusals_write_nothing Sample.digest Sample.environment (Sample.at_time 100)
           (Props.verification (Sample.visit "")) Sample.world).
  vm_compute. discriminate.
Defined.

(** X7. Whatever the request and whatever the datastore answers, the
    validator never adds, removes, re-keys, re-dates or revokes a
    link (identifier, case, token hash, passcode hash, expiry,
    revocation and URL of every row stay as they were), never writes
    to the cases and calls no external service. *)
Theorem X7_validator_keeps_link_identities :
  forall (sha256 : list byte -> list byte) e r req w,
    map Invariant.identity_of (Store.case_links (snd (Validator.serve sha256 e r req w)))
    = map Invariant.identity_of (Store.case_links w)
    /\ Store.cases (snd (Validator.serve sha256 e r req w)) = Store.cases w
    /\ Store.outbound (snd (Validator.serve sha256 e r req w)) = Store.outbound w.
Proof.
  intros sha256 e r req w.
  destruct (Validator.serve sha256 e r req w) as [resp w'] eqn:E. cbn [snd].
  apply (validator_keeps_identities sha256 e r req w resp w' E).
Qed.

(** ** Sequences of verification requests *)

Section ValidatorSequences.
Import Store Props.

Variable sha256 : list byte -> list byte.

(** A correct passcode on a found, live, unlocked link, when the
    datastore applies the update: the write, whatever the lookup of
    the case gives. *)
Lemma correct_branch_write r i link w :
  Validator.view_update_fails r = false ->
  snd (Validator.correct_passcode_branch r i link w)
  = with_links w
      (rows_updated (id link)
         (fun l => after_success l (view_count link + 1) (Validator.now r))
         (case_links w)).
Proof.
  intros Hupd. unfold Validator.correct_passcode_branch.
  rewrite Hupd, or_zero_id. unfold bind at 1. rewrite update_links_applied.
  unfold select_case, bind, get, ret. cbn beta iota. cbn [cases with_links].
  match goal with
  | |- context [single ?f ?rows] => destruct (single f rows) as [d er]
  end.
  cbn [error data]. destruct er; [reflexivity|]. destruct d; reflexivity.
Qed.

Lemma correct_branch_without_case r i link w :
  single (Validator.case_select_fails r) (matching_cases (Validator.in_case_id i) (cases w))
  = pg_error ->
  fst (Validator.correct_passcode_branch r i link w)
  = Returned (TERMINAL Validator.invalid).
Proof.
  intros Hcase. unfold Validator.correct_passcode_branch, bind.
  destruct (update_links _ _ _ w) as [[u|msg] w1] eqn:Hu.
  - unfold select_case, bind, get, ret.
    assert (Hcases : cases w1 = cases w).
    { unfold update_links in Hu. destruct (Validator.view_update_fails r).
      - injection Hu as _ <-. reflexivity.
      - cbn in Hu. injection Hu as _ <-. reflexivity. }
    rewrite Hcases, Hcase. reflexivity.
  - unfold update_links in Hu. destruct (Validator.view_update_fails r); discriminate Hu.
Qed.

End ValidatorSequences.



(** X9. A correct passcode is recorded before the case is fetched:
    when the lookup of the case then fails or returns no single row,
    the request is answered with the state invalid although the
    datastore has already reset [attempt_count], counted the view and
    set [last_viewed_at]. *)
Theorem X9_view_recorded_even_when_case_is_missing :
  forall (sha256 : list byte -> list byte) e pepper r i w link,
    Props.configured e pepper ->
    Props.well_formed i ->
    Props.found sha256 pepper r i w link ->
    Store.revoked_at link = None ->
    Props.not_expired link r ->
    Validator.is_locked link (Validator.now r) = false ->
    Props.correct sha256 pepper i link ->
    Validator.view_update_fails r = false ->
    Store.single (Validator.case_select_fails r)
      (Store.matching_cases (Validator.in_case_id i) (Store.cases w))
    = Store.pg_error ->
    Validator.serve sha256 e r (Props.verification i) w
    = (Props.TERMINAL Validator.invalid,
       Store.with_links w
         (Props.rows_updated (Store.id link)
            (fun l => Props.after_success l (Store.view_count link + 1) (Validator.now r))
            (Store.case_links w))).
Proof.
  intros sha256 e pepper r i w link Hcfg Hwf Hfound Hrev Hexp Hlock Hok Hupd Hcase.
  rewrite (serve_found sha256 e r i w pepper link Hcfg Hwf Hfound).
  rewrite (try_catch_returned _ _ _ (Props.TERMINAL Validator.invalid)).
  - rewrite (check_correct sha256 r i pepper link w Hrev Hexp Hlock Hok).
    rewrite (correct_branch_write r i link w Hupd). reflexivity.
  - rewrite (check_correct sha256 r i pepper link w Hrev Hexp Hlock Hok).
    apply correct_branch_without_case. exact Hcase.
Qed.

Lemma X9_witness :
  Validator.serve Sample.digest Sample.environment (Scenario.case_lookup_failing 100)
    (Props.verification (Sample.visit "123456")) (Sample.world_of Sample.nine_failures)
  = (Props.TERMINAL Validator.invalid,
     Sample.world_of (Props.after_success Sample.nine_failures 1 100)).
Proof.
  rewrite (X9_view_recorded_even_when_case_is_missing Sample.digest Sample.environment
             "pepper" (Scenario.case_lookup_failing 100) (Sample.visit "123456")
             (Sample.world_of Sample.nine_failures) Sample.nine_failures).
  - reflexivity.
  - sample_configured.
  - sample_configured.
  - reflexivity.
  - reflexivity.
  - reflexivity.
  - reflexivity.
  - vm_compute. reflexivity.
  - reflexivity.
  - reflexivity.
Defined.

(** X10. A success whose write the datastore applied gives the full
    budget back: after a correct passcode on a link that was never
    locked, when the update that resets [attempt_count] was applied,
    whatever the number of failures counted before, ten wrong
    passcodes in a row (well-formed requests with the same case and
    token, made before the link expires, whose lookup is answered and
    whose write is applied) are answered by nine WRONG_PASSCODE, with
    9 down to 1 attempts remaining, and LOCKED at the tenth. *)
Theorem X10_success_restores_the_attempt_budget :
  forall (sha256 : list byte -> list byte) e pepper r i w link attempts,
    Props.configured e pepper ->
    Props.well_formed i ->
    Props.found sha256 pepper r i w link ->
    Store.revoked_at link = None ->
    Props.not_expired link r ->
    Store.locked_until link = None ->
    Props.correct sha256 pepper i link ->
    Validator.view_update_fails r = false ->
    Forall (Props.wrong_attempt_on sha256 pepper (Validator.in_token i)
              (Validator.in_case_id i) (Store.passcode_hash link) (Store.expires_at link))
           attempts ->
    List.length attempts = 10%nat ->
    fst (Props.serve_all sha256 e attempts
           (snd (Validator.serve sha256 e r (Props.verification i) w)))
    = (map Props.WRONG_PASSCODE [9; 8; 7; 6; 5; 4; 3; 2; 1] ++ [Props.LOCKED])%list.
Proof.
  intros sha256 e pepper r i w link attempts Hcfg Hwf Hfound Hrev Hexp Hnolock Hok Hupd
         Hall Hlen.
  assert (Hunlocked : Validator.is_locked link (Validator.now r) = false).
  { unfold Validator.is_locked. rewrite Hnolock. reflexivity. }
  rewrite (serve_found sha256 e r i w pepper link Hcfg Hwf Hfound).
  unfold try_catch.
  rewrite (check_correct sha256 r i pepper link w Hrev Hexp Hunlocked Hok).
  pose proof (correct_branch_write r i link w Hupd) as Hwrite.
  destruct (Validator.correct_passcode_branch r i link w) as [[resp|msg] w1];
    cbn [snd] in Hwrite |- *; subst w1.
  all: pose proof (found_after_update sha256 pepper r r i w link
                     (fun l => Props.after_success l (Store.view_count link + 1)
                                 (Validator.now r))
                     Hfound (proj1 (maybeSingle_found _ _ _ Hfound))
                     (fun l => after_success_keys l _ _)) as Hfound';
       apply maybeSingle_found in Hfound' as [_ Hrows];
       rewrite (wrong_attempts_in_a_row sha256 e pepper (Validator.in_token i)
                  (Validator.in_case_id i) (Store.passcode_hash link)
                  (Store.expires_at link) Hcfg attempts _ _ 0 Hrows Hrev Hnolock
                  eq_refl eq_refl eq_refl Hall);
       rewrite Hlen; [reflexivity | cbn; lia].
Qed.

Lemma X10_witness :
  fst (Props.serve_all Sample.digest Sample.environment Sample.wrong_visits
         (snd (Validator.serve Sample.digest Sample.environment (Sample.at_time 100)
                 (Props.verification (Sample.visit "123456"))
                 (Sample.world_of Sample.nine_failures))))
  = (map Props.WRONG_PASSCODE [9; 8; 7; 6; 5; 4; 3; 2; 1] ++ [Props.LOCKED])%list.
Proof.
  apply (X10_success_restores_the_attempt_budget Sample.digest Sample.environment "pepper"
           (Sample.at_time 100) (Sample.visit "123456")
           (Sample.world_of Sample.nine_failures) Sample.nine_failures).
  - sample_configured.
  - sample_configured.
  - reflexivity.
  - reflexivity.
  - reflexivity.
  - reflexivity.
  - vm_compute. reflexivity.
  - reflexivity.
  - unfold Sample.wrong_visits. cbn [map].
    repeat (constructor;
            [repeat split; try reflexivity; vm_compute; discriminate|]).
    constructor.
  - reflexivity.
Defined.

(** ** Computations that keep a property of the store *)

Section Preservation.
Import Store Invariant.

Lemma preserves_bind {A B} (P : World -> Prop) (m : M World A) (k : A -> M World B) :
  preserves P m -> (forall a, preserves P (k a)) -> preserves P (bind m k).
Proof.
  intros Hm Hk w Hw. unfold bind. specialize (Hm w Hw).
  destruct (m w) as [[a|msg] w1]; cbn [snd] in *.
  - apply (Hk a w1 Hm).
  - exact Hm.
Qed.

Lemma preserves_env (P : World -> Prop) e key fallback :
  preserves P (Deno.env e key fallback).
Proof.
  intros w Hw. unfold Deno.env.
  destruct (match Deno.env_get e key with Some v0 => Some v0 | None => fallback end)
    as [x|]; [destruct (Js.falsy x)|]; exact Hw.
Qed.

End Preservation.

Lemma sample_world_consistent : Invariant.consistent Sample.world.
Proof.
  unfold Invariant.consistent. cbn.
  repeat split; try (repeat constructor; intros []; fail).
  intros l [<-|[]]. exists Sample.acme. split; [left; reflexivity | reflexivity].
Qed.

(** X11. The write of the success branch is not checked either: when
    the datastore refuses it, a correct passcode on a found link that
    is not revoked, not expired and not locked, and whose case is
    found, is still answered SUCCESS, while the store is left as it
    was: [attempt_count] is not reset, the view is not counted and
    [last_viewed_at] is not set. *)
Theorem X11_refused_reset_is_still_answered_success :
  forall (sha256 : list byte -> list byte) e pepper r i w link k,
    Props.configured e pepper ->
    Props.well_formed i ->
    Props.found sha256 pepper r i w link ->
    Store.revoked_at link = None ->
    Props.not_expired link r ->
    Validator.is_locked link (Validator.now r) = false ->
    Props.correct sha256 pepper i link ->
    Validator.view_update_fails r = true ->
    Store.single (Validator.case_select_fails r)
      (Store.matching_cases (Validator.in_case_id i) (Store.cases w))
    = Store.pg_data (Some k) ->
    Validator.serve sha256 e r (Props.verification i) w
    = ({| Validator.status := 200;
          Validator.body :=
            Validator.Json
              {| Validator.ok := true;
                 Validator.state := Validator.success;
                 Validator.response_data :=
                   Some {| Validator.d_id := Store.case_pk k;
                           Validator.d_company_name := Store.company_name k;
                           Validator.d_industry := Store.industry k;
                           Validator.d_calc_total := Store.calc_total k;
                           Validator.d_calc_er := Store.calc_er k;
                           Validator.d_calc_ee := Store.calc_ee k;
                           Validator.d_calc_inputs := Store.calc_inputs k;
                           Validator.d_calc_explanation := Store.calc_explanation k;
                           Validator.d_status := Store.status k |};
                 Validator.remaining_attempts := None;
                 Validator.response_error := None;
                 Validator.response_locked_until := None |} |},
       w).
Proof.
  intros sha256 e pepper r i w link k Hcfg Hwf Hfound Hrev Hexp Hlock Hok Hupd Hcase.
  rewrite (serve_found sha256 e r i w pepper link Hcfg Hwf Hfound).
  unfold try_catch.
  rewrite (check_correct sha256 r i pepper link w Hrev Hexp Hlock Hok).
  unfold Validator.correct_passcode_branch. rewrite Hupd.
  unfold bind at 1. rewrite update_links_refused.
  unfold bind at 1. unfold Store.select_case, bind, get, ret.
  rewrite Hcase. reflexivity.
Qed.

Lemma X11_witness :
  Validator.serve Sample.digest Sample.environment (Scenario.view_write_failing 100)
    (Props.verification (Sample.visit "123456")) (Sample.world_of Sample.nine_failures)
  = (Props.SUCCESS (Validator.selected_columns Sample.acme),
     Sample.world_of Sample.nine_failures).
Proof.
  apply (X11_refused_reset_is_still_answered_success Sample.digest Sample.environment
           "pepper" (Scenario.view_write_failing 100) (Sample.visit "123456")
           (Sample.world_of Sample.nine_failures) Sample.nine_failures Sample.acme).
  - sample_configured.
  - sample_configured.
  - vm_compute. reflexivity.
  - reflexivity.
  - reflexivity.
  - reflexivity.
  - vm_compute. reflexivity.
  - reflexivity.
  - reflexivity.
Defined.

(** ** The authenticated route on every request *)

Ltac open_route E :=
  unfold GenerateRoute.POST, try_catch, GenerateRoute.create,
    Next.getSupabaseServerClient, Store.insert_case, Store.insert_link, Store.delete_case,
    bind, ret, throw, get, put in E;
  cbn [Store.cases Store.case_links Store.with_links Store.with_cases Store.error
       Store.data Store.pg_data Store.pg_error] in E.

Section RouteEverywhere.
Import Store.

Variable sha256 : list byte -> list byte.
Variable formatUSD : Js.Formatting.

Lemma route_refusals_write_nothing e r req w resp w' :
  GenerateRoute.POST sha256 formatUSD e r req w = (resp, w') ->
  GenerateRoute.status resp = 400 \/ GenerateRoute.status resp = 401 ->
  w' = w.
Proof.
  intros E Hs. open_route E.
  crack E; injection E as <- <-; try reflexivity;
    destruct Hs as [Hs|Hs]; discriminate Hs.
Qed.

Lemma filter_none {A} (p : A -> bool) (l : list A) :
  existsb p l = false -> filter p l = [].
Proof.
  induction l as [|x l IH]; cbn; [reflexivity|].
  destruct (p x); [discriminate | exact IH].
Qed.

Lemma filter_all {A} (p : A -> bool) (l : list A) :
  existsb p l = false -> filter (fun x => negb (p x)) l = l.
Proof.
  induction l as [|x l IH]; cbn; [reflexivity|].
  destruct (p x); [discriminate|]. cbn. intros H. rewrite (IH H). reflexivity.
Qed.

(** What a request answered with 200 did. *)
Lemma route_success e r req w resp w' :
  GenerateRoute.POST sha256 formatUSD e r req w = (resp, w') ->
  GenerateRoute.status resp = 200 ->
  exists uid company ind n pepper caseUrl,
    GenerateRoute.user req = Some uid
    /\ GenerateRoute.json req
       = Some {| Calculator.company_name := Js.Str company;
                 Calculator.industry := Js.Str ind;
                 Calculator.w2_count := Js.Number (Js.Int n) |}
    /\ Calculator.validateInput
         {| Calculator.company_name := Js.Str company;
            Calculator.industry := Js.Str ind;
            Calculator.w2_count := Js.Number (Js.Int n) |} = []
    /\ Deno.env_get e "LINK_PEPPER" = Some pepper
    /\ Js.falsy pepper = false
    /\ Js.falsy_opt (Deno.env_get e "NEXT_PUBLIC_SUPABASE_URL") = false
    /\ existsb (fun k => String.eqb (case_pk k) (GenerateRoute.new_case_id r)) (cases w)
       = false
    /\ existsb (fun l => String.eqb (token_hash l)
                           (Crypto.hashWithPepper sha256
                              (Crypto.generateToken (GenerateRoute.random_bytes r)) pepper))
         (case_links w) = false
    /\ (exists base,
           caseUrl = base ++ "/cases/" ++ GenerateRoute.new_case_id r ++ "?t="
                       ++ Crypto.generateToken (GenerateRoute.random_bytes r))
    /\ resp = {| GenerateRoute.status := 200;
                 GenerateRoute.body :=
                   {| GenerateRoute.ok := true; GenerateRoute.error := None;
                      GenerateRoute.body_case_id := Some (GenerateRoute.new_case_id r);
                      GenerateRoute.url := Some caseUrl;
                      GenerateRoute.body_expires_at :=
                        Some (GenerateRoute.date_now r + 30 * 24 * 60 * 60 * 1000) |} |}
    /\ w' = {| case_links :=
                 (case_links w
                    ++ [new_link (GenerateRoute.new_link_id r) (GenerateRoute.new_case_id r)
                          (Crypto.hashWithPepper sha256
                             (Crypto.generateToken (GenerateRoute.random_bytes r)) pepper)
                          "" (GenerateRoute.date_now r + 30 * 24 * 60 * 60 * 1000)
                          (Some caseUrl)])%list;
               cases :=
                 (cases w
                    ++ [{| case_pk := GenerateRoute.new_case_id r;
                           pipedrive_deal_id := None;
                           user_id := Some uid;
                           company_name := Js.trim company;
                           industry := Js.trim ind;
                           status := "generated";
                           calc_total := Js.json (Js.times (Js.Int n) 3356);
                           calc_er := Js.json (Js.times (Js.Int n) 1186);
                           calc_ee := Js.json (Js.times (Js.Int n) 2170);
                           calc_inputs :=
                             {| w2_count := Some (Js.Int n);
                                tax_year := GenerateRoute.tax_year r;
                                rate_total := 3356; rate_er := 1186; rate_ee := 2170 |};
                           calc_explanation :=
                             Calculator.calc_explanation
                               (Calculator.calculateSavings formatUSD
                                  (GenerateRoute.tax_year r) (Js.Int n));
                           last_generated_at := Some (GenerateRoute.generated_at r) |}])%list;
               outbound := outbound w |}.
Proof.
  intros E Hs. destruct req as [user json]. cbn [GenerateRoute.user GenerateRoute.json].
  open_route E. cbn [GenerateRoute.user GenerateRoute.json] in E.
  destruct (_ || _) eqn:Hclient; [injection E as <- <-; discriminate Hs|].
  destruct user as [uid|]; [|injection E as <- <-; discriminate Hs].
  destruct json as [[company ind w2]|]; [|injection E as <- <-; discriminate Hs].
  destruct (0 <? Z.of_nat (List.length (Calculator.validateInput _))) eqn:Hvalid;
    [injection E as <- <-; discriminate Hs|].
  cbn [Calculator.company_name Calculator.industry Calculator.w2_count] in E.
  destruct company as [| | |?|company|]; try (injection E as <- <-; discriminate Hs).
  destruct ind as [| | |?|ind|]; try (injection E as <- <-; discriminate Hs).
  destruct w2 as [| | |[n|? ?| |?]|?|]; try (injection E as <- <-; discriminate Hs).
  all: try (exfalso; unfold Calculator.validateInput in Hvalid;
            cbn [Calculator.company_name Calculator.industry Calculator.w2_count
                 Calculator.bad_count Js.isFinite Js.isInteger negb orb] in Hvalid;
            rewrite ?orb_true_r in Hvalid;
            destruct (Calculator.blank _), (Calculator.blank _); discriminate Hvalid).
  crack E; injection E as <- <-; try discriminate Hs.
  all: split_orb.
  all: match goal with
       | Hp : Deno.env_get _ "LINK_PEPPER" = Some ?p |- _ =>
           exists uid, company, ind, n, p
       end.
  all: eexists; repeat split; try eassumption; try reflexivity.
  all: first [ destruct (Calculator.validateInput _); [reflexivity | discriminate Hvalid]
             | eexists; reflexivity ].
Qed.

Lemma referential_no_links (w : World) (c : string) :
  (forall l, In l (case_links w) -> exists k, In k (cases w) /\ case_pk k = case_id l) ->
  existsb (fun k => String.eqb (case_pk k) c) (cases w) = false ->
  existsb (fun l => String.eqb (case_id l) c) (case_links w) = false.
Proof.
  intros Href Hnone. destruct (existsb _ (case_links w)) eqn:Hex; [|reflexivity].
  apply existsb_exists in Hex as (l & Hl & Heq). apply String.eqb_eq in Heq.
  destruct (Href l Hl) as (k & Hk & Hpk).
  assert (Htrue : existsb (fun k => String.eqb (case_pk k) c) (cases w) = true).
  { apply existsb_exists. exists k. split; [exact Hk|]. rewrite Hpk, Heq.
    apply String.eqb_refl. }
  congruence.
Qed.

Lemma route_cleans_up e r req w resp w' :
  GenerateRoute.POST sha256 formatUSD e r req w = (resp, w') ->
  resp = GenerateRoute.failure 500 "Failed to create link" ->
  GenerateRoute.case_delete_fails r = false ->
  Invariant.consistent w ->
  w' = w.
Proof.
  intros E Hs Hdel (_ & _ & _ & Href). open_route E. rewrite Hdel in E.
  crack E; injection E as <- <-; try discriminate Hs.
  all: split_orb.
  all: match goal with
       | H : existsb _ (cases ?x) = false |- _ =>
           pose proof (referential_no_links x _ Href H) as Hlinks;
           cbn [case_pk] in H, Hlinks;
           rewrite filter_app, (filter_all _ _ H), (filter_all _ _ Hlinks)
       end.
  all: cbn [filter case_pk]; rewrite String.eqb_refl; cbn [negb];
       rewrite List.app_nil_r;
       match goal with |- _ = ?x => destruct x; reflexivity end.
Qed.

Lemma route_leaves_orphan_without_pepper e r req w resp w' :
  GenerateRoute.POST sha256 formatUSD e r req w = (resp, w') ->
  resp = GenerateRoute.failure 500 "Server configuration error" ->
  case_links w' = case_links w
  /\ outbound w' = outbound w
  /\ exists k, cases w' = (cases w ++ [k])%list
                /\ case_pk k = GenerateRoute.new_case_id r.
Proof.
  intros E Hs. open_route E.
  crack E; injection E as <- <-; try discriminate Hs.
  all: cbn [case_links cases outbound].
  all: repeat split; eexists; split; reflexivity.
Qed.

End RouteEverywhere.

Example sample_route_refusals :
  fst (GenerateRoute.POST Sample.digest Sample.formatUSD Sample.environment
         Sample.route_run Scenario.anonymous_proposal Sample.world)
  = GenerateRoute.failure 401 "Unauthorized"
  /\ GenerateRoute.POST Sample.digest Sample.formatUSD Sample.environment
       Scenario.failing_route_run Sample.proposal Sample.world
     = (GenerateRoute.failure 500 "Failed to create link", Sample.world)
  /\ fst (GenerateRoute.POST Sample.digest Sample.formatUSD Sample.environment
            Sample.route_run
            {| GenerateRoute.user := Some "user-1";
               GenerateRoute.json :=
                 Some {| Calculator.company_name := Js.Str " ";
                         Calculator.industry := Js.Str "Retail";
                         Calculator.w2_count := Js.Number (Js.Int 0) |} |}
            Sample.world)
     = GenerateRoute.failure 400
         ("Missing or invalid fields: Business Name, "
            ++ "W-2 Count (must be a positive whole number)").
Proof. vm_compute. repeat split. Qed.

(** X12. A request the route refuses with 401 (no signed-in user) or
    400 (a body that is not JSON, a field that fails [validateInput])
    writes nothing. *)
Theorem X12_route_refusals_write_nothing :
  forall (sha256 : list byte -> list byte) (fmt : Js.Formatting) e r req w,
    GenerateRoute.status (fst (GenerateRoute.POST sha256 fmt e r req w)) = 400
    \/ GenerateRoute.status (fst (GenerateRoute.POST sha256 fmt e r req w)) = 401 ->
    snd (GenerateRoute.POST sha256 fmt e r req w) = w.
Proof.
  intros sha256 fmt e r req w Hs.
  destruct (GenerateRoute.POST sha256 fmt e r req w) as [resp w'] eqn:E.
  cbn [fst snd] in *. apply (route_refusals_write_nothing sha256 fmt e r req w resp w' E Hs).
Qed.

Lemma X12_witness :
  snd (GenerateRoute.POST Sample.digest Sample.formatUSD Sample.environment
         Sample.route_run Scenario.anonymous_proposal Sample.world)
  = Sample.world.
Proof.
  apply (X12_route_refusals_write_nothing Sample.digest Sample.formatUSD
           Sample.environment Sample.route_run Scenario.anonymous_proposal Sample.world).
  right. reflexivity.
Defined.

(** X13. A request the route answers with 200 added exactly one case
    and one link and called no one.  The body held two strings and an
    integer count [n] above zero; the case has the fresh identifier of
    the answer, belongs to the signed-in user, is marked generated,
    holds the two strings trimmed and, as figures, what JSON carries
    of the double products of [n] by 3356, 1186 and 2170: the exact
    products when [n * 3356 < 2^53].  The link belongs to that case,
    expires 30 days after the clock reading, is neither revoked nor
    locked, has zero counters and an empty passcode hash, and keeps
    the URL of the answer. *)
Theorem X13_route_success_creates_case_and_link :
  forall (sha256 : list byte -> list byte) (fmt : Js.Formatting) e r req w,
    GenerateRoute.status (fst (GenerateRoute.POST sha256 fmt e r req w)) = 200 ->
    exists k link company ind n,
      GenerateRoute.json req
      = Some {| Calculator.company_name := Js.Str company;
                Calculator.industry := Js.Str ind;
                Calculator.w2_count := Js.Number (Js.Int n) |}
      /\ Store.cases (snd (GenerateRoute.POST sha256 fmt e r req w))
         = (Store.cases w ++ [k])%list
      /\ Store.case_links (snd (GenerateRoute.POST sha256 fmt e r req w))
         = (Store.case_links w ++ [link])%list
      /\ Store.outbound (snd (GenerateRoute.POST sha256 fmt e r req w)) = Store.outbound w
      /\ Store.case_pk k = GenerateRoute.new_case_id r
      /\ Store.user_id k = GenerateRoute.user req
      /\ Store.status k = "generated"
      /\ Store.company_name k = Js.trim company
      /\ Store.industry k = Js.trim ind
      /\ 0 < n
      /\ Store.calc_total k = Js.json (Js.times (Js.Int n) 3356)
      /\ Store.calc_er k = Js.json (Js.times (Js.Int n) 1186)
      /\ Store.calc_ee k = Js.json (Js.times (Js.Int n) 2170)
      /\ (n * 3356 < 2 ^ 53 ->
          Store.calc_total k = Some (Js.Int (n * 3356))
          /\ Store.calc_er k = Some (Js.Int (n * 1186))
          /\ Store.calc_ee k = Some (Js.Int (n * 2170)))
      /\ Store.last_generated_at k = Some (GenerateRoute.generated_at r)
      /\ Store.case_id link = Store.case_pk k
      /\ Store.expires_at link = GenerateRoute.date_now r + 30 * 24 * 60 * 60 * 1000
      /\ Store.revoked_at link = None
      /\ Store.locked_until link = None
      /\ Store.attempt_count link = 0
      /\ Store.view_count link = 0
      /\ Store.passcode_hash link = ""
      /\ Store.shareable_url link
         = GenerateRoute.url
             (GenerateRoute.body (fst (GenerateRoute.POST sha256 fmt e r req w)))
      /\ GenerateRoute.body_case_id
           (GenerateRoute.body (fst (GenerateRoute.POST sha256 fmt e r req w)))
         = Some (Store.case_pk k).
Proof.
  intros sha256 fmt e r req w Hs.
  destruct (GenerateRoute.POST sha256 fmt e r req w) as [resp w'] eqn:E.
  cbn [fst snd] in *.
  destruct (route_success sha256 fmt e r req w resp w' E Hs)
    as (uid & company & ind & n & pepper & caseUrl & Huser & Hjson & Hvalid & _ & _ & _ & _
        & _ & _ & -> & ->).
  assert (Hpos : 0 < n).
  { unfold Calculator.validateInput in Hvalid.
    cbn [Calculator.company_name Calculator.industry Calculator.w2_count] in Hvalid.
    destruct (Calculator.bad_count (Js.Number (Js.Int n))) eqn:Hbad.
    - destruct (Calculator.blank (Js.Str company)), (Calculator.blank (Js.Str ind));
        discriminate Hvalid.
    - apply bad_count_spec in Hbad as (n0 & Hn0 & Hpos). injection Hn0 as <-. exact Hpos. }
  eexists. eexists. exists company, ind, n.
  cbn [Store.cases Store.case_links Store.outbound Store.case_pk Store.user_id Store.status
       Store.company_name Store.industry Store.calc_total Store.calc_er Store.calc_ee
       Store.last_generated_at Store.case_id Store.expires_at Store.revoked_at
       Store.locked_until Store.attempt_count Store.view_count Store.passcode_hash
       Store.shareable_url Store.new_link GenerateRoute.url GenerateRoute.body
       GenerateRoute.body_case_id].
  split; [exact Hjson|].
  do 5 (split; [first [reflexivity | symmetry; exact Huser]|]).
  do 3 (split; [reflexivity|]).
  split; [exact Hpos|].
  do 3 (split; [reflexivity|]).
  split.
  { intros Hbound. rewrite !times_exact by lia. repeat split. }
  repeat split.
Qed.

Lemma X13_witness :
  exists k link company ind n,
    GenerateRoute.json Sample.proposal
    = Some {| Calculator.company_name := Js.Str company;
              Calculator.industry := Js.Str ind;
              Calculator.w2_count := Js.Number (Js.Int n) |}
    /\ Store.cases Sample.world_after_route = (Store.cases Sample.world ++ [k])%list
    /\ Store.case_links Sample.world_after_route
       = (Store.case_links Sample.world ++ [link])%list
    /\ Store.calc_total k = Js.json (Js.times (Js.Int n) 3356)
    /\ Store.passcode_hash link = "".
Proof.
  destruct (X13_route_success_creates_case_and_link Sample.digest Sample.formatUSD
              Sample.environment Sample.route_run Sample.proposal Sample.world)
    as (k & link & company & ind & n & H).
  - vm_compute. reflexivity.
  - exists k, link, company, ind, n. unfold Sample.world_after_route. tauto.
Defined.

(** X14. When the insertion of the link fails, the route deletes the
    case it has just inserted: answered 500 "Failed to create link" by
    a datastore that applies the deletion, a request leaves a
    consistent store exactly as it found it. *)
Theorem X14_route_cleans_up_after_link_failure :
  forall (sha256 : list byte -> list byte) (fmt : Js.Formatting) e r req w,
    fst (GenerateRoute.POST sha256 fmt e r req w)
    = GenerateRoute.failure 500 "Failed to create link" ->
    GenerateRoute.case_delete_fails r = false ->
    Invariant.consistent w ->
    snd (GenerateRoute.POST sha256 fmt e r req w) = w.
Proof.
  intros sha256 fmt e r req w Hs Hdel Hw.
  destruct (GenerateRoute.POST sha256 fmt e r req w) as [resp w'] eqn:E.
  cbn [fst snd] in *. apply (route_cleans_up sha256 fmt e r req w resp w' E Hs Hdel Hw).
Qed.

Lemma X14_witness :
  snd (GenerateRoute.POST Sample.digest Sample.formatUSD Sample.environment
         Scenario.failing_route_run Sample.proposal Sample.world)
  = Sample.world.
Proof.
  apply (X14_route_cleans_up_after_link_failure Sample.digest Sample.formatUSD
           Sample.environment Scenario.failing_route_run Sample.proposal Sample.world).
  - vm_compute. reflexivity.
  - reflexivity.
  - exact sample_world_consistent.
Defined.

(** X15. The route reads the pepper only after it has inserted the
    case: answered 500 "Server configuration error", a request has
    added one case, under the fresh identifier, and no link for it. *)
Theorem X15_route_without_pepper_leaves_a_case_without_link :
  forall (sha256 : list byte -> list byte) (fmt : Js.Formatting) e r req w,
    fst (GenerateRoute.POST sha256 fmt e r req w)
    = GenerateRoute.failure 500 "Server configuration error" ->
    Store.case_links (snd (GenerateRoute.POST sha256 fmt e r req w)) = Store.case_links w
    /\ Store.outbound (snd (GenerateRoute.POST sha256 fmt e r req w)) = Store.outbound w
    /\ exists k,
         Store.cases (snd (GenerateRoute.POST sha256 fmt e r req w))
         = (Store.cases w ++ [k])%list
         /\ Store.case_pk k = GenerateRoute.new_case_id r.
Proof.
  intros sha256 fmt e r req w Hs.
  destruct (GenerateRoute.POST sha256 fmt e r req w) as [resp w'] eqn:E.
  cbn [fst snd] in *.
  apply (route_leaves_orphan_without_pepper sha256 fmt e r req w resp w' E Hs).
Qed.

Lemma X15_witness :
  Store.case_links
    (snd (GenerateRoute.POST Sample.digest Sample.formatUSD
            Scenario.environment_without_pepper Sample.route_run Sample.proposal
            Sample.world))
  = Store.case_links Sample.world.
Proof.
  apply (X15_route_without_pepper_leaves_a_case_without_link Sample.digest
           Sample.formatUSD Scenario.environment_without_pepper Sample.route_run
           Sample.proposal Sample.world).
  vm_compute. reflexivity.
Defined.

(** ** The token-only route ([/api/validate]) *)

Ltac open_token E :=
  unfold TokenRoute.POST, try_catch, TokenRoute.validate, Next.getSupabaseServiceClient,
    Store.select_link, Store.select_case, Store.update_links, bind, ret, throw, get, put
    in E;
  cbn [Store.cases Store.case_links Store.with_links] in E.

Section TokenRouteEverywhere.
Import Store.

Variable sha256 : list byte -> list byte.

Lemma budget_after_update (u : LinkUpdate) (sel : CaseLink -> bool) (ls : list CaseLink) :
  set_attempt_count u = None -> set_locked_until u = None ->
  map (fun l => (attempt_count l, locked_until l))
      (map (fun l => if sel l then apply_update u l else l) ls)
  = map (fun l => (attempt_count l, locked_until l)) ls.
Proof.
  intros Ha Hl. rewrite map_map. apply map_ext. intros l.
  destruct (sel l); [|reflexivity]. cbn. rewrite Ha, Hl. reflexivity.
Qed.

Lemma token_route_frame e r req w resp w' :
  TokenRoute.POST sha256 e r req w = (resp, w') ->
  cases w' = cases w
  /\ outbound w' = outbound w
  /\ map Invariant.identity_of (case_links w') = map Invariant.identity_of (case_links w)
  /\ map (fun l => (attempt_count l, locked_until l)) (case_links w')
     = map (fun l => (attempt_count l, locked_until l)) (case_links w).
Proof.
  intros E. open_token E.
  crack E; injection E as <- <-; cbn [cases case_links outbound with_links];
    repeat split;
    first [ reflexivity
          | apply identity_after_update; reflexivity
          | apply budget_after_update; reflexivity ].
Qed.

Lemma token_route_sound e r req w resp w' d :
  TokenRoute.POST sha256 e r req w = (resp, w') ->
  Validator.body resp
  = Validator.Json
      {| Validator.ok := true; Validator.state := Validator.success;
         Validator.response_data := Some d; Validator.remaining_attempts := None;
         Validator.response_error := None; Validator.response_locked_until := None |} ->
  exists body pepper link k,
    TokenRoute.json req = Some body
    /\ Deno.env_get e "LINK_PEPPER" = Some pepper
    /\ In link (case_links w)
    /\ token_hash link = Crypto.hashWithPepper sha256 (TokenRoute.in_token body) pepper
    /\ case_id link = TokenRoute.in_case_id body
    /\ revoked_at link = None
    /\ TokenRoute.now r <= expires_at link
    /\ In k (cases w)
    /\ case_pk k = TokenRoute.in_case_id body
    /\ d = Validator.selected_columns k.
Proof.
  intros E Hok. open_token E.
  crack E; injection E as <- <-; try discriminate Hok.
  all: injection Hok as <-.
  all: repeat match goal with
              | H : data (maybeSingle _ _) = Some _ |- _ =>
                  apply maybeSingle_data_rows in H as [_ ?]
              | H : data (single _ _) = Some _ |- _ =>
                  apply single_data_rows in H as [_ ?]
              end.
  all: match goal with
       | Hl : matching_links ?h ?c ?ls = [?link], Hk : matching_cases ?c' ?ks = [?k] |- _ =>
           assert (Hin : In link (matching_links h c ls))
             by (rewrite Hl; left; reflexivity);
           assert (Hink : In k (matching_cases c' ks))
             by (rewrite Hk; left; reflexivity);
           apply matching_links_sound in Hin as (Hin & Hth & Hci);
           apply matching_cases_sound in Hink as (Hink & Hpk);
           eexists; eexists; exists link, k
       end.
  all: repeat match goal with
         | H : (_ <? _) = false |- _ => apply Z.ltb_ge in H
         end.
  all: repeat split; try reflexivity; try eassumption.
Qed.

Lemma token_route_opens e r body pepper link k w :
  Deno.env_get e "LINK_PEPPER" = Some pepper ->
  Js.falsy pepper = false ->
  Js.falsy_opt (Deno.env_get e "NEXT_PUBLIC_SUPABASE_URL") = false ->
  Js.falsy_opt (Deno.env_get e "SUPABASE_SERVICE_ROLE_KEY") = false ->
  Js.falsy (TokenRoute.in_case_id body) = false ->
  Js.falsy (TokenRoute.in_token body) = false ->
  maybeSingle (TokenRoute.link_select_fails r)
    (matching_links (Crypto.hashWithPepper sha256 (TokenRoute.in_token body) pepper)
       (TokenRoute.in_case_id body) (case_links w))
  = pg_data (Some link) ->
  revoked_at link = None ->
  TokenRoute.now r <= expires_at link ->
  TokenRoute.view_update_fails r = false ->
  single (TokenRoute.case_select_fails r)
    (matching_cases (TokenRoute.in_case_id body) (cases w))
  = pg_data (Some k) ->
  TokenRoute.POST sha256 e r {| TokenRoute.json := Some body |} w
  = (Props.SUCCESS (Validator.selected_columns k),
     with_links w
       (Props.rows_updated (id link)
          (fun l => Invariant.after_view l (view_count link + 1) (TokenRoute.viewed_at r))
          (case_links w))).
Proof.
  intros Hp Hpe Hurl Hkey Hc Ht Hl Hr Hx Hu Hk.
  unfold TokenRoute.POST, try_catch, TokenRoute.validate, Next.getSupabaseServiceClient.
  cbn [TokenRoute.json]. rewrite Hc, Ht, Hp, Hpe, Hurl, Hkey. cbn [orb].
  unfold select_link, select_case, update_links, bind, ret, get, put.
  rewrite Hl. cbn [error data pg_data]. rewrite Hr.
  apply Z.ltb_ge in Hx. rewrite Hx, Hu. cbn [cases with_links].
  rewrite Hk. cbn [error data pg_data]. rewrite or_zero_id. reflexivity.
Qed.

End TokenRouteEverywhere.

(** X16. The token-only route never touches the attempt budget: in
    every outcome it leaves the cases, the calls to the collaborators,
    the identity of every link (its identifier, case, hashes, expiry,
    revocation and URL) and the [attempt_count] and [locked_until] of
    every link as they were. *)
Theorem X16_token_route_keeps_budget_and_identities :
  forall (sha256 : list byte -> list byte) e r req w,
    Store.cases (snd (TokenRoute.POST sha256 e r req w)) = Store.cases w
    /\ Store.outbound (snd (TokenRoute.POST sha256 e r req w)) = Store.outbound w
    /\ map Invariant.identity_of (Store.case_links (snd (TokenRoute.POST sha256 e r req w)))
       = map Invariant.identity_of (Store.case_links w)
    /\ map (fun l => (Store.attempt_count l, Store.locked_until l))
           (Store.case_links (snd (TokenRoute.POST sha256 e r req w)))
       = map (fun l => (Store.attempt_count l, Store.locked_until l)) (Store.case_links w).
Proof.
  intros sha256 e r req w.
  destruct (TokenRoute.POST sha256 e r req w) as [resp w'] eqn:E.
  apply (token_route_frame sha256 e r req w resp w' E).
Qed.

(** X17. The token-only route answers SUCCESS only when the table
    holds a link whose token hash is the peppered hash of the supplied
    token, that belongs to the supplied case, is not revoked and has
    not expired at the clock reading, and the data of the answer are
    the selected columns of that case. *)
Theorem X17_token_route_success_only_for_live_link :
  forall (sha256 : list byte -> list byte) e r req w d,
    Validator.body (fst (TokenRoute.POST sha256 e r req w))
    = Validator.Json
        {| Validator.ok := true; Validator.state := Validator.success;
           Validator.response_data := Some d; Validator.remaining_attempts := None;
           Validator.response_error := None; Validator.response_locked_until := None |} ->
    exists body pepper link k,
      TokenRoute.json req = Some body
      /\ Deno.env_get e "LINK_PEPPER" = Some pepper
      /\ In link (Store.case_links w)
      /\ Store.token_hash link
         = Crypto.hashWithPepper sha256 (TokenRoute.in_token body) pepper
      /\ Store.case_id link = TokenRoute.in_case_id body
      /\ Store.revoked_at link = None
      /\ TokenRoute.now r <= Store.expires_at link
      /\ In k (Store.cases w)
      /\ Store.case_pk k = TokenRoute.in_case_id body
      /\ d = Validator.selected_columns k.
Proof.
  intros sha256 e r req w d Hok.
  destruct (TokenRoute.POST sha256 e r req w) as [resp w'] eqn:E.
  cbn [fst] in Hok. apply (token_route_sound sha256 e r req w resp w' d E Hok).
Qed.

Lemma X17_witness :
  exists body pepper link k,
    TokenRoute.json Scenario.token_visit_fresh = Some body
    /\ Deno.env_get Sample.environment "LINK_PEPPER" = Some pepper
    /\ In link (Store.case_links Sample.world)
    /\ Store.token_hash link
       = Crypto.hashWithPepper Sample.digest (TokenRoute.in_token body) pepper
    /\ Store.case_id link = TokenRoute.in_case_id body
    /\ Store.revoked_at link = None
    /\ TokenRoute.now (Scenario.token_run 100) <= Store.expires_at link
    /\ In k (Store.cases Sample.world)
    /\ Store.case_pk k = TokenRoute.in_case_id body
    /\ Validator.selected_columns Sample.acme = Validator.selected_columns k.
Proof.
  apply (X17_token_route_success_only_for_live_link Sample.digest Sample.environment
           (Scenario.token_run 100) Scenario.token_visit_fresh Sample.world
           (Validator.selected_columns Sample.acme)).
  vm_compute. reflexivity.
Defined.

(** X18. The token-only route asks for no passcode and does not
    look at the lock.  In an environment that holds the pepper and
    the two variables of the service client
    ([NEXT_PUBLIC_SUPABASE_URL], [SUPABASE_SERVICE_ROLE_KEY]), for a
    request with a case and a token, whose link row is found, not
    revoked and not expired, and whose case is found, served by a
    datastore that applies the write, it answers SUCCESS with the
    selected columns of the case whatever the [locked_until],
    [attempt_count] and [passcode_hash] of the link, and the only
    write adds 1 to [view_count] and sets [last_viewed_at] on the rows
    of the identifier of the link. *)
Theorem X18_token_route_opens_whatever_the_lock :
  forall (sha256 : list byte -> list byte) e r body pepper link k w,
    Deno.env_get e "LINK_PEPPER" = Some pepper ->
    Js.falsy pepper = false ->
    Js.falsy_opt (Deno.env_get e "NEXT_PUBLIC_SUPABASE_URL") = false ->
    Js.falsy_opt (Deno.env_get e "SUPABASE_SERVICE_ROLE_KEY") = false ->
    Js.falsy (TokenRoute.in_case_id body) = false ->
    Js.falsy (TokenRoute.in_token body) = false ->
    Store.maybeSingle (TokenRoute.link_select_fails r)
      (Store.matching_links
         (Crypto.hashWithPepper sha256 (TokenRoute.in_token body) pepper)
         (TokenRoute.in_case_id body) (Store.case_links w))
    = Store.pg_data (Some link) ->
    Store.revoked_at link = None ->
    TokenRoute.now r <= Store.expires_at link ->
    TokenRoute.view_update_fails r = false ->
    Store.single (TokenRoute.case_select_fails r)
      (Store.matching_cases (TokenRoute.in_case_id body) (Store.cases w))
    = Store.pg_data (Some k) ->
    TokenRoute.POST sha256 e r {| TokenRoute.json := Some body |} w
    = (Props.SUCCESS (Validator.selected_columns k),
       Store.with_links w
         (Props.rows_updated (Store.id link)
            (fun l =>
               Invariant.after_view l (Store.view_count link + 1) (TokenRoute.viewed_at r))
            (Store.case_links w))).
Proof.
  intros sha256 e r body pepper link k w. apply token_route_opens.
Qed.

Lemma X18_witness :
  TokenRoute.POST Sample.digest Sample.environment (Scenario.token_run 100)
    Scenario.token_visit_fresh (Sample.world_of Sample.locked_link)
  = (Props.SUCCESS (Validator.selected_columns Sample.acme),
     Sample.world_of (Invariant.after_view Sample.locked_link 1 101)).
Proof.
  unfold Scenario.token_visit_fresh.
  rewrite (X18_token_route_opens_whatever_the_lock Sample.digest Sample.environment
             (Scenario.token_run 100)
             {| TokenRoute.in_case_id := "case-1"; TokenRoute.in_token := "token-1" |}
             "pepper" Sample.locked_link Sample.acme (Sample.world_of Sample.locked_link)).
  - vm_compute. reflexivity.
  - reflexivity.
  - reflexivity.
  - reflexivity.
  - reflexivity.
  - reflexivity.
  - reflexivity.
  - vm_compute. reflexivity.
  - reflexivity.
  - vm_compute. discriminate.
  - reflexivity.
  - vm_compute. reflexivity.
Defined.

(** Without the key of the service client the same request is
    answered 500 and nothing is written: the route creates the client
    before it looks the link up. *)
Example sample_token_route_without_service_key :
  TokenRoute.POST Sample.digest [("LINK_PEPPER", "pepper")] (Scenario.token_run 100)
    Scenario.token_visit_fresh Sample.world
  = (TokenRoute.refusal 500 Validator.invalid None, Sample.world)
  /\ TokenRoute.POST Sample.digest
       [("LINK_PEPPER", "pepper"); ("NEXT_PUBLIC_SUPABASE_URL", "https://db.example")]
       (Scenario.token_run 100) Scenario.token_visit_fresh Sample.world
     = (TokenRoute.refusal 500 Validator.invalid None, Sample.world).
Proof. vm_compute. split; reflexivity. Qed.

(** ** From the route to the token-only route *)

Section RouteRoundTrip.
Import Store.

Lemma matching_links_fresh (h c : string) (ls : list CaseLink) (row : CaseLink) :
  existsb (fun l => String.eqb (token_hash l) h) ls = false ->
  token_hash row = h -> case_id row = c ->
  matching_links h c (ls ++ [row]) = [row].
Proof.
  intros Hn Hh Hc. unfold matching_links. rewrite filter_app, filter_none.
  - cbn [filter app]. rewrite Hh, Hc, !String.eqb_refl. reflexivity.
  - induction ls as [|l ls IH]; [reflexivity|]. cbn [existsb] in *.
    apply orb_false_elim in Hn as [Ha Hr]. rewrite Ha, (IH Hr). reflexivity.
Qed.

Lemma matching_cases_fresh (c : string) (ks : list Case) (row : Case) :
  existsb (fun k => String.eqb (case_pk k) c) ks = false ->
  case_pk row = c ->
  matching_cases c (ks ++ [row]) = [row].
Proof.
  intros Hn Hc. unfold matching_cases. rewrite filter_app, (filter_none _ _ Hn).
  cbn [filter app]. rewrite Hc, String.eqb_refl. reflexivity.
Qed.

Lemma token_not_empty (bytes : list byte) :
  bytes <> [] -> Js.falsy (Crypto.generateToken bytes) = false.
Proof.
  intros Hb. pose proof (hex_length bytes) as Hlen. unfold Crypto.generateToken.
  destruct (Crypto.hex bytes); [|reflexivity].
  destruct bytes; [contradiction | discriminate Hlen].
Qed.

End RouteRoundTrip.

(** X19. The URL of a 200 answer of the route opens the proposal:
    the answer carries [<base>/cases/<case>?t=<token>], and a request
    to the token-only route with that case and that token, in an
    environment that also holds the key of the service client, served
    by a datastore that answers, not later than 30 days after the
    clock reading of the route, is answered SUCCESS with the columns
    of the case the route inserted for the signed-in user. *)
Theorem X19_generated_url_opens_on_token_route :
  forall (sha256 : list byte -> list byte) (fmt : Js.Formatting) e r req w rv,
    GenerateRoute.status (fst (GenerateRoute.POST sha256 fmt e r req w)) = 200 ->
    Js.falsy_opt (Deno.env_get e "SUPABASE_SERVICE_ROLE_KEY") = false ->
    GenerateRoute.random_bytes r <> [] ->
    Js.falsy (GenerateRoute.new_case_id r) = false ->
    TokenRoute.link_select_fails rv = false ->
    TokenRoute.view_update_fails rv = false ->
    TokenRoute.case_select_fails rv = false ->
    TokenRoute.now rv <= GenerateRoute.date_now r + 30 * 24 * 60 * 60 * 1000 ->
    exists base k,
      GenerateRoute.url (GenerateRoute.body (fst (GenerateRoute.POST sha256 fmt e r req w)))
      = Some (base ++ "/cases/" ++ GenerateRoute.new_case_id r ++ "?t="
                ++ Crypto.generateToken (GenerateRoute.random_bytes r))
      /\ In k (Store.cases (snd (GenerateRoute.POST sha256 fmt e r req w)))
      /\ Store.case_pk k = GenerateRoute.new_case_id r
      /\ Store.user_id k = GenerateRoute.user req
      /\ fst (TokenRoute.POST sha256 e rv
                {| TokenRoute.json :=
                     Some {| TokenRoute.in_case_id := GenerateRoute.new_case_id r;
                             TokenRoute.in_token :=
                               Crypto.generateToken (GenerateRoute.random_bytes r) |} |}
                (snd (GenerateRoute.POST sha256 fmt e r req w)))
         = Props.SUCCESS (Validator.selected_columns k).
Proof.
  intros sha256 fmt e r req w rv Hs Hkey Hbytes Hid Hl Hu Hc Hnow.
  destruct (GenerateRoute.POST sha256 fmt e r req w) as [resp w'] eqn:E.
  cbn [fst snd] in *.
  destruct (route_success sha256 fmt e r req w resp w' E Hs)
    as (uid & company & ind & n & pepper & caseUrl & Huser & _ & _ & Hp & Hpe & Hurl & Hnew
        & Hfresh & (base & ->) & -> & ->).
  exists base. eexists. cbn [GenerateRoute.url GenerateRoute.body Store.cases].
  split; [reflexivity|]. split; [apply in_or_app; right; left; reflexivity|].
  split; [reflexivity|]. split; [symmetry; exact Huser|].
  erewrite token_route_opens;
    [reflexivity | exact Hp | exact Hpe | exact Hurl | exact Hkey | exact Hid | ..].
  - apply token_not_empty. exact Hbytes.
  - cbn [TokenRoute.in_token TokenRoute.in_case_id Store.case_links].
    rewrite Hl, (matching_links_fresh _ _ _ _ Hfresh); reflexivity.
  - reflexivity.
  - exact Hnow.
  - exact Hu.
  - cbn [TokenRoute.in_case_id Store.cases].
    rewrite Hc, (matching_cases_fresh _ _ _ Hnew); reflexivity.
Qed.

Lemma X19_witness :
  exists base k,
    GenerateRoute.url
      (GenerateRoute.body
         (fst (GenerateRoute.POST Sample.digest Sample.formatUSD Sample.environment
                 Sample.route_run Sample.proposal Sample.world)))
    = Some (base ++ "/cases/" ++ "case-2" ++ "?t=" ++ Crypto.generateToken (repeat x2a 32))
    /\ Store.case_pk k = "case-2"
    /\ fst (TokenRoute.POST Sample.digest Sample.environment (Scenario.token_run 100)
              Scenario.token_visit Sample.world_after_route)
       = Props.SUCCESS (Validator.selected_columns k).
Proof.
  destruct (X19_generated_url_opens_on_token_route Sample.digest Sample.formatUSD
              Sample.environment Sample.route_run Sample.proposal Sample.world
              (Scenario.token_run 100))
    as (base & k & Hurl & _ & Hpk & _ & Hopen).
  - vm_compute. reflexivity.
  - reflexivity.
  - discriminate.
  - reflexivity.
  - reflexivity.
  - reflexivity.
  - reflexivity.
  - vm_compute. discriminate.
  - exists base, k. split; [exact Hurl|]. split; [exact Hpk | exact Hopen].
Defined.

(** ** Rotation ([regenerate_link]) *)

(** [crack], also through conditions that hold a function with a
    case analysis of its own. *)
Ltac is_innermost x :=
  tryif (match x with context [match ?y with _ => _ end] => idtac end)
  then fail else idtac.

Ltac crack_all E :=
  repeat
    (match type of E with
     | context [match ?x with _ => _ end] => is_innermost x; destruct x eqn:?
     end; cbn beta iota in E;
     cbn [Store.cases Store.case_links Store.outbound Store.with_links Store.with_cases
          Store.with_outbound Store.error Store.data Store.pg_data Store.pg_error] in E).

Ltac open_rotation E :=
  unfold Regenerate.serve, try_catch, Regenerate.rotate in E;
  unfold Deno.getServiceClient, Deno.env at 1 2, Store.select_case, Store.revoke_links,
    Store.update_links, Store.insert_link, Store.touch_case, non_fatal, bind, ret, throw,
    get, put in E;
  cbn [Store.cases Store.case_links Store.with_links Store.error Store.data] in E.

Section RotationEverywhere.
Import Store Props.

Variable sha256 : list byte -> list byte.

Lemma rotation_refusals_write_nothing e r req w resp w' :
  Regenerate.serve sha256 e r req w = (resp, w') ->
  Regenerate.status resp <> 200 ->
  resp <> Regenerate.failure 500 "Failed to create link" ->
  w' = w.
Proof.
  intros E Hs Hm. open_rotation E.
  crack_all E; injection E as <- <-; try reflexivity; exfalso;
    first [apply Hs; reflexivity | apply Hm; reflexivity].
Qed.

Lemma rotation_failed_insert e r req w resp w' :
  Regenerate.serve sha256 e r req w = (resp, w') ->
  resp = Regenerate.failure 500 "Failed to create link" ->
  Regenerate.revoke_fails r = false ->
  exists c,
    Regenerate.json req = Some c
    /\ w' = with_links w (active_revoked c (Regenerate.revoke_time r) (case_links w)).
Proof.
  intros E Hs Hrev. open_rotation E. rewrite Hrev in E.
  crack_all E; injection E as <- <-; try discriminate Hs.
  all: eexists; split; reflexivity.
Qed.

Lemma active_revoked_none_live c t ls l :
  In l (active_revoked c t ls) -> case_id l = c -> revoked_at l <> None.
Proof.
  unfold active_revoked. rewrite in_map_iff. intros (l0 & <- & _).
  destruct (String.eqb (case_id l0) c) eqn:Hc; cbn [andb].
  - destruct (revoked_at l0) eqn:Hr; cbn; intros _; [rewrite Hr|]; discriminate.
  - intros Heq. apply String.eqb_neq in Hc. contradiction.
Qed.

End RotationEverywhere.

(** X20. A rotation request writes only when it is answered 200 or
    500 "Failed to create link": every other answer, that is a method
    other than [POST] or [OPTIONS] (405), a body without [case_id]
    (400), a case that is not found (404), a body that is not JSON and
    a missing environment variable (500 with the message of the
    exception), leaves the tables and the calls to the collaborators
    as they were. *)
Theorem X20_rotation_refusals_write_nothing :
  forall (sha256 : list byte -> list byte) e r req w,
    Regenerate.status (fst (Regenerate.serve sha256 e r req w)) <> 200 ->
    fst (Regenerate.serve sha256 e r req w)
    <> Regenerate.failure 500 "Failed to create link" ->
    snd (Regenerate.serve sha256 e r req w) = w.
Proof.
  intros sha256 e r req w Hs Hm.
  destruct (Regenerate.serve sha256 e r req w) as [resp w'] eqn:E.
  cbn [fst snd] in *. apply (rotation_refusals_write_nothing sha256 e r req w resp w' E Hs Hm).
Qed.

Lemma X20_witness :
  snd (Regenerate.serve Sample.digest Sample.environment Sample.rotation_run
         (Props.rotation "case-9") Sample.world)
  = Sample.world.
Proof.
  apply (X20_rotation_refusals_write_nothing Sample.digest Sample.environment
           Sample.rotation_run (Props.rotation "case-9") Sample.world).
  - vm_compute. discriminate.
  - vm_compute. discriminate.
Defined.

(** X21. The rotation revokes before it inserts and does not undo
    the revocation: answered 500 "Failed to create link" by a
    datastore that applied the revocation, it leaves the cases and
    the calls to the collaborators as they were and the table of
    links with every link of the case revoked, so that no link of the
    case is live any more. *)
Theorem X21_failed_rotation_leaves_no_live_link :
  forall (sha256 : list byte -> list byte) e r req w,
    fst (Regenerate.serve sha256 e r req w)
    = Regenerate.failure 500 "Failed to create link" ->
    Regenerate.revoke_fails r = false ->
    exists c,
      Regenerate.json req = Some c
      /\ snd (Regenerate.serve sha256 e r req w)
         = Store.with_links w
             (Props.active_revoked c (Regenerate.revoke_time r) (Store.case_links w))
      /\ forall l,
           In l (Store.case_links (snd (Regenerate.serve sha256 e r req w))) ->
           Store.case_id l = c -> Store.revoked_at l <> None.
Proof.
  intros sha256 e r req w Hs Hrev.
  destruct (Regenerate.serve sha256 e r req w) as [resp w'] eqn:E.
  cbn [fst snd] in *.
  destruct (rotation_failed_insert sha256 e r req w resp w' E Hs Hrev) as (c & Hc & ->).
  exists c. split; [exact Hc|]. split; [reflexivity|].
  cbn [Store.case_links Store.with_links]. intros l. apply active_revoked_none_live.
Qed.

Lemma X21_witness :
  exists c,
    Regenerate.json (Props.rotation "case-1") = Some c
    /\ snd (Regenerate.serve Sample.digest Sample.environment Scenario.failing_rotation_run
              (Props.rotation "case-1") Sample.world)
       = Store.with_links Sample.world
           (Props.active_revoked c 60 (Store.case_links Sample.world))
    /\ forall l,
         In l (Store.case_links
                 (snd (Regenerate.serve Sample.digest Sample.environment
                         Scenario.failing_rotation_run (Props.rotation "case-1")
                         Sample.world))) ->
         Store.case_id l = c -> Store.revoked_at l <> None.
Proof.
  apply (X21_failed_rotation_leaves_no_live_link Sample.digest Sample.environment
           Scenario.failing_rotation_run (Props.rotation "case-1") Sample.world).
  - vm_compute. reflexivity.
  - reflexivity.
Defined.

(** ** From the rotation to the validator *)

Section RotationRoundTrip.
Import Store Props.

Variable sha256 : list byte -> list byte.

Lemma env_world e key fallback (w w1 : World) o :
  Deno.env e key fallback w = (o, w1) -> w1 = w.
Proof.
  intros H. pose proof (preserves_env (fun x => x = w) e key fallback w eq_refl) as Hw.
  rewrite H in Hw. exact Hw.
Qed.

Lemma pipedrive_tables e d fields (w w1 : World) o :
  Pipedrive.updatePipedriveDeal e d fields w = (o, w1) ->
  case_links w1 = case_links w /\ cases w1 = cases w.
Proof.
  intros H.
  assert (Hp : Invariant.preserves
                 (fun x => case_links x = case_links w /\ cases x = cases w)
                 (Pipedrive.updatePipedriveDeal e d fields)).
  { unfold Pipedrive.updatePipedriveDeal.
    repeat (apply preserves_bind; [apply preserves_env | intros ?]).
    intros x Hx. exact Hx. }
  specialize (Hp w (conj eq_refl eq_refl)). rewrite H in Hp. exact Hp.
Qed.

(** What a rotation answered with 200 did. *)
Lemma rotation_issued e r req w resp w' :
  Regenerate.serve sha256 e r req w = (resp, w') ->
  Regenerate.status resp = 200 ->
  Regenerate.method req = Regenerate.POST ->
  exists c pepper base k,
    Regenerate.json req = Some c
    /\ Js.falsy c = false
    /\ configured e pepper
    /\ matching_cases c (cases w) = [k]
    /\ existsb (fun l => String.eqb (token_hash l)
                           (token_hash (Invariant.issued_link sha256 r c pepper)))
         (if Regenerate.revoke_fails r then case_links w
          else active_revoked c (Regenerate.revoke_time r) (case_links w)) = false
    /\ resp = {| Regenerate.status := 200;
                 Regenerate.body :=
                   Regenerate.Json
                     {| Regenerate.ok := true; Regenerate.error := None;
                        Regenerate.body_case_id := Some c;
                        Regenerate.url :=
                          Some (base ++ "/cases/" ++ c ++ "?t="
                                  ++ Crypto.generateToken (Regenerate.token_bytes r));
                        Regenerate.passcode := Some (Invariant.issued_passcode r);
                        Regenerate.body_expires_at :=
                          Some (Regenerate.date_now r + 30 * 24 * 60 * 60 * 1000) |} |}
    /\ case_links w'
       = ((if Regenerate.revoke_fails r then case_links w
           else active_revoked c (Regenerate.revoke_time r) (case_links w))
            ++ [Invariant.issued_link sha256 r c pepper])%list
    /\ cases w'
       = (if Regenerate.touch_fails r then cases w
          else map (fun k => if String.eqb (case_pk k) c
                             then Invariant.touched k (Regenerate.generated_at r) else k)
                   (cases w)).
Proof.
  intros E Hs Hpost. open_rotation E. rewrite Hpost in E.
  crack_all E; injection E as <- <-; try discriminate Hs.
  all: repeat match goal with
              | H : Deno.env _ _ _ _ = (_, ?w1) |- _ => apply env_world in H; subst w1
              | H : Pipedrive.updatePipedriveDeal _ _ _ _ = (_, _) |- _ =>
                  apply pipedrive_tables in H as [? ?]
              | H : data (single _ _) = Some _ |- _ =>
                  apply single_data_rows in H as [_ ?]
              end.
  all: split_orb.
  all: match goal with
       | Hc : Regenerate.json _ = Some ?c, Hp : Deno.env_get _ "LINK_PEPPER" = Some ?p,
         Hb : Deno.env_get _ "APP_BASE_URL" = Some ?b,
         Hk : matching_cases _ _ = [?k] |- _ =>
           exists c, p, b, k
       end.
  all: unfold Invariant.issued_link, Invariant.issued_passcode, configured.
  all: repeat match goal with
              | H : Regenerate.passcode_bytes _ = _ |- _ => rewrite H
              | H : Regenerate.revoke_fails _ = _ |- _ => rewrite H
              | H : Regenerate.touch_fails _ = _ |- _ => rewrite H
              end.
  all: cbn [case_links cases with_links with_cases] in *.
  all: repeat split; try assumption; try reflexivity; try congruence.
Qed.

Lemma passcode_not_empty (b0 b1 b2 b3 : byte) :
  Js.falsy (Crypto.generatePasscode b0 b1 b2 b3) = false.
Proof.
  unfold Crypto.generatePasscode.
  match goal with
  | |- Js.falsy (Js.padStart ?s 6 ?c) = false =>
      pose proof (padStart_length s 6 c) as Hlen; destruct (Js.padStart s 6 c)
  end; [cbn [String.length] in Hlen; lia | reflexivity].
Qed.

Lemma matching_cases_touched c t ks :
  matching_cases c
    (map (fun k => if String.eqb (case_pk k) c then Invariant.touched k t else k) ks)
  = map (fun k => Invariant.touched k t) (matching_cases c ks).
Proof.
  unfold matching_cases. induction ks as [|k ks IH]; [reflexivity|].
  cbn [map filter]. destruct (String.eqb (case_pk k) c) eqn:Hk.
  - cbn [Invariant.touched case_pk]. rewrite Hk, IH. reflexivity.
  - rewrite Hk, IH. reflexivity.
Qed.

End RotationRoundTrip.

(** X22. What a rotation hands out opens the case: a [POST]
    answered with 200 carries the URL [<base>/cases/<case>?t=<token>]
    and a passcode, and a verification request with that case, token
    and passcode, served by a datastore that answers every call, not
    later than 30 days after the clock reading of the rotation, is
    answered SUCCESS with the selected columns of the case. *)
Theorem X22_rotated_link_opens_with_issued_passcode :
  forall (sha256 : list byte -> list byte) e r c w rv,
    Regenerate.status (fst (Regenerate.serve sha256 e r (Props.rotation c) w)) = 200 ->
    Regenerate.token_bytes r <> [] ->
    Invariant.answering rv ->
    Validator.now rv <= Regenerate.date_now r + 30 * 24 * 60 * 60 * 1000 ->
    exists base k,
      Regenerate.body (fst (Regenerate.serve sha256 e r (Props.rotation c) w))
      = Regenerate.Json
          {| Regenerate.ok := true; Regenerate.error := None;
             Regenerate.body_case_id := Some c;
             Regenerate.url :=
               Some (base ++ "/cases/" ++ c ++ "?t="
                       ++ Crypto.generateToken (Regenerate.token_bytes r));
             Regenerate.passcode := Some (Invariant.issued_passcode r);
             Regenerate.body_expires_at :=
               Some (Regenerate.date_now r + 30 * 24 * 60 * 60 * 1000) |}
      /\ In k (Store.cases w)
      /\ Store.case_pk k = c
      /\ fst (Validator.serve sha256 e rv
                (Props.verification
                   {| Validator.in_case_id := c;
                      Validator.in_token := Crypto.generateToken (Regenerate.token_bytes r);
                      Validator.in_passcode := Invariant.issued_passcode r |})
                (snd (Regenerate.serve sha256 e r (Props.rotation c) w)))
         = Props.SUCCESS (Validator.selected_columns k).
Proof.
  intros sha256 e r c w rv Hs Hbytes (Hsel & _ & Hview & Hcase) Hnow.
  destruct (Regenerate.serve sha256 e r (Props.rotation c) w) as [resp w'] eqn:E.
  cbn [fst snd] in *.
  destruct (rotation_issued sha256 e r (Props.rotation c) w resp w' E Hs eq_refl)
    as (c' & pepper & base & k & Hjson & Hc & Hconf & Hk & Hfresh & -> & Hlinks & Hcases).
  cbn [Props.rotation Regenerate.json] in Hjson. injection Hjson as <-.
  exists base, k. split; [reflexivity|].
  assert (Hin : In k (Store.matching_cases c (Store.cases w)))
    by (rewrite Hk; left; reflexivity).
  apply matching_cases_sound in Hin as [Hin Hpk].
  split; [exact Hin|]. split; [exact Hpk|].
  rewrite (serve_found sha256 e rv _ w' pepper (Invariant.issued_link sha256 r c pepper) Hconf).
  - unfold try_catch. rewrite check_correct.
    + rewrite (correct_branch_run rv _ _
                 (if Regenerate.touch_fails r then k
                  else Invariant.touched k (Regenerate.generated_at r)) w' Hview).
      * destruct (Regenerate.touch_fails r); reflexivity.
      * cbn [Validator.in_case_id]. rewrite Hcase, Hcases.
        destruct (Regenerate.touch_fails r).
        -- rewrite Hk. reflexivity.
        -- rewrite matching_cases_touched, Hk. reflexivity.
    + reflexivity.
    + unfold Props.not_expired. apply Z.ltb_ge. exact Hnow.
    + reflexivity.
    + reflexivity.
  - unfold Props.well_formed. cbn [Validator.in_case_id Validator.in_token
                                   Validator.in_passcode].
    split; [exact Hc|]. split; [apply token_not_empty; exact Hbytes|].
    unfold Invariant.issued_passcode.
    destruct (Regenerate.passcode_bytes r) as [[[b0 b1] b2] b3]. apply passcode_not_empty.
  - unfold Props.found. cbn [Validator.in_case_id Validator.in_token].
    rewrite Hsel, Hlinks, (matching_links_fresh _ _ _ _ Hfresh); reflexivity.
Qed.

Lemma X22_witness :
  exists base k,
    Regenerate.body
      (fst (Regenerate.serve Sample.digest Sample.environment Sample.rotation_run
              (Props.rotation "case-1") Sample.world))
    = Regenerate.Json
        {| Regenerate.ok := true; Regenerate.error := None;
           Regenerate.body_case_id := Some "case-1";
           Regenerate.url :=
             Some (base ++ "/cases/" ++ "case-1" ++ "?t="
                     ++ Crypto.generateToken (repeat x09 32));
           Regenerate.passcode := Some "000000";
           Regenerate.body_expires_at := Some 2592000061 |}
    /\ Store.case_pk k = "case-1"
    /\ fst (Validator.serve Sample.digest Sample.environment (Sample.at_time 100)
              (Props.verification
                 {| Validator.in_case_id := "case-1";
                    Validator.in_token := Crypto.generateToken (repeat x09 32);
                    Validator.in_passcode := "000000" |})
              Scenario.world_after_rotation)
       = Props.SUCCESS (Validator.selected_columns k).
Proof.
  destruct (X22_rotated_link_opens_with_issued_passcode Sample.digest Sample.environment
              Sample.rotation_run "case-1" Sample.world (Sample.at_time 100))
    as (base & k & Hbody & _ & Hpk & Hopen).
  - vm_compute. reflexivity.
  - discriminate.
  - repeat split.
  - vm_compute. discriminate.
  - exists base, k. split; [exact Hbody|]. split; [exact Hpk | exact Hopen].
Defined.

Lemma env_value e key (w w1 : Store.World) v :
  Deno.env e key None w = (Returned v, w1) ->
  w1 = w /\ Deno.env_get e key = Some v /\ Js.falsy v = false.
Proof.
  unfold Deno.env. destruct (Deno.env_get e key) as [x|]; [|discriminate].
  destruct (Js.falsy x) eqn:Hx; [discriminate|].
  intros H. injection H as <- <-. repeat split. exact Hx.
Qed.

Lemma env_missing e key (w w1 : Store.World) (message : string) :
  Deno.env e key None w = (@Thrown string message, w1) ->
  w1 = w /\ message = "Missing env var: " ++ key.
Proof.
  unfold Deno.env. destruct (Deno.env_get e key) as [x|].
  - destruct (Js.falsy x); [|discriminate].
    intros H. injection H as <- <-. split; reflexivity.
  - intros H. injection H as <- <-. split; reflexivity.
Qed.

(** ** The webhook ([generate_case_from_pipedrive]) *)

Ltac open_generation E :=
  unfold Webhook.generate in E;
  unfold Store.upsert_case, Store.insert_case, Store.revoke_links, Store.update_links,
    Store.insert_link, Store.call_out, non_fatal, bind, ret, throw, get, put in E;
  cbn [Store.cases Store.case_links Store.with_links Store.with_cases Store.error
       Store.data Store.pg_data Store.pg_error Store.pipedrive_deal_id Store.case_pk orb] in E.

Ltac open_webhook E :=
  unfold Webhook.serve, try_catch, Webhook.receive in E;
  unfold Deno.getServiceClient, Store.select_case_of_deal, non_fatal, bind, ret, throw,
    get, put in E;
  cbn [Webhook.is_post Webhook.secret Webhook.json Webhook.current Webhook.previous
       Store.cases Store.case_links Store.data] in E.

(** What the calls that only read say about their result. *)
Ltac read_calls :=
  repeat match goal with
         | H : Deno.env _ _ None _ = (Returned _, ?w1) |- _ =>
             apply env_value in H as (? & ? & ?); subst w1
         | H : Deno.env _ _ None _ = (Thrown _, ?w1) |- _ =>
             apply env_missing in H as (? & ?); subst w1
         | H : Deno.env _ _ _ _ = (_, ?w1) |- _ => apply env_world in H; subst w1
         | H : Pipedrive.updatePipedriveDeal _ _ _ _ = (_, _) |- _ =>
             apply pipedrive_tables in H as [? ?]
         | H : negb _ = false |- _ => apply negb_false_iff in H
         | H : orb _ _ = false |- _ => apply orb_false_elim in H; destruct H
         end.

Section WebhookEverywhere.
Import Store Props.

Variable sha256 : list byte -> list byte.
Variable usd : Js.Formatting.

(** The five ways steps 8 to 15 end: the upsert is refused and
    nothing is written; the pepper is missing, which the handler
    notices after the upsert and the revocation; the insert of the
    link is refused, after the upsert and the revocation; the base
    URL is missing, which the handler notices after the insert; or
    the link is issued. *)
Lemma generate_outcome e r cur d company ind n field w o w' :
  Webhook.generate sha256 usd e r cur d company ind n field w = (o, w') ->
  (o = Returned {| Webhook.status := 500;
                   Webhook.body := Webhook.Failed "Database upsert failed" |}
   /\ w' = w)
  \/ (exists c,
        o = Thrown "Missing env var: LINK_PEPPER"
        /\ Invariant.upserted d (Invariant.webhook_row usd r d company ind n) c
             (cases w) (cases w')
        /\ case_links w'
           = (if Webhook.revoke_fails r then case_links w
              else active_revoked c (Webhook.revoke_time r) (case_links w)))
  \/ (exists c,
        o = Returned {| Webhook.status := 500;
                        Webhook.body := Webhook.Failed "Failed to create link" |}
        /\ Invariant.upserted d (Invariant.webhook_row usd r d company ind n) c
             (cases w) (cases w')
        /\ case_links w'
           = (if Webhook.revoke_fails r then case_links w
              else active_revoked c (Webhook.revoke_time r) (case_links w)))
  \/ (exists c pepper,
        o = Thrown "Missing env var: APP_BASE_URL"
        /\ Invariant.upserted d (Invariant.webhook_row usd r d company ind n) c
             (cases w) (cases w')
        /\ case_links w'
           = ((if Webhook.revoke_fails r then case_links w
               else active_revoked c (Webhook.revoke_time r) (case_links w))
                ++ [Invariant.webhook_link sha256 r c pepper])%list)
  \/ (exists c pepper base,
        Deno.env_get e "LINK_PEPPER" = Some pepper
        /\ Js.falsy pepper = false
        /\ o = Returned
                 {| Webhook.status := 200;
                    Webhook.body :=
                      Webhook.Generated c
                        (base ++ "/cases/" ++ c ++ "?t="
                           ++ Crypto.generateToken (Webhook.token_bytes r))
                        (Invariant.webhook_passcode r)
                        (Webhook.expiry_base r + 30 * 24 * 60 * 60 * 1000) |}
        /\ Invariant.upserted d (Invariant.webhook_row usd r d company ind n) c
             (cases w) (cases w')
        /\ existsb (fun l => String.eqb (token_hash l)
                               (token_hash (Invariant.webhook_link sha256 r c pepper)))
             (if Webhook.revoke_fails r then case_links w
              else active_revoked c (Webhook.revoke_time r) (case_links w)) = false
        /\ case_links w'
           = ((if Webhook.revoke_fails r then case_links w
               else active_revoked c (Webhook.revoke_time r) (case_links w))
                ++ [Invariant.webhook_link sha256 r c pepper])%list).
Proof.
  intros E. open_generation E.
  crack_all E; injection E as <- <-.
  all: read_calls.
  all: cbn [case_links cases with_links with_cases with_outbound] in *.
  all: unfold Invariant.webhook_link, Invariant.webhook_passcode, Invariant.upserted.
  all: subst.
  all: repeat match goal with
              | H : Webhook.passcode_bytes _ = _ |- _ => rewrite H
              | H : Webhook.revoke_fails _ = _ |- _ => rewrite H
              | H : case_links _ = _ |- _ => rewrite H
              | H : cases _ = _ |- _ => rewrite H
              end.
  all: cbn [case_links cases with_links with_cases with_outbound] in *.
  all: first
         [ left; split; reflexivity
         | right; left; eexists; split; [reflexivity|]; split; [|reflexivity];
           first [ left; repeat split; try assumption; reflexivity
                 | right; eexists; repeat split; try eassumption; reflexivity ]
         | right; right; left; eexists; split; [reflexivity|]; split; [|reflexivity];
           first [ left; repeat split; try assumption; reflexivity
                 | right; eexists; repeat split; try eassumption; reflexivity ]
         | right; right; right; left; eexists; eexists; split; [reflexivity|];
           split; [|reflexivity];
           first [ left; repeat split; try assumption; reflexivity
                 | right; eexists; repeat split; try eassumption; reflexivity ]
         | right; right; right; right;
           match goal with
           | Hp : Deno.env_get _ "LINK_PEPPER" = Some ?p,
             Hb : Deno.env_get _ "APP_BASE_URL" = Some ?b |- _ =>
               eexists; exists p, b
           end;
           split; [assumption|]; split; [assumption|]; split; [reflexivity|];
           split; [|split; [assumption | reflexivity]];
           first [ left; repeat split; try assumption; reflexivity
                 | right; eexists; repeat split; try eassumption; reflexivity ] ].
Qed.

End WebhookEverywhere.

Section WebhookRuns.
Import Store Props.

Variable sha256 : list byte -> list byte.
Variable usd : Js.Formatting.

Lemma text_some (v : option string) (s : string) :
  Webhook.text v = s -> Js.falsy s = false -> v = Some s.
Proof.
  destruct v as [x|]; cbn.
  - intros ->. reflexivity.
  - intros <-. discriminate.
Qed.

(** A request whose answer comes from steps 8 to 15 was a generation
    trigger, and the answer and the writes are the ones of these
    steps. *)
Lemma reached_generation e r req w resp w' :
  Webhook.serve sha256 usd e r req w = (resp, w') ->
  (exists c url p x, Webhook.body resp = Webhook.Generated c url p x)
  \/ Webhook.body resp = Webhook.Failed "Missing env var: LINK_PEPPER"
  \/ Webhook.body resp = Webhook.Failed "Failed to create link" ->
  exists cur prev n field o,
    trigger e req cur prev
    /\ Webhook.deal_w2_count cur = Some n
    /\ Webhook.generate sha256 usd e r cur (Webhook.deal_id cur)
         (Webhook.text (Webhook.title cur)) (Webhook.text (Webhook.deal_industry cur))
         n field w
       = (o, w')
    /\ resp = match o with
              | Returned a => a
              | Thrown message =>
                  {| Webhook.status := 500; Webhook.body := Webhook.Failed message |}
              end.
Proof.
  intros E Hlate. destruct req as [post sec [[[cur|] [prev|]]|]].
  all: open_webhook E.
  all: crack_all E; injection E as <- <-.
  all: read_calls.
  all: try (exfalso; destruct Hlate as [(? & ? & ? & ? & Hlate)|[Hlate|Hlate]];
            subst; cbn in Hlate; discriminate Hlate).
  all: repeat match goal with
              | H : (0 <? _) = false |- _ => cbn in H; try discriminate H; clear H
              end.
  all: repeat match goal with
              | H : String.eqb _ _ = true |- _ => apply String.eqb_eq in H
              | H : String.eqb _ _ = false |- _ => apply String.eqb_neq in H
              end.
  all: try match goal with
           | H : Js.not (Js.Number (Js.Int 0)) = false |- _ => discriminate H
           | H : false = true |- _ => discriminate H
           end.
  all: match goal with
       | Hn : Webhook.deal_w2_count ?d = Some ?n,
         Hq : Webhook.text (Webhook.generate_proposal ?q) <> _,
         Hg : Webhook.generate _ _ _ _ _ _ _ _ _ ?f _ = (?o, _) |- _ =>
           exists d, q, n, f, o
       end.
  all: (split; [|split; [assumption | split; [assumption | reflexivity]]]).
  all: unfold trigger, has;
    cbn [Webhook.is_post Webhook.secret Webhook.json].
  all: subst.
  all: repeat first
         [ apply conj
         | match goal with |- Deno.env_get _ _ = Some _ => eassumption end
         | match goal with |- Some _ = Some _ => reflexivity end
         | match goal with |- ex _ => eexists end ].
  all: try eassumption; try reflexivity.
  all: try (apply text_some; [reflexivity | assumption]).
Qed.

(** The answers that come before step 8 leave the tables alone. *)
Lemma webhook_early_answers e r req w resp w' :
  Webhook.serve sha256 usd e r req w = (resp, w') ->
  match Webhook.body resp with
  | Webhook.Error _ | Webhook.Skipped | Webhook.SkippedIdempotent _ _ => w' = w
  | Webhook.MissingFields _ _ =>
      case_links w' = case_links w /\ cases w' = cases w
  | Webhook.Failed _ | Webhook.Generated _ _ _ _ => True
  end.
Proof.
  intros E. open_webhook E.
  crack_all E; injection E as <- <-; cbn [Webhook.body]; try exact I; try reflexivity.
  all: read_calls.
  all: try (split; assumption).
  all: match goal with
       | H : Webhook.generate _ _ _ _ _ _ _ _ _ _ _ = _ |- _ =>
           apply generate_outcome in H
             as [(Ho & _)|[(? & Ho & _)|[(? & Ho & _)|[(? & ? & Ho & _)
                |(? & ? & ? & _ & _ & Ho & _)]]]]
       end.
  all: first [discriminate Ho | injection Ho as ->; exact I].
Qed.

Lemma same_deal_merge d old row :
  pipedrive_deal_id row = Some d -> same_deal (Some d) (merge_case old row) = true.
Proof.
  intros H. unfold same_deal, merge_case. cbn [pipedrive_deal_id]. rewrite H.
  apply Z.eqb_refl.
Qed.

Lemma filter_overwritten d row ks :
  pipedrive_deal_id row = Some d ->
  filter (same_deal (Some d)) (Invariant.overwritten d row ks)
  = map (fun k => merge_case k row) (filter (same_deal (Some d)) ks).
Proof.
  intros H. unfold Invariant.overwritten. induction ks as [|k ks IH]; [reflexivity|].
  cbn [map filter]. destruct (same_deal (Some d) k) eqn:Hk.
  - rewrite (same_deal_merge d k row H). cbn [map]. rewrite IH. reflexivity.
  - rewrite Hk. exact IH.
Qed.

Lemma matching_cases_overwritten d row c ks :
  matching_cases c (Invariant.overwritten d row ks)
  = map (fun k => if same_deal (Some d) k then merge_case k row else k)
        (matching_cases c ks).
Proof.
  unfold matching_cases, Invariant.overwritten. induction ks as [|k ks IH]; [reflexivity|].
  cbn [map filter].
  assert (Hpk : case_pk (if same_deal (Some d) k then merge_case k row else k) = case_pk k)
    by (destruct (same_deal (Some d) k); reflexivity).
  rewrite Hpk. destruct (String.eqb (case_pk k) c); cbn [map]; rewrite IH; reflexivity.
Qed.

Lemma unique_case (ks : list Case) (old : Case) :
  NoDup (map case_pk ks) -> In old ks -> matching_cases (case_pk old) ks = [old].
Proof.
  unfold matching_cases. induction ks as [|k ks IH]; [intros _ []|].
  cbn [map filter In]. intros Hnd Hin. inversion Hnd as [|x l Hnot Hrest]; subst.
  destruct Hin as [->|Hin].
  - rewrite String.eqb_refl. f_equal. apply filter_none.
    destruct (existsb _ ks) eqn:Hex; [|reflexivity].
    apply existsb_exists in Hex as (k & Hk & Heq). apply String.eqb_eq in Heq.
    exfalso. apply Hnot. rewrite <- Heq. apply in_map. exact Hk.
  - destruct (String.eqb (case_pk k) (case_pk old)) eqn:Heq.
    + apply String.eqb_eq in Heq. exfalso. apply Hnot. rewrite Heq.
      apply in_map. exact Hin.
    + apply IH; assumption.
Qed.

(** After the upsert, the lookup by deal finds one case, the one
    the upsert answered with. *)
Lemma upserted_deal d row c ks ks' :
  pipedrive_deal_id row = Some d ->
  Invariant.upserted d row c ks ks' ->
  exists k,
    filter (same_deal (Some d)) ks' = [k]
    /\ case_pk k = c
    /\ last_generated_at k = last_generated_at row.
Proof.
  intros Hd [(Hnone & -> & _ & ->)|(old & Hone & -> & ->)].
  - exists row. rewrite filter_app, Hnone. cbn [filter app].
    unfold same_deal. rewrite Hd, Z.eqb_refl. repeat split.
  - exists (merge_case old row). rewrite (filter_overwritten d row ks Hd), Hone.
    repeat split.
Qed.

(** After the upsert into a table whose identifiers are unique, the
    lookup by identifier finds one case, which holds the columns of
    the row. *)
Lemma upserted_case d row c ks ks' :
  NoDup (map case_pk ks) ->
  Invariant.upserted d row c ks ks' ->
  exists k,
    matching_cases c ks' = [k]
    /\ Validator.selected_columns k
       = Validator.selected_columns (merge_case k row).
Proof.
  intros Hnd [(_ & -> & Hfresh & ->)|(old & Hone & -> & ->)].
  - exists row. split; [apply matching_cases_fresh; [exact Hfresh | reflexivity]|].
    reflexivity.
  - assert (Hin : In old (filter (same_deal (Some d)) ks))
      by (rewrite Hone; left; reflexivity).
    apply filter_In in Hin as [Hin Hsame].
    exists (merge_case old row).
    rewrite matching_cases_overwritten, (unique_case ks old Hnd Hin).
    cbn [map]. rewrite Hsame. split; reflexivity.
Qed.

End WebhookRuns.

Example sample_webhook_early_answers :
  Webhook.serve Sample.digest Sample.formatUSD Sample.environment (Sample.event_run 100000)
    Scenario.forged_event Sample.world
  = ({| Webhook.status := 401; Webhook.body := Webhook.Error "Unauthorized" |},
     Sample.world)
  /\ fst (Webhook.serve Sample.digest Sample.formatUSD Sample.environment
            (Sample.event_run 100000) Scenario.event_without_count Sample.world)
     = {| Webhook.status := 200;
          Webhook.body :=
            Webhook.MissingFields "Missing required fields: W-2 Count" ["W-2 Count"] |}.
Proof. vm_compute. split; reflexivity. Qed.

(** X23. The answers of the webhook that come before the upsert
    leave the tables alone: an error answer (405, 401), [skipped] and
    the idempotency skip leave the tables and the calls to the
    collaborators as they were, and the answer that names missing
    fields leaves both tables as they were (it may have reset the
    field of the deal at the CRM). *)
Theorem X23_webhook_early_answers_leave_the_tables :
  forall (sha256 : list byte -> list byte) (usd : Js.Formatting) e r req w,
    match Webhook.body (fst (Webhook.serve sha256 usd e r req w)) with
    | Webhook.Error _ | Webhook.Skipped | Webhook.SkippedIdempotent _ _ =>
        snd (Webhook.serve sha256 usd e r req w) = w
    | Webhook.MissingFields _ _ =>
        Store.case_links (snd (Webhook.serve sha256 usd e r req w)) = Store.case_links w
        /\ Store.cases (snd (Webhook.serve sha256 usd e r req w)) = Store.cases w
    | Webhook.Failed _ | Webhook.Generated _ _ _ _ => True
    end.
Proof.
  intros sha256 usd e r req w.
  destruct (Webhook.serve sha256 usd e r req w) as [resp w'] eqn:E.
  apply (webhook_early_answers sha256 usd e r req w resp w' E).
Qed.

(** X24. What the webhook hands out opens the case: when it
    answers with a case, a URL, a passcode and an expiry, the URL is
    [<base>/cases/<case>?t=<token>], the expiry is 30 days after the
    clock reading of step 11, and a verification request with that
    case, token and passcode, served not later than the expiry by a
    datastore that answers every call, is answered SUCCESS with the
    columns of a case whose three figures are the double products of
    the W-2 count [n] of the deal with 3357, 1187 and 2170 as JSON
    carries them; for an integer count [z] with [z * 3357 < 2^53]
    they are the integers [z * 3357], [z * 1187] and [z * 2170].
    The table of cases is assumed consistent before the trigger. *)
Theorem X24_webhook_link_opens_with_issued_passcode :
  forall (sha256 : list byte -> list byte) (usd : Js.Formatting) e r req w rv c url p x,
    Webhook.body (fst (Webhook.serve sha256 usd e r req w)) = Webhook.Generated c url p x ->
    Invariant.consistent w ->
    Js.falsy c = false ->
    Webhook.token_bytes r <> [] ->
    Invariant.answering rv ->
    Validator.now rv <= x ->
    exists base cur prev n k,
      url = base ++ "/cases/" ++ c ++ "?t=" ++ Crypto.generateToken (Webhook.token_bytes r)
      /\ x = Webhook.expiry_base r + 30 * 24 * 60 * 60 * 1000
      /\ Props.trigger e req cur prev
      /\ Webhook.deal_w2_count cur = Some n
      /\ Store.case_pk k = c
      /\ Store.calc_total k = Js.json (Js.times n 3357)
      /\ Store.calc_er k = Js.json (Js.times n 1187)
      /\ Store.calc_ee k = Js.json (Js.times n 2170)
      /\ (forall z, n = Js.Int z -> z * 3357 < 2 ^ 53 ->
          0 < z
          /\ Store.calc_total k = Some (Js.Int (z * 3357))
          /\ Store.calc_er k = Some (Js.Int (z * 1187))
          /\ Store.calc_ee k = Some (Js.Int (z * 2170)))
      /\ fst (Validator.serve sha256 e rv
                (Props.verification
                   {| Validator.in_case_id := c;
                      Validator.in_token := Crypto.generateToken (Webhook.token_bytes r);
                      Validator.in_passcode := p |})
                (snd (Webhook.serve sha256 usd e r req w)))
         = Props.SUCCESS (Validator.selected_columns k).
Proof.
  intros sha256 usd e r req w rv c url p x Hbody (_ & _ & Hnd & _) Hc Hbytes
         (Hsel & _ & Hview & Hcase) Hnow.
  destruct (Webhook.serve sha256 usd e r req w) as [resp w'] eqn:E.
  cbn [fst snd] in *.
  destruct (reached_generation sha256 usd e r req w resp w' E)
    as (cur & prev & n & field & o & Htrig & Hw2 & Hgen & ->);
    [left; eauto|].
  apply generate_outcome in Hgen
    as [(-> & _)|[(? & -> & _)|[(? & -> & _)|[(? & ? & -> & _)
       |(c0 & pepper & base & Hp & Hpe & -> & Hups & Hfresh & Hlinks)]]]];
    try discriminate Hbody.
  cbn [Webhook.body] in Hbody. injection Hbody as -> <- <- <-.
  destruct (upserted_case _ _ _ _ _ Hnd Hups) as (k & Hmatch & Hcols).
  assert (Hin : In k (Store.matching_cases c (Store.cases w')))
    by (rewrite Hmatch; left; reflexivity).
  apply matching_cases_sound in Hin as [_ Hpk].
  exists base, cur, prev, n, k.
  split; [reflexivity|]. split; [reflexivity|]. split; [exact Htrig|].
  split; [exact Hw2|]. split; [exact Hpk|].
  pose proof (f_equal Validator.d_calc_total Hcols) as Htotal.
  pose proof (f_equal Validator.d_calc_er Hcols) as Her.
  pose proof (f_equal Validator.d_calc_ee Hcols) as Hee.
  cbn [Validator.selected_columns Validator.d_calc_total Validator.d_calc_er
       Validator.d_calc_ee Store.merge_case Store.calc_total Store.calc_er Store.calc_ee
       Invariant.webhook_row] in Htotal, Her, Hee.
  split; [exact Htotal|]. split; [exact Her|]. split; [exact Hee|].
  split.
  { intros z -> Hbound.
    pose proof Htrig as Hcount. unfold Props.trigger in Hcount.
    do 12 apply proj2 in Hcount. destruct Hcount as (n' & Hn' & Hnz & Hnp).
    rewrite Hw2 in Hn'. injection Hn' as <-.
    cbn [Js.not Js.le_zero] in Hnz, Hnp. apply Z.leb_gt in Hnp.
    rewrite Htotal, Her, Hee, !times_exact by lia.
    repeat split. exact Hnp. }
  assert (Hconf : Props.configured e pepper).
  { destruct Htrig as (_ & _ & _ & _ & _ & _ & _ & _ & Hurl & Hkey & _).
    repeat split; assumption. }
  rewrite (serve_found sha256 e rv _ w' pepper (Invariant.webhook_link sha256 r c pepper)
             Hconf).
  - unfold try_catch. rewrite check_correct.
    + rewrite (correct_branch_run rv _ _ k w' Hview); [reflexivity|].
      cbn [Validator.in_case_id]. rewrite Hcase, Hmatch. reflexivity.
    + reflexivity.
    + unfold Props.not_expired. apply Z.ltb_ge. exact Hnow.
    + reflexivity.
    + reflexivity.
  - unfold Props.well_formed. cbn [Validator.in_case_id Validator.in_token
                                   Validator.in_passcode].
    split; [exact Hc|]. split; [apply token_not_empty; exact Hbytes|].
    unfold Invariant.webhook_passcode.
    destruct (Webhook.passcode_bytes r) as [[[b0 b1] b2] b3]. apply passcode_not_empty.
  - unfold Props.found. cbn [Validator.in_case_id Validator.in_token].
    rewrite Hsel, Hlinks, (matching_links_fresh _ _ _ _ Hfresh); reflexivity.
Qed.

Lemma X24_witness :
  exists base cur prev n k,
    "https://app.example/cases/case-1?t=" ++ Crypto.generateToken (repeat x07 32)
    = base ++ "/cases/" ++ "case-1" ++ "?t=" ++ Crypto.generateToken (repeat x07 32)
    /\ 2592100003 = Webhook.expiry_base (Sample.event_run 100000) + 30 * 24 * 60 * 60 * 1000
    /\ Props.trigger Sample.environment Sample.event cur prev
    /\ Webhook.deal_w2_count cur = Some n
    /\ Store.case_pk k = "case-1"
    /\ Store.calc_total k = Js.json (Js.times n 3357)
    /\ Store.calc_er k = Js.json (Js.times n 1187)
    /\ Store.calc_ee k = Js.json (Js.times n 2170)
    /\ (forall z, n = Js.Int z -> z * 3357 < 2 ^ 53 ->
        0 < z
        /\ Store.calc_total k = Some (Js.Int (z * 3357))
        /\ Store.calc_er k = Some (Js.Int (z * 1187))
        /\ Store.calc_ee k = Some (Js.Int (z * 2170)))
    /\ fst (Validator.serve Sample.digest Sample.environment (Sample.at_time 200000)
              (Props.verification
                 {| Validator.in_case_id := "case-1";
                    Validator.in_token := Crypto.generateToken (repeat x07 32);
                    Validator.in_passcode := "066051" |})
              (snd (Webhook.serve Sample.digest Sample.formatUSD Sample.environment
                      (Sample.event_run 100000) Sample.event Sample.world)))
       = Props.SUCCESS (Validator.selected_columns k).
Proof.
  apply (X24_webhook_link_opens_with_issued_passcode Sample.digest Sample.formatUSD
           Sample.environment (Sample.event_run 100000) Sample.event Sample.world
           (Sample.at_time 200000) "case-1"
           ("https://app.example/cases/case-1?t=" ++ Crypto.generateToken (repeat x07 32))
           "066051" 2592100003).
  - vm_compute. reflexivity.
  - exact sample_world_consistent.
  - reflexivity.
  - discriminate.
  - repeat split.
  - vm_compute. discriminate.
Defined.

(** X25. A second delivery of a trigger right after a generation is
    skipped: when the webhook answered a trigger with a generated
    case, the same request, served on the resulting store by a
    datastore that answers the lookup, less than 60 seconds after the
    instant the generation recorded, is answered with [skipped], the
    reason [idempotency_window] and the identifier of that case, and
    writes nothing. *)
Theorem X25_second_delivery_is_skipped :
  forall (sha256 : list byte -> list byte) (usd : Js.Formatting) e r req w r2 c url p x,
    Webhook.body (fst (Webhook.serve sha256 usd e r req w)) = Webhook.Generated c url p x ->
    Webhook.case_select_fails r2 = false ->
    Webhook.date_now r2 - Webhook.generated_at r < 60 * 1000 ->
    Webhook.serve sha256 usd e r2 req (snd (Webhook.serve sha256 usd e r req w))
    = ({| Webhook.status := 200;
          Webhook.body := Webhook.SkippedIdempotent "idempotency_window" c |},
       snd (Webhook.serve sha256 usd e r req w)).
Proof.
  intros sha256 usd e r req w r2 c url p x Hbody Hsel Hwindow.
  destruct (Webhook.serve sha256 usd e r req w) as [resp w'] eqn:E.
  cbn [fst snd] in *.
  destruct (reached_generation sha256 usd e r req w resp w' E)
    as (cur & prev & n & field & o & Htrig & Hw2 & Hgen & ->);
    [left; eauto|].
  apply generate_outcome in Hgen
    as [(-> & _)|[(? & -> & _)|[(? & -> & _)|[(? & ? & -> & _)
       |(c0 & pepper & base & _ & _ & -> & Hups & _)]]]];
    try discriminate Hbody.
  cbn [Webhook.body] in Hbody. injection Hbody as -> _ _ _.
  apply upserted_deal in Hups as (k & Hdeal & <- & Hlast); [|reflexivity].
  cbn [Store.last_generated_at Invariant.webhook_row] in Hlast.
  destruct Htrig as (Hpost & (s & Hs & Hsf & Hsecret) & Hjson & (fk & Hfk & Hfkf)
                     & (yes & Hyes & Hyesf & Hcur & Hprev) & (fi & Hfi & Hfif)
                     & (fw & Hfw & Hfwf) & (fu & Hfu & Hfuf) & Hurl & Hkey
                     & Htitle & Hind & (n' & Hw2' & Hnz & Hnp)).
  unfold Webhook.serve. rewrite Hpost. cbn [negb].
  unfold try_catch, Webhook.receive.
  unfold bind at 1. rewrite (env_present e _ s w' Hs Hsf).
  rewrite Hsecret, String.eqb_refl. cbn [negb].
  unfold bind at 1. rewrite Hjson. unfold ret at 1.
  cbn [Webhook.current Webhook.previous].
  unfold bind at 1. rewrite (env_present e _ fk w' Hfk Hfkf).
  unfold bind at 1. rewrite (env_present e _ yes w' Hyes Hyesf).
  rewrite Hcur. cbn [Webhook.text]. rewrite String.eqb_refl.
  apply String.eqb_neq in Hprev. rewrite Hprev. cbn [negb orb].
  unfold bind at 1. rewrite (env_present e _ fi w' Hfi Hfif).
  unfold bind at 1. rewrite (env_present e _ fw w' Hfw Hfwf).
  unfold bind at 1. rewrite (env_present e _ fu w' Hfu Hfuf).
  rewrite Htitle, Hind, Hw2'. rewrite Hnz, Hnp.
  cbn [orb app List.length Z.of_nat Z.ltb Z.compare].
  unfold bind at 1. rewrite (service_client_present e w' Hurl Hkey).
  unfold bind at 1. unfold Store.select_case_of_deal, bind, get, ret.
  rewrite Hsel, Hdeal. cbn [Store.maybeSingle Store.data Store.pg_data]. rewrite Hlast.
  change (EdgeConstants.IDEMPOTENCY_WINDOW_SECONDS * 1000) with (60 * 1000).
  apply Z.ltb_lt in Hwindow. rewrite Hwindow. reflexivity.
Qed.

Lemma X25_witness :
  Webhook.serve Sample.digest Sample.formatUSD Sample.environment (Sample.event_run 130000)
    Sample.event
    (snd (Webhook.serve Sample.digest Sample.formatUSD Sample.environment
            (Sample.event_run 100000) Sample.event Sample.world))
  = ({| Webhook.status := 200;
        Webhook.body := Webhook.SkippedIdempotent "idempotency_window" "case-1" |},
     snd (Webhook.serve Sample.digest Sample.formatUSD Sample.environment
            (Sample.event_run 100000) Sample.event Sample.world)).
Proof.
  apply (X25_second_delivery_is_skipped Sample.digest Sample.formatUSD Sample.environment
           (Sample.event_run 100000) Sample.event Sample.world (Sample.event_run 130000)
           "case-1"
           ("https://app.example/cases/case-1?t=" ++ Crypto.generateToken (repeat x07 32))
           "066051" 2592100003).
  - vm_compute. reflexivity.
  - reflexivity.
  - vm_compute. reflexivity.
Defined.

(** X26. The webhook reads the pepper and inserts the link only
    after it has upserted the case and revoked its links, and undoes
    neither: when it answers 500 because [LINK_PEPPER] is missing or
    because the insert of the link was refused, and the datastore
    applied the revocation, the case of the deal is in the table with
    the instant of this generation as [last_generated_at], and no
    link of that case is live. *)
Theorem X26_failed_generation_leaves_the_case_without_live_link :
  forall (sha256 : list byte -> list byte) (usd : Js.Formatting) e r req w,
    Webhook.body (fst (Webhook.serve sha256 usd e r req w))
    = Webhook.Failed "Missing env var: LINK_PEPPER"
    \/ Webhook.body (fst (Webhook.serve sha256 usd e r req w))
       = Webhook.Failed "Failed to create link" ->
    Webhook.revoke_fails r = false ->
    exists cur prev k,
      Props.trigger e req cur prev
      /\ filter (Store.same_deal (Some (Webhook.deal_id cur)))
           (Store.cases (snd (Webhook.serve sha256 usd e r req w))) = [k]
      /\ Store.last_generated_at k = Some (Webhook.generated_at r)
      /\ Store.case_links (snd (Webhook.serve sha256 usd e r req w))
         = Props.active_revoked (Store.case_pk k) (Webhook.revoke_time r)
             (Store.case_links w)
      /\ forall l,
           In l (Store.case_links (snd (Webhook.serve sha256 usd e r req w))) ->
           Store.case_id l = Store.case_pk k -> Store.revoked_at l <> None.
Proof.
  intros sha256 usd e r req w Hbody Hrev.
  destruct (Webhook.serve sha256 usd e r req w) as [resp w'] eqn:E.
  cbn [fst snd] in *.
  destruct (reached_generation sha256 usd e r req w resp w' E)
    as (cur & prev & n & field & o & Htrig & Hw2 & Hgen & ->);
    [right; exact Hbody|].
  assert (Hwrites : exists c,
             Invariant.upserted (Webhook.deal_id cur)
               (Invariant.webhook_row usd r (Webhook.deal_id cur)
                  (Webhook.text (Webhook.title cur))
                  (Webhook.text (Webhook.deal_industry cur)) n)
               c (Store.cases w) (Store.cases w')
             /\ Store.case_links w'
                = Props.active_revoked c (Webhook.revoke_time r) (Store.case_links w)).
  { apply generate_outcome in Hgen
      as [(-> & _)|[(c & -> & Hups & Hlinks)|[(c & -> & Hups & Hlinks)|[(? & ? & -> & _)
         |(? & ? & ? & _ & _ & -> & _)]]]].
    - destruct Hbody as [Hbody|Hbody]; discriminate Hbody.
    - rewrite Hrev in Hlinks. exists c. split; assumption.
    - rewrite Hrev in Hlinks. exists c. split; assumption.
    - destruct Hbody as [Hbody|Hbody]; discriminate Hbody.
    - destruct Hbody as [Hbody|Hbody]; discriminate Hbody. }
  destruct Hwrites as (c & Hups & Hlinks).
  apply upserted_deal in Hups as (k & Hdeal & <- & Hlast); [|reflexivity].
  exists cur, prev, k. split; [exact Htrig|]. split; [exact Hdeal|].
  split; [exact Hlast|]. split; [exact Hlinks|].
  rewrite Hlinks. intros l. apply active_revoked_none_live.
Qed.

Lemma X26_witness :
  exists cur prev k,
    Props.trigger Scenario.environment_for_webhook_without_pepper Sample.event cur prev
    /\ filter (Store.same_deal (Some (Webhook.deal_id cur)))
         (Store.cases
            (snd (Webhook.serve Sample.digest Sample.formatUSD
                    Scenario.environment_for_webhook_without_pepper
                    (Sample.event_run 100000) Sample.event Sample.world))) = [k]
    /\ Store.last_generated_at k = Some 100001
    /\ Store.case_links
         (snd (Webhook.serve Sample.digest Sample.formatUSD
                 Scenario.environment_for_webhook_without_pepper
                 (Sample.event_run 100000) Sample.event Sample.world))
       = Props.active_revoked (Store.case_pk k) 100002 (Store.case_links Sample.world)
    /\ forall l,
         In l (Store.case_links
                 (snd (Webhook.serve Sample.digest Sample.formatUSD
                         Scenario.environment_for_webhook_without_pepper
                         (Sample.event_run 100000) Sample.event Sample.world))) ->
         Store.case_id l = Store.case_pk k -> Store.revoked_at l <> None.
Proof.
  apply (X26_failed_generation_leaves_the_case_without_live_link Sample.digest
           Sample.formatUSD Scenario.environment_for_webhook_without_pepper
           (Sample.event_run 100000) Sample.event Sample.world).
  - left. vm_compute. reflexivity.
  - reflexivity.
Defined.

(** ** What a rotation leaves alone *)

Section RotationIsolation.
Import Store Props.

Lemma active_revoked_elsewhere c t ls l :
  In l ls -> case_id l <> c -> In l (active_revoked c t ls).
Proof.
  intros Hin Hc. unfold active_revoked. apply in_map_iff. exists l.
  split; [|exact Hin]. apply String.eqb_neq in Hc. rewrite Hc. reflexivity.
Qed.

Lemma touched_elsewhere c t ks k :
  In k ks -> case_pk k <> c ->
  In k (map (fun x => if String.eqb (case_pk x) c then Invariant.touched x t else x) ks).
Proof.
  intros Hin Hc. apply in_map_iff. exists k.
  split; [|exact Hin]. apply String.eqb_neq in Hc. rewrite Hc. reflexivity.
Qed.

End RotationIsolation.

(** X27. A rotation answered with 200 touches one case only: every
    link of another case is in the table afterwards exactly as it was
    (neither revoked nor otherwise changed), every other case row is
    unchanged, and the table of links grew by exactly one row, which
    belongs to the rotated case. *)
Theorem X27_rotation_leaves_other_cases_alone :
  forall (sha256 : list byte -> list byte) e r c w,
    Regenerate.status (fst (Regenerate.serve sha256 e r (Props.rotation c) w)) = 200 ->
    (forall l, In l (Store.case_links w) -> Store.case_id l <> c ->
               In l (Store.case_links (snd (Regenerate.serve sha256 e r (Props.rotation c) w))))
    /\ (forall k, In k (Store.cases w) -> Store.case_pk k <> c ->
                  In k (Store.cases (snd (Regenerate.serve sha256 e r (Props.rotation c) w))))
    /\ List.length (Store.case_links (snd (Regenerate.serve sha256 e r (Props.rotation c) w)))
       = S (List.length (Store.case_links w))
    /\ List.length (Store.cases (snd (Regenerate.serve sha256 e r (Props.rotation c) w)))
       = List.length (Store.cases w).
Proof.
  intros sha256 e r c w Hs.
  destruct (Regenerate.serve sha256 e r (Props.rotation c) w) as [resp w'] eqn:E.
  cbn [fst snd] in *.
  destruct (rotation_issued sha256 e r (Props.rotation c) w resp w' E Hs eq_refl)
    as (c' & pepper & base & k & Hjson & _ & _ & _ & _ & _ & Hlinks & Hcases).
  cbn [Props.rotation Regenerate.json] in Hjson. injection Hjson as <-.
  rewrite Hlinks, Hcases. repeat apply conj.
  - intros l Hin Hc. apply in_or_app. left.
    destruct (Regenerate.revoke_fails r); [exact Hin|].
    apply active_revoked_elsewhere; assumption.
  - intros k0 Hin Hc. destruct (Regenerate.touch_fails r); [exact Hin|].
    apply touched_elsewhere; assumption.
  - rewrite length_app. cbn [List.length].
    destruct (Regenerate.revoke_fails r);
      [|unfold Props.active_revoked; rewrite length_map]; lia.
  - destruct (Regenerate.touch_fails r); [reflexivity | apply length_map].
Qed.

Lemma X27_witness :
  (forall l, In l (Store.case_links Sample.world_after_route) ->
             Store.case_id l <> "case-1" ->
             In l (Store.case_links
                     (snd (Regenerate.serve Sample.digest Sample.environment
                             Sample.rotation_run (Props.rotation "case-1")
                             Sample.world_after_route))))
  /\ List.length
       (Store.case_links
          (snd (Regenerate.serve Sample.digest Sample.environment Sample.rotation_run
                  (Props.rotation "case-1") Sample.world_after_route)))
     = S (List.length (Store.case_links Sample.world_after_route)).
Proof.
  destruct (X27_rotation_leaves_other_cases_alone Sample.digest Sample.environment
              Sample.rotation_run "case-1" Sample.world_after_route)
    as (Hlinks & _ & Hlen & _).
  - vm_compute. reflexivity.
  - split; [exact Hlinks | exact Hlen].
Defined.
